(* ===== verification/_CoqProject ===== *)
-Q . S2P
Prelude.v
PyText.v
Calendar.v
Frame.v
Spec.v
Encoder.v
Stats.v
State.v
Cleaner.v
Features.v
Sklearn.v
Trainer.v
Artifact.v
Predictor.v
Pipeline.v
