(* ===== verification/Prelude.v ===== *)
(** * Flight-fare prediction pipeline: a verification development

    The program ([src/main_model.py], class [FlightPricePredictor]) trains a
    regressor on scraped flight listings and serves point predictions.  One
    object carries the state; its methods run in the order
    [load_and_preprocess_data], [feature_engineering],
    [train_and_evaluate_models], [save_model] / [load_model],
    [predict_single_flight].  The parts, and the file that models each:

    - Python text primitives the code relies on ([str.split], [str.strip],
      [int], slicing, [in]):                                    [PyText.v]
    - pandas timestamps ([.dt.hour], [.dt.dayofweek], [.dt.month], the
      [.dt.days] of a difference) and the interface [DatetimeParser] of
      [pd.to_datetime] with an ISO-like instance:                [Calendar.v]
    - data-frame cells, rows and tables; [fillna], [dropna],
      [astype(str)], column assignment and selection:            [Frame.v]
    - what the row-wise feature derivation promises, on typed data and
      without pandas (an itinerary determines thirteen columns): [Spec.v]
    - [LabelEncoder] as used at [main_model.py:165-169] and [:416-426]:
                                                                 [Encoder.v]
    - the series statistics [mean], [std], [min], [max], [quantile]:
                                                                 [Stats.v]
    - the attributes of the object ([__init__], [main_model.py:18-32]) and
      the interface [Regressor] of a fitted model:               [State.v]
    - DataCleaner, [load_and_preprocess_data] ([main_model.py:34-95]), with
      the interface [CsvReader] of [pd.read_csv]:                [Cleaner.v]
    - FeatureEngineer, [feature_engineering] ([main_model.py:97-194]) with
      its nested helpers [categorize_advance_booking], [time_to_minutes],
      [categorize_time_of_day]:                                  [Features.v]
    - what the trainer calls of scikit-learn ([train_test_split], [KFold],
      [cross_val_score], the metrics), modelled from its documentation,
      with the interfaces [Learner] of the estimators and [Shuffler] of
      the seeded permutation:                                    [Sklearn.v]
    - ModelTrainer, [train_and_evaluate_models]
      ([main_model.py:196-288]):                                 [Trainer.v]
    - ArtifactStore, [save_model] / [load_model]
      ([main_model.py:321-351]):                                 [Artifact.v]
    - Predictor, [predict_single_flight] ([main_model.py:353-449]) and the
      requests of [demo_predictions] ([:454-488]):               [Predictor.v]
    - the driver: [demo_predictions], [analyze_data_distribution],
      [run_complete_pipeline], [test_saved_model] and the script
      ([main_model.py:451-578]):                                 [Pipeline.v]

    ** How state and operations correspond to the code

    A data-frame row is a finite map from column names to cells
    ([gmap string val]) and a table is the list of its rows; an assignment
    [df['c'] = e] is an insertion in every row ([Frame.assign]), an access
    [df['c']] a lookup that raises [KeyError] when the column is absent.
    The column-wise statements of the code that do not look across rows are
    modelled row by row; those that do (duplicates, quantiles, group
    counts, encoders, the null mask) take the table.  A cell ([Frame.val])
    is a string, an integer ([int64] column), a rational standing for a
    [float64], a timestamp, or null ([NaN], [NaT], [None]).  What a table
    has beyond its rows is the dtype of its columns, which the two [.str]
    accessors of the code consult ([main_model.py:90] and [:154]): a column
    is of dtype [object] when [read_csv] found a text in it, and the
    accessor raises [AttributeError] on any other column.  The object keeps
    the names of these columns in the field [State.object_columns], set
    when the file is read ([Frame.object_dtype], [Frame.assign_str]).  Python
    exceptions are values of type [error] carried by the [result] monad of
    this file: a definition that models code which can raise returns
    [result _], and a [try/except] is a [match] on it.  The object is the
    record [State.FlightPricePredictor]; a method takes it and returns the
    object it leaves, every assignment to [self] being a field of the
    returned record.  The results dictionary of the trainer is an
    association list in insertion order ([Trainer.dict_set]), because the
    selection by [min] depends on that order.  The pickle files are a
    finite map from file names to bundles, a bundle ([Artifact.artifact])
    having one optional field per key of the pickled dictionary, so that
    [load_model] can meet a file written by an older version.  The things
    the program only calls are interfaces (type classes):
    [Calendar.DatetimeParser], [Cleaner.CsvReader], [State.Regressor],
    [Sklearn.Learner] and [Sklearn.Shuffler]; theorems are proved against
    them, and the worked examples instantiate them ([iso_parser],
    [memory_reader], [constant_regressor], [sum_regressor], [toy_learner],
    [reverse_shuffler]).

    ** What the theorems show

    - [PyText]: stripping is idempotent and leaves no blank at either end;
      [join] inverts [split], and [split] returns the pieces of a joined
      text; [int] reads a two-digit numeral, with or without a minus sign,
      as its value.
    - [Calendar]: the day count grows by one from each valid date to the
      next, across months and years; the day of week lies in 0..6; a
      parsed timestamp is a valid one.
    - [Spec]: the buckets of the derived columns partition the integers,
      the duration of two times of day is the difference modulo a day, and
      a row with the derived columns set holds exactly them.
    - [Encoder]: the vocabulary of a fitted encoder is sorted and
      duplicate-free, [transform] and [inverse_transform] are inverse on it,
      codes are below the vocabulary size and follow the order of the
      labels, and an unseen label raises.
    - [Stats]: a quantile lies between the least and the greatest value
      and is monotone in its level; the mean lies between them; some value
      lies between the two quartile fences.
    - [Cleaner]: every row the method leaves has parsed timestamps and a
      trimmed, non-empty aircraft type; the recorded price statistics are
      inside the outlier fences and ordered; on a file of the expected cell
      types the method returns exactly when the aircraft-type column has
      the dtype of texts, and raises the [AttributeError] of line 90 when
      no row names an aircraft type ([load_total]); the outlier filter
      never empties a table; on every file the quartiles recorded are
      those of the deduplicated prices and minimum, maximum and mean those
      of the prices inside the fence, of which the prices of the cleaned
      table are a sublist ([price_stats_before_row_drops]).
    - [Features]: the method implements [Spec] on whole tables
      ([feature_engineering_refines]); the feature matrix it leaves has
      twenty columns, no missing cell and as many targets as rows; each
      categorical column gets a fitted encoder and its codes; the helper
      functions partition their domains at the documented boundaries;
      [flight_duration] is in [0, 1440) whenever both clock times are times
      of day, and for clock texts with any two digits as hour exactly when
      the two readings are less than a day apart
      ([flight_duration_exceeds_day]).
    - [Predictor]: a request and a table row that stand for the same
      itinerary get the same derived columns ([train_predict_agree]), and
      an unreadable clock time is the one place where the two paths differ;
      the encoding fallback never raises and collides with the code of the
      least label; the clipped prediction lies between floor and ceiling
      when the floor does not exceed the ceiling, and equals the ceiling
      otherwise; a ready object (the boolean [ready]: a model that expects
      the feature columns, the encoders, the popularity means, readable
      statistics) answers every request that carries its nine fields with
      timestamps that parse ([predict_total]); a missing model raises, and
      on a ready object a request that omits a text field raises the
      [KeyError] of the selection at line 435 ([predict_missing_field]).
    - [Sklearn]: the 80/20 split and the five folds are partitions of the
      rows (every row with its target, none lost or repeated, fit and score
      rows disjoint in each fold); the errors are non-negative, R2 is at
      most 1, and the mean absolute error is 0 exactly on a perfect fit;
      cross-validation succeeds whenever the estimator fits every table.
    - [Trainer]: the selected model is the first candidate of least mean
      cross-validated error, whatever the test errors; every entry of the
      results is well formed and its model expects the columns of the
      matrix; training returns on every numeric matrix of at least seven
      rows and raises on two to six.
    - [Artifact]: loading what was saved restores the bundle and nothing
      else; an artifact without the statistics loads with the defaults of
      the code; a missing key or file raises.
    - [Pipeline]: after a complete run, a fresh object that loads the file
      the run wrote predicts what the trained object predicts
      ([saved_model_serves]); a run that returns leaves a ready object, so
      that it and every object that loads the file answer every complete
      request with the same number ([pipeline_serves]); a run on a concrete
      season of listings is evaluated end to end.

    ** Numbers, bounds and fuel

    Python integers are [Z].  Floats are exact rationals ([Q]): rounding of
    IEEE doubles is not modelled, so theorems about statistics speak of the
    exact values the floating-point code approximates; [std] is kept as its
    square because the square root of a rational need not be rational.
    Strings are byte strings; the text primitives treat bytes above 127 as
    ordinary non-blank, non-digit characters, so the model agrees with
    Python on ASCII input and is silent on the Unicode digits and blanks
    Python also accepts.  Every recursion is structural on a list or a
    string; the one counter, in [Calendar.take_fraction], bounds the
    fractional digits of a second by nine, the resolution of a pandas
    timestamp.  No definition takes fuel.  RMSE and the standard deviation
    of the cross-validation scores are kept as their squares, for the same
    reason as [std].  The size of the test part is the exact ceiling of a
    fifth of the rows; scikit-learn computes [ceil(0.2 * n)] in doubles,
    which is the same number for every table below two million rows.

    ** Not modelled

    Printing, plotting ([plot_learning_curves], [main_model.py:290-319],
    which only draws), the scikit-learn estimators themselves (a fitted
    model is an abstract function from a feature vector to a price,
    [State.Regressor], and fitting is the interface [Sklearn.Learner] whose
    one law is that the model expects the number of columns it was fitted
    on), the permutation NumPy draws for a seed ([Sklearn.Shuffler], any
    permutation), the byte format of pickle (a file is the bundle that was
    dumped), [pd.to_datetime] on numbers, [astype(str)] on floats and
    timestamps (both raise in the model), and [src/screenshot.py] (browser
    automation).

    ** Simplifications to keep in mind

    - A method that raises leaves no object: the result is the error, and
      the assignments to [self] made before the raise are not kept (after
      [load_model] meets a missing key the Python object holds the
      attributes assigned so far).  No theorem speaks of an object after
      an error.
    - A table is known by its rows: [col in df.columns]
      ([Features.in_columns]) holds when every row has the column, so a
      table without rows has every column, and the [KeyError] of a missing
      column is raised by the first row that lacks it.  Of the dtypes only
      text against the rest is kept ([State.object_columns]); a column
      that mixes texts and numbers is of dtype [object], and the numbers
      of such a column become missing under [.str], as in pandas.
    - [drop_duplicates] compares rows cell by cell with the equality of
      [Frame.val]: two floats are equal when the reader built the same
      fraction for them, and two missing cells are equal, as pandas has
      it.
    - A request ([Predictor.frame_of]) holds texts only, as the
      demonstration requests do.
    - [Pipeline.test_saved_model] returns the prediction the code prints.
    - The default popularity statistics of [load_model] and the entry
      [std] of [price_stats] hold the variance where the code holds the
      standard deviation (50 is stored as 2500); the program never reads
      either.
    - Lines 280-288 of [train_and_evaluate_models] only print the table of
      results and are left out.
    - The scikit-learn calls are mapped at the line that calls them
      ([train_test_split] at line 197, [KFold] at 228, [cross_val_score]
      at 233, [LabelEncoder.fit_transform] at 168 and [transform] at 420);
      their bodies are modelled from the libraries' documentation.

    ** This file

    The prelude: the [error] type and the [result] monad with stdpp's bind
    notation, tactics and the hint database [flight], and generic lemmas on
    floor division, options, lists and sorted lists that the component
    files share. *)

From Stdlib Require Import QArith Lqa.
From stdpp Require Import base tactics option list strings numbers sorting.

#[local] Open Scope Z_scope.

(** ** Python exceptions as values *)

(** The exception classes the program raises or lets escape. *)
Inductive error : Type :=
| KeyError (column : string)
| ValueError (what : string)
| AttributeError (what : string)
| TypeError (what : string)
| FileNotFoundError (filename : string).

#[global] Instance error_eq_dec : EqDecision error.
Proof. solve_decision. Defined.

(** A computation that returns a value or raises. *)
Inductive result (A : Type) : Type :=
| Ok (a : A)
| Raise (e : error).
Arguments Ok {A} a.
Arguments Raise {A} e.

#[global] Instance result_eq_dec `{EqDecision A} : EqDecision (result A).
Proof. solve_decision. Defined.

#[global] Instance result_ret : MRet result := @Ok.
#[global] Instance result_bind : MBind result := λ A B f m,
  match m with Ok a => f a | Raise e => Raise e end.
#[global] Instance result_fmap : FMap result := λ A B f m,
  match m with Ok a => Ok (f a) | Raise e => Raise e end.

(** [try: m except: d] is Python's [try: m except: d] with a bare [except]. *)
Definition try_except {A} (m : result A) (d : A) : A :=
  match m with Ok a => a | Raise _ => d end.

(** An absent value raises the given exception. *)
Definition or_raise {A} (o : option A) (e : error) : result A :=
  match o with Some a => Ok a | None => Raise e end.

(** A successful run, as a proposition and as a projection. *)
Definition is_Ok {A} (m : result A) : Prop := ∃ a, m = Ok a.

(** The same as a boolean, which a concrete run decides by evaluation to
    its head constructor. *)
Definition returns {A} (m : result A) : bool :=
  match m with Ok _ => true | Raise _ => false end.

Definition result_to_option {A} (m : result A) : option A :=
  match m with Ok a => Some a | Raise _ => None end.

(** [mapM] for [result]: the first exception wins, as in a Python loop. *)
Fixpoint result_mapM {A B} (f : A → result B) (l : list A) : result (list B) :=
  match l with
  | [] => Ok []
  | x :: l => y ← f x; ys ← result_mapM f l; Ok (y :: ys)
  end.

(** ** Tactics *)

(** Case analysis on the scrutinee of the first [match] or [if] of the goal. *)
Ltac case_scrutinee :=
  match goal with
  | |- context [match ?x with _ => _ end] =>
      lazymatch x with
      | context [match _ with _ => _ end] => fail
      | _ => destruct x eqn:?
      end
  end.

(** Simplify hypotheses that equate results. *)
Ltac simplify_result :=
  repeat (simpl in *; match goal with
  | H : Ok _ = Ok _ |- _ => injection H as H
  | H : Ok _ = Raise _ |- _ => discriminate H
  | H : Raise _ = Ok _ |- _ => discriminate H
  | H : Raise _ = Raise _ |- _ => injection H as H
  | H : mbind _ ?m = Ok _ |- _ =>
      let E := fresh "E" in destruct m eqn:E; simpl in H; [|discriminate H]
  | H : is_Ok _ |- _ => destruct H as [? H]
  end); simplify_eq/=.

(** Turn the boolean comparisons of [Z] in the context into propositions. *)
Ltac Zbool :=
  repeat match goal with
  | H : (_ <? _) = true |- _ => apply Z.ltb_lt in H
  | H : (_ <? _) = false |- _ => apply Z.ltb_ge in H
  | H : (_ <=? _) = true |- _ => apply Z.leb_le in H
  | H : (_ <=? _) = false |- _ => apply Z.leb_gt in H
  | H : (_ =? _) = true |- _ => apply Z.eqb_eq in H
  | H : (_ =? _) = false |- _ => apply Z.eqb_neq in H
  end.

(** Case analysis on every integer comparison of the goal. *)
Ltac Zcompare_cases :=
  repeat match goal with
  | |- context [?a <=? ?b] => destruct (Z.leb_spec a b); simpl
  | |- context [?a <? ?b] => destruct (Z.ltb_spec a b); simpl
  end.

(** Floor division and modulo by a positive literal, for [lia]. *)
Ltac lia_div := Z.div_mod_to_equations; lia.

Create HintDb flight discriminated.
Create Rewrite HintDb flight.

(** Rewrite with the equations of the cell operations (database [flight])
    and reduce the binds they expose, until nothing changes. *)
Ltac flight_simpl := repeat (progress (autorewrite with flight; simpl)).

(** ** The result monad *)

Section result_lemmas.
Context {A B : Type}.
Implicit Types (m : result A) (f : A → result B).

Lemma bind_Ok_inv m f b :
  m ≫= f = Ok b → ∃ a, m = Ok a ∧ f a = Ok b.
Proof. destruct m; simpl; [eauto | discriminate]. Qed.

Lemma bind_Ok_iff m f b :
  m ≫= f = Ok b ↔ ∃ a, m = Ok a ∧ f a = Ok b.
Proof. split; [apply bind_Ok_inv | by intros (a & -> & ?)]. Qed.

Lemma bind_Raise_inv m f e :
  m ≫= f = Raise e → m = Raise e ∨ ∃ a, m = Ok a ∧ f a = Raise e.
Proof. destruct m; simpl; [eauto | intros [= ->]; by left]. Qed.

Lemma fmap_Ok_inv (g : A → B) m b :
  g <$> m = Ok b → ∃ a, m = Ok a ∧ b = g a.
Proof. destruct m; intros [= <-]. eauto. Qed.

Lemma is_Ok_bind m f :
  is_Ok (m ≫= f) ↔ ∃ a, m = Ok a ∧ is_Ok (f a).
Proof.
  split.
  - intros [b Hb]. apply bind_Ok_inv in Hb as (a & ? & ?).
    exists a. split; [done | by exists b].
  - intros (a & -> & b & Hb). by exists b.
Qed.

Lemma or_raise_Ok (o : option A) e a : or_raise o e = Ok a ↔ o = Some a.
Proof. destruct o; simpl; split; congruence. Qed.

Lemma or_raise_Raise (o : option A) e e' :
  or_raise o e = Raise e' ↔ o = None ∧ e' = e.
Proof. destruct o; simpl; split; intros; simplify_eq; intuition congruence. Qed.

Lemma try_except_Ok m d a : m = Ok a → try_except m d = a.
Proof. by intros ->. Qed.

Lemma try_except_Raise m d e : m = Raise e → try_except m d = d.
Proof. by intros ->. Qed.
End result_lemmas.

Lemma returns_is_Ok {A} (m : result A) : returns m = true ↔ is_Ok m.
Proof. destruct m; split; [by eexists|done|done|by intros [? ?]]. Qed.

#[export] Hint Rewrite @try_except_Ok @try_except_Raise
  using eassumption : flight.

Section result_mapM_lemmas.
Context {A B : Type} (f : A → result B).

Lemma result_mapM_length l ys :
  result_mapM f l = Ok ys → length ys = length l.
Proof.
  revert ys. induction l as [|x l IH]; intros ys H; simplify_result; [done|].
  simpl. f_equal. by apply IH.
Qed.

Lemma result_mapM_Forall2 l ys :
  result_mapM f l = Ok ys ↔ Forall2 (λ x y, f x = Ok y) l ys.
Proof.
  revert ys. induction l as [|x l IH]; intros ys; simpl.
  - split; [intros [= <-]; constructor | by inversion 1].
  - split.
    + intros H. simplify_result. constructor; [done | by apply IH].
    + inversion 1 as [|? y ? ys' Hx Hl]; subst. rewrite Hx. simpl.
      apply IH in Hl. by rewrite Hl.
Qed.

Lemma result_mapM_total l :
  Forall (λ x, is_Ok (f x)) l → is_Ok (result_mapM f l).
Proof.
  induction 1 as [|x l [y Hy] _ [ys Hys]]; [by exists []|].
  exists (y :: ys). simpl. by rewrite Hy; simpl; rewrite Hys.
Qed.

Lemma result_mapM_elem l ys y :
  result_mapM f l = Ok ys → y ∈ ys → ∃ x, x ∈ l ∧ f x = Ok y.
Proof.
  rewrite result_mapM_Forall2. induction 1 as [|x y' l ys Hx _ IH].
  - by intros ?%elem_of_nil.
  - intros [->|Hy]%elem_of_cons; [exists x; split; [left|done]|].
    destruct (IH Hy) as (x' & ? & ?). exists x'. split; [by right|done].
Qed.

(** A property of the arguments that every result acquires. *)
Lemma result_mapM_Forall (P : A → Prop) (Q : B → Prop) l l' :
  result_mapM f l = Ok l' → Forall P l → (∀ x y, P x → f x = Ok y → Q y) →
  Forall Q l'.
Proof.
  intros Hl HP HQ. apply Forall_forall. intros y Hy.
  destruct (result_mapM_elem _ _ _ Hl Hy) as (x & Hx & Hxy).
  eapply HQ; [|done]. by eapply Forall_forall in HP.
Qed.

Lemma result_mapM_fmap (g : A → B) l :
  Forall (λ x, f x = Ok (g x)) l → result_mapM f l = Ok (g <$> l).
Proof. induction 1 as [|x l Hx _ IH]; [done|]. simpl. by rewrite Hx, IH. Qed.

Lemma result_mapM_compose {C} (g : B → result C) l ys zs :
  result_mapM f l = Ok ys → result_mapM g ys = Ok zs →
  Forall2 (λ x z, ∃ y, f x = Ok y ∧ g y = Ok z) l zs.
Proof.
  rewrite result_mapM_Forall2. intros H1. revert zs.
  induction H1 as [|x y l ys Hx _ IH]; intros zs Hg; simplify_result;
    constructor; eauto.
Qed.
End result_mapM_lemmas.

Lemma zip_with_Forall2 {A B C} (f : A → B → C) (R : A → B → Prop)
    (P : A → C → Prop) l k :
  Forall2 R l k → (∀ x y, R x y → P x (f x y)) → Forall2 P l (zip_with f l k).
Proof. induction 1; simpl; constructor; auto. Qed.

Lemma existsb_false_Forall {A} (p : A → bool) l :
  existsb p l = false ↔ Forall (λ x, p x = false) l.
Proof.
  induction l as [|x l IH]; simpl; [by split; [constructor|]|].
  by rewrite orb_false_iff, Forall_cons, IH.
Qed.

Lemma forallb_decide {A} (P : A → Prop) `{∀ x, Decision (P x)} l :
  forallb (λ x, bool_decide (P x)) l = true ↔ ∀ x, x ∈ l → P x.
Proof.
  rewrite <-Is_true_true, forallb_True, Forall_forall.
  by setoid_rewrite bool_decide_spec.
Qed.

(** ** Rationals *)

#[global] Instance Qle_dec : RelDecision Qle.
Proof.
  intros x y. destruct (Qlt_le_dec y x) as [H|H]; [right | by left].
  by apply Qlt_not_le.
Defined.

#[global] Instance Qlt_dec : RelDecision Qlt.
Proof.
  intros x y. destruct (Qlt_le_dec x y) as [H|H]; [by left | right].
  by apply Qle_not_lt.
Defined.

#[global] Instance Qle_preorder : PreOrder Qle.
Proof. split; [exact Qle_refl | exact Qle_trans]. Qed.

#[global] Instance Qle_total : Total Qle.
Proof. intros x y. destruct (Qlt_le_dec x y); [left; by apply Qlt_le_weak | by right]. Qed.

(** ** Floor division *)

Lemma Zdiv_interval (a b lo hi : Z) :
  0 < b → lo * b ≤ a < hi * b → lo ≤ a / b < hi.
Proof.
  intros Hb [Hlo Hhi]. split.
  - apply Z.div_le_lower_bound; lia.
  - apply Z.div_lt_upper_bound; lia.
Qed.

Lemma Zdiv_interval_inv (a b lo hi : Z) :
  0 < b → lo ≤ a / b < hi → lo * b ≤ a < hi * b.
Proof.
  intros Hb [Hlo Hhi].
  pose proof (Z.mul_div_le a b Hb). pose proof (Z.mul_succ_div_gt a b Hb). nia.
Qed.

(** ** Options and lists *)

(** Number of elements of a list satisfying a decidable predicate, the
    counterpart of a pandas [size()] / [value_counts()] entry. *)
Definition count_if {A} (P : A → Prop) `{∀ x, Decision (P x)} (l : list A) : nat :=
  length (filter P l).

Section count_if.
Context {A : Type} (P : A → Prop) `{∀ x, Decision (P x)}.

Lemma count_if_app l k : count_if P (l ++ k) = (count_if P l + count_if P k)%nat.
Proof. unfold count_if. by rewrite list.filter_app, length_app. Qed.

Lemma count_if_le l : (count_if P l ≤ length l)%nat.
Proof. apply length_filter. Qed.

Lemma count_if_pos l x : x ∈ l → P x → (0 < count_if P l)%nat.
Proof.
  intros Hx HP. unfold count_if.
  assert (x ∈ filter P l) as Hin by (by apply list_elem_of_filter).
  destruct (filter P l); [by apply elem_of_nil in Hin | simpl; lia].
Qed.

Lemma count_if_Permutation l k : l ≡ₚ k → count_if P l = count_if P k.
Proof. intros Hp. unfold count_if. by rewrite Hp. Qed.
End count_if.

Lemma filter_Forall_id {A} (P : A → Prop) `{∀ x, Decision (P x)} l :
  Forall P l → filter P l = l.
Proof.
  induction 1 as [|x l Hx _ IH]; [done|]. by rewrite filter_cons_True, IH.
Qed.

Lemma Forall_sublist {A} (P : A → Prop) l k : sublist l k → Forall P k → Forall P l.
Proof.
  intros Hs%sublist_subseteq Hk. apply Forall_forall. intros x Hx.
  eapply Forall_forall in Hk; [done|]. by apply Hs.
Qed.

Lemma Forall_filter {A} (P Q : A → Prop) `{∀ x, Decision (Q x)} l :
  Forall P l → Forall P (filter Q l).
Proof. apply Forall_sublist, sublist_filter. Qed.

(** ** Sorted lists *)

Section sorted.
Context {A : Type} (R : relation A).

Lemma StronglySorted_strict (l : list A) :
  AntiSymm (=) R → StronglySorted R l → NoDup l → StronglySorted (strict R) l.
Proof.
  intros HR. induction 1 as [|x l Hl IH Hx]; intros Hnd; [constructor|].
  apply NoDup_cons in Hnd as [Hnx Hnd]. constructor; [by apply IH|].
  apply Forall_forall. intros y Hy. apply strict_spec_alt.
  split; [by eapply Forall_forall in Hx | by intros ->].
Qed.

Lemma StronglySorted_NoDup (l : list A) :
  Irreflexive R → StronglySorted R l → NoDup l.
Proof.
  intros HR. induction 1 as [|x l Hl IH Hx]; constructor; [|done].
  intros Hin. eapply Forall_forall in Hx; [|done]. by apply (HR x).
Qed.

Lemma StronglySorted_lookup_lt (l : list A) i j x y :
  StronglySorted R l → l !! i = Some x → l !! j = Some y → (i < j)%nat → R x y.
Proof.
  intros Hl. revert i j. induction Hl as [|z l Hl IH Hz]; intros i j Hi Hj Hij.
  { by rewrite lookup_nil in Hi. }
  destruct j as [|j]; [lia|]. destruct i as [|i]; simplify_eq/=.
  - eapply Forall_forall in Hz; [done|]. by eapply list_elem_of_lookup_2.
  - eapply IH; [done..|lia].
Qed.

Lemma StronglySorted_lookup_le `{!Reflexive R} (l : list A) i j x y :
  StronglySorted R l → l !! i = Some x → l !! j = Some y → (i ≤ j)%nat → R x y.
Proof.
  intros Hl Hi Hj Hij. destruct (decide (i = j)) as [->|]; [by simplify_eq|].
  eapply StronglySorted_lookup_lt; [done..|lia].
Qed.
End sorted.
