(* ===== verification/PyText.v ===== *)
(** * Python text primitives

    The string operations [src/main_model.py] applies to cells:
    [str.split(':')] and [int] inside [time_to_minutes] (line 121),
    [str.strip] (line 90), the slice [[:2]] (lines 154, 411) and the
    membership test ['T' in date_str] (line 79).  Strings are Rocq byte
    strings; the definitions follow CPython on ASCII input.  [int] raises
    [ValueError] as a value of the [result] monad. *)

From S2P Require Import Prelude.
From Stdlib Require Import Ascii String.
From stdpp Require Import base tactics option list strings numbers.

#[local] Open Scope string_scope.
#[local] Open Scope Z_scope.

(** ** Characters *)

(** [str.isspace] on a one-byte character: TAB..CR, FS..US and space. *)
Definition py_isspace (c : ascii) : bool :=
  let n := N_of_ascii c in
  ((9 <=? n) && (n <=? 13) || (28 <=? n) && (n <=? 32))%N.

(** The value of a decimal digit. *)
Definition digit_of (c : ascii) : option Z :=
  let n := N_of_ascii c in
  if ((48 <=? n) && (n <=? 57))%N then Some (Z.of_N n - 48) else None.

(** The character of a decimal digit, for printing. *)
Definition digit_char (d : Z) : ascii := ascii_of_N (Z.to_N (d + 48)).

(** ** [str.strip], slices and membership *)

Fixpoint lstrip (s : string) : string :=
  match s with
  | String c s' => if py_isspace c then lstrip s' else s
  | "" => ""
  end.

Fixpoint rstrip (s : string) : string :=
  match s with
  | String c s' =>
      match rstrip s' with
      | "" => if py_isspace c then "" else String c ""
      | r => String c r
      end
  | "" => ""
  end.

Definition strip (s : string) : string := rstrip (lstrip s).

(** [s[:n]] *)
Fixpoint str_take (n : nat) (s : string) : string :=
  match n, s with
  | S n, String c s' => String c (str_take n s')
  | _, _ => ""
  end.

(** [c in s] for a one-character [c] *)
Fixpoint str_contains (c : ascii) (s : string) : bool :=
  match s with
  | String d s' => Ascii.eqb d c || str_contains c s'
  | "" => false
  end.

(** All characters of a string satisfy a test. *)
Fixpoint str_forall (p : ascii → bool) (s : string) : bool :=
  match s with
  | String c s' => p c && str_forall p s'
  | "" => true
  end.

(** ** [str.split(sep)] and [sep.join] for a one-character separator *)

Fixpoint split (sep : ascii) (s : string) : list string :=
  match s with
  | "" => [""]
  | String c s' =>
      if Ascii.eqb c sep then "" :: split sep s'
      else match split sep s' with
           | w :: ws => String c w :: ws
           | [] => [String c ""]
           end
  end.

Fixpoint join (sep : ascii) (ws : list string) : string :=
  match ws with
  | [] => ""
  | [w] => w
  | w :: ws => w +:+ String sep (join sep ws)
  end.

(** ** [int(s)] in base 10 *)

(** The digits of a numeral, most significant first.  [prev] says that the
    previous character was a digit: an underscore is accepted only between
    two digits. *)
Fixpoint int_digits (acc : Z) (prev : bool) (s : string) : option Z :=
  match s with
  | "" => if prev then Some acc else None
  | String c s' =>
      match digit_of c with
      | Some d => int_digits (10 * acc + d) true s'
      | None =>
          if Ascii.eqb c "_" && prev then int_digits acc false s' else None
      end
  end.

Definition int_literal_error : error :=
  ValueError "invalid literal for int() with base 10".

Definition py_int (s : string) : result Z :=
  let body :=
    match strip s with
    | String "-" r => Z.opp <$> int_digits 0 false r
    | String "+" r => int_digits 0 false r
    | r => int_digits 0 false r
    end in
  or_raise body int_literal_error.

(** Printing, for the round-trip statements: a natural number below 100 as
    two digits, the [%02d] of a clock time. *)
Definition two_digits (n : Z) : string :=
  String (digit_char (n / 10)) (String (digit_char (n mod 10)) "").

(** * Lemmas *)

(** ** Characters *)

Lemma digit_of_spec c d :
  digit_of c = Some d ↔ 0 ≤ d ≤ 9 ∧ c = digit_char d.
Proof.
  unfold digit_of, digit_char. split.
  - case_match eqn:E; [|done]. intros [= <-].
    apply andb_true_iff in E as [?%N.leb_le ?%N.leb_le].
    split; [lia|].
    replace (Z.to_N (Z.of_N (N_of_ascii c) - 48 + 48)) with (N_of_ascii c) by lia.
    by rewrite ascii_N_embedding.
  - intros [Hd ->]. rewrite N_ascii_embedding by lia.
    case_match eqn:E; [f_equal; lia|].
    apply andb_false_iff in E as [?%N.leb_gt | ?%N.leb_gt]; lia.
Qed.

Lemma digit_of_char d : 0 ≤ d ≤ 9 → digit_of (digit_char d) = Some d.
Proof. intros. by apply digit_of_spec. Qed.

Lemma digit_not_space c d : digit_of c = Some d → py_isspace c = false.
Proof.
  unfold digit_of, py_isspace. case_match eqn:E; [|done]. intros _.
  apply andb_true_iff in E as [?%N.leb_le ?%N.leb_le].
  apply orb_false_iff; split; apply andb_false_iff.
  - right. apply N.leb_gt. lia.
  - right. apply N.leb_gt. lia.
Qed.

Lemma digit_not_sign c d : digit_of c = Some d → c ≠ "-"%char ∧ c ≠ "+"%char.
Proof. intros H. split; intros ->; vm_compute in H; discriminate. Qed.

(** ** [strip] *)

Lemma lstrip_head c s : py_isspace c = false → lstrip (String c s) = String c s.
Proof. intros H. simpl. by rewrite H. Qed.

Lemma lstrip_idemp s : lstrip (lstrip s) = lstrip s.
Proof.
  induction s as [|c s IH]; [done|]. simpl.
  destruct (py_isspace c) eqn:E; [done|]. simpl. by rewrite E.
Qed.

Lemma rstrip_idemp s : rstrip (rstrip s) = rstrip s.
Proof.
  induction s as [|c s IH]; [done|]. simpl.
  destruct (rstrip s) as [|d r] eqn:Er.
  - destruct (py_isspace c) eqn:E; [done|]. simpl. by rewrite E.
  - simpl in *. by rewrite IH.
Qed.

Lemma rstrip_nonspace s :
  str_forall (λ c, negb (py_isspace c)) s = true → rstrip s = s.
Proof.
  induction s as [|c s IH]; [done|]. simpl.
  intros [Hc Hs]%andb_true_iff. rewrite (IH Hs).
  destruct s; [|done]. by destruct (py_isspace c).
Qed.

Lemma lstrip_nonspace s :
  str_forall (λ c, negb (py_isspace c)) s = true → lstrip s = s.
Proof.
  destruct s as [|c s]; [done|]. simpl. intros [Hc _]%andb_true_iff.
  by destruct (py_isspace c).
Qed.

Lemma strip_nonspace s :
  str_forall (λ c, negb (py_isspace c)) s = true → strip s = s.
Proof. intros H. unfold strip. by rewrite (lstrip_nonspace _ H), rstrip_nonspace. Qed.

Lemma rstrip_head c s : rstrip (String c s) = "" ∨ ∃ r, rstrip (String c s) = String c r.
Proof.
  simpl. destruct (rstrip s); [destruct (py_isspace c)|]; eauto.
Qed.

Lemma lstrip_head_nonspace s c r :
  lstrip s = String c r → py_isspace c = false.
Proof.
  induction s as [|d s IH]; [done|]. simpl.
  destruct (py_isspace d) eqn:E; [done|]. by intros [= <- <-].
Qed.

(** ** [split] and [join] *)

Lemma strip_idemp s : strip (strip s) = strip s.
Proof.
  unfold strip. destruct (lstrip s) as [|c t] eqn:E; [done|].
  destruct (rstrip_head c t) as [->|[r Hr]]; [done|].
  rewrite Hr, lstrip_head by (by eapply lstrip_head_nonspace).
  by rewrite <-Hr, rstrip_idemp.
Qed.

Lemma split_nonempty sep s : split sep s ≠ [].
Proof.
  destruct s as [|c s]; [done|]. simpl.
  destruct (Ascii.eqb c sep); [done|]. by destruct (split sep s).
Qed.

Lemma split_cons sep c s :
  c ≠ sep →
  ∃ w ws, split sep s = w :: ws ∧ split sep (String c s) = String c w :: ws.
Proof.
  intros Hc. simpl. rewrite (proj2 (Ascii.eqb_neq c sep) Hc).
  destruct (split sep s) as [|w ws] eqn:E; [by apply split_nonempty in E|].
  eauto.
Qed.

Lemma join_cons_cons sep w v ws :
  join sep (w :: v :: ws) = w +:+ String sep (join sep (v :: ws)).
Proof. done. Qed.

Lemma join_split sep s : join sep (split sep s) = s.
Proof.
  induction s as [|c s IH]; [done|].
  destruct (Ascii.eqb_spec c sep) as [->|Hc].
  - simpl. rewrite Ascii.eqb_refl.
    destruct (split sep s) as [|w ws] eqn:E; [by apply split_nonempty in E|].
    rewrite join_cons_cons, IH. done.
  - destruct (split_cons sep c s Hc) as (w & ws & E1 & E2).
    rewrite E2. rewrite E1 in IH. destruct ws as [|v ws]; simpl in *.
    + by rewrite IH.
    + by rewrite <-IH.
Qed.

Lemma split_no_sep sep s :
  str_contains sep s = false → split sep s = [s].
Proof.
  induction s as [|c s IH]; [done|]. simpl.
  intros [Hc Hs]%orb_false_iff. rewrite Hc, (IH Hs). done.
Qed.

Lemma split_app sep a b :
  str_contains sep a = false →
  split sep (a +:+ String sep b) = a :: split sep b.
Proof.
  induction a as [|c a IH]; simpl.
  - intros _. by rewrite Ascii.eqb_refl.
  - intros [Hc Ha]%orb_false_iff. cbn. rewrite Hc.
    change (a ++ String sep b) with (a +:+ String sep b).
    by rewrite (IH Ha).
Qed.

Lemma split_pieces_no_sep sep s :
  Forall (λ w, str_contains sep w = false) (split sep s).
Proof.
  induction s as [|c s IH]; [by repeat constructor|].
  destruct (Ascii.eqb_spec c sep) as [->|Hc].
  - simpl. rewrite Ascii.eqb_refl. by constructor.
  - destruct (split_cons sep c s Hc) as (w & ws & E1 & E2).
    rewrite E2. rewrite E1 in IH. inversion IH as [|?? Hw Hws]; subst.
    constructor; [|done]. simpl. rewrite Hw.
    by rewrite (proj2 (Ascii.eqb_neq c sep) Hc).
Qed.

(** A string splits in two pieces exactly when it holds the separator once. *)
Lemma split_two sep s a b :
  split sep s = [a; b] ↔
  s = a +:+ String sep b ∧ str_contains sep a = false ∧ str_contains sep b = false.
Proof.
  split.
  - intros H. pose proof (split_pieces_no_sep sep s) as Hp.
    pose proof (join_split sep s) as Hj. rewrite H in Hp, Hj.
    inversion Hp as [|?? Ha Hb']; subst. inversion Hb' as [|?? Hb _]; subst.
    done.
  - intros (-> & Ha & Hb). by rewrite split_app, split_no_sep.
Qed.

(** ** [int] *)

Lemma int_digits_digit acc prev d s :
  0 ≤ d ≤ 9 →
  int_digits acc prev (String (digit_char d) s) = int_digits (10 * acc + d) true s.
Proof. intros Hd. simpl. by rewrite digit_of_char. Qed.

Lemma two_digits_nonspace n :
  0 ≤ n < 100 → str_forall (λ c, negb (py_isspace c)) (two_digits n) = true.
Proof.
  intros Hn. unfold two_digits. simpl.
  rewrite (digit_not_space _ (n / 10)), (digit_not_space _ (n mod 10)); [done|..];
    apply digit_of_char; lia_div.
Qed.

Lemma py_int_two_digits n : 0 ≤ n < 100 → py_int (two_digits n) = Ok n.
Proof.
  intros Hn. unfold py_int.
  rewrite (strip_nonspace _ (two_digits_nonspace n Hn)).
  assert (0 ≤ n / 10 ≤ 9 ∧ 0 ≤ n mod 10 ≤ 9) as [H1 H2] by lia_div.
  unfold two_digits.
  destruct (digit_not_sign (digit_char (n / 10)) (n / 10)) as [Hm Hp];
    [by apply digit_of_char|].
  assert (int_digits 0 false (String (digit_char (n / 10))
            (String (digit_char (n mod 10)) "")) = Some n) as Hd.
  { rewrite !int_digits_digit by done. simpl. f_equal. lia_div. }
  destruct (digit_char (n / 10)) as [[] [] [] [] [] [] [] []];
    first [ by rewrite Hd | congruence ].
Qed.

Lemma py_int_empty : py_int "" = Raise int_literal_error.
Proof. done. Qed.

Lemma py_int_Ok_inv s z : py_int s = Ok z → strip s ≠ "".
Proof. unfold py_int. intros H E. rewrite E in H. discriminate. Qed.

(** A character that is no digit does not occur in a two-digit numeral. *)
Lemma two_digits_no_char c n :
  digit_of c = None → 0 ≤ n < 100 → str_contains c (two_digits n) = false.
Proof.
  intros Hc Hn. unfold two_digits. simpl.
  assert (∀ d, 0 ≤ d ≤ 9 → Ascii.eqb (digit_char d) c = false) as Hd.
  { intros d Hd. apply Ascii.eqb_neq. intros <-.
    by rewrite digit_of_char in Hc. }
  rewrite !Hd; [done|lia_div..].
Qed.

(** [int] reads a sign: a minus before a two-digit numeral negates it. *)
Lemma py_int_minus_two_digits n :
  0 ≤ n < 100 → py_int (String "-" (two_digits n)) = Ok (- n).
Proof.
  intros Hn. unfold py_int.
  assert (str_forall (λ c, negb (py_isspace c)) (String "-" (two_digits n)) = true)
    as Hs by (cbn [str_forall]; by rewrite two_digits_nonspace).
  rewrite (strip_nonspace _ Hs).
  assert (0 ≤ n / 10 ≤ 9 ∧ 0 ≤ n mod 10 ≤ 9) as [H1 H2] by lia_div.
  unfold two_digits. rewrite !int_digits_digit by done. simpl.
  do 2 f_equal. lia_div.
Qed.
