(* ===== verification/Calendar.v ===== *)
(** * Timestamps

    pandas timestamps as the program uses them: the accessors [.dt.hour],
    [.dt.dayofweek], [.dt.month] ([main_model.py:98-102], [:363-367]) and
    the whole days of a difference, [(a - b).dt.days] (lines 103, 368).
    [pd.to_datetime] is an interface ([DatetimeParser]): the theorems of the
    development hold for every parser; [iso_parser] is the instance for the
    ISO-like texts of the request schema, used to run the scenarios. *)

From S2P Require Import Prelude PyText.
From Stdlib Require Import Ascii String.
From stdpp Require Import base tactics option list strings numbers.

#[local] Open Scope string_scope.
#[local] Open Scope Z_scope.

(** ** Civil dates *)

(** A point in time, in the proleptic Gregorian calendar, to the nanosecond. *)
Record timestamp : Type := Timestamp {
  ts_year : Z; ts_month : Z; ts_day : Z;
  ts_hour : Z; ts_minute : Z; ts_second : Z; ts_nano : Z
}.

#[global] Instance timestamp_eq_dec : EqDecision timestamp.
Proof. solve_decision. Defined.

Definition is_leap (y : Z) : bool :=
  (y mod 4 =? 0) && (negb (y mod 100 =? 0) || (y mod 400 =? 0)).

Definition days_in_month (y m : Z) : Z :=
  if m =? 2 then (if is_leap y then 29 else 28)
  else if (m =? 4) || (m =? 6) || (m =? 9) || (m =? 11) then 30
  else 31.

Definition valid_date (y m d : Z) : bool :=
  (1 <=? m) && (m <=? 12) && (1 <=? d) && (d <=? days_in_month y m).

Definition valid_timestamp (t : timestamp) : bool :=
  valid_date (ts_year t) (ts_month t) (ts_day t)
  && (0 <=? ts_hour t) && (ts_hour t <? 24)
  && (0 <=? ts_minute t) && (ts_minute t <? 60)
  && (0 <=? ts_second t) && (ts_second t <? 60)
  && (0 <=? ts_nano t) && (ts_nano t <? 1000000000).

(** Days since 1970-01-01 of a civil date (the era-based formula: years
    start in March, 400-year eras of 146097 days). *)
Definition days_from_civil (y m d : Z) : Z :=
  let y' := if m <=? 2 then y - 1 else y in
  let era := y' / 400 in
  let yoe := y' mod 400 in
  let mp := (m + 9) mod 12 in
  let doy := (153 * mp + 2) / 5 + d - 1 in
  let doe := yoe * 365 + yoe / 4 - yoe / 100 + doy in
  era * 146097 + doe - 719468.

(** The day after a civil date. *)
Definition next_day (y m d : Z) : Z * Z * Z :=
  if d <? days_in_month y m then (y, m, d + 1)
  else if m <? 12 then (y, m + 1, 1)
  else (y + 1, 1, 1).

Definition ns_per_day : Z := 86400 * 1000000000.

(** Nanoseconds since the epoch. *)
Definition epoch_ns (t : timestamp) : Z :=
  (((days_from_civil (ts_year t) (ts_month t) (ts_day t) * 24 + ts_hour t) * 60
    + ts_minute t) * 60 + ts_second t) * 1000000000 + ts_nano t.

(** The time of day in nanoseconds. *)
Definition ns_of_day (t : timestamp) : Z :=
  ((ts_hour t * 60 + ts_minute t) * 60 + ts_second t) * 1000000000 + ts_nano t.

(** [.dt.dayofweek]: Monday is 0; 1970-01-01 was a Thursday. *)
Definition dayofweek (t : timestamp) : Z :=
  (days_from_civil (ts_year t) (ts_month t) (ts_day t) + 3) mod 7.

(** [(a - b).dt.days]: the days component of a timedelta rounds towards
    minus infinity. *)
Definition timedelta_days (a b : timestamp) : Z :=
  (epoch_ns a - epoch_ns b) / ns_per_day.

(** ** The parser interface *)

(** What [pd.to_datetime] makes of a text: a timestamp, the missing value
    [NaT] (for the empty text and the spellings of "not a time"), or a
    parse failure, which raises unless [errors='coerce']. *)
Inductive parsed : Type :=
| Parsed (t : timestamp)
| ParsedNaT
| Unparsable.

Class DatetimeParser : Type := {
  to_datetime : string → parsed;
  to_datetime_valid s t : to_datetime s = Parsed t → valid_timestamp t = true
}.

(** ** An ISO-like parser *)

(** [n] leading decimal digits of a text, and the rest. *)
Fixpoint take_digits (n : nat) (acc : Z) (s : string) : option (Z * string) :=
  match n with
  | O => Some (acc, s)
  | S n =>
      match s with
      | String c s' => d ← digit_of c; take_digits n (10 * acc + d) s'
      | "" => None
      end
  end.

(** A literal character, and the rest. *)
Definition take_char (c : ascii) (s : string) : option string :=
  match s with
  | String d s' => if Ascii.eqb d c then Some s' else None
  | "" => None
  end.

(** Up to nine digits of a fraction of a second, as nanoseconds; [w] is the
    weight of the next digit. *)
Fixpoint take_fraction (fuel : nat) (w acc : Z) (s : string) : option Z :=
  match s with
  | "" => Some acc
  | String c s' =>
      match fuel with
      | O => None
      | S fuel => d ← digit_of c; take_fraction fuel (w / 10) (acc + d * w) s'
      end
  end.

(** [HH:MM], [HH:MM:SS] or [HH:MM:SS.fffffffff] *)
Definition parse_clock (s : string) : option (Z * Z * Z * Z) :=
  '(h, s) ← take_digits 2 0 s;
  s ← take_char ":" s;
  '(mi, s) ← take_digits 2 0 s;
  match s with
  | "" => Some (h, mi, 0, 0)
  | _ =>
      s ← take_char ":" s;
      '(sec, s) ← take_digits 2 0 s;
      match s with
      | "" => Some (h, mi, sec, 0)
      | _ =>
          s ← take_char "." s;
          match s with
          | "" => None
          | _ => ns ← take_fraction 9 100000000 0 s; Some (h, mi, sec, ns)
          end
      end
  end.

(** [YYYY-MM-DD], optionally followed by [T] or a blank and a clock time. *)
Definition parse_iso (s : string) : option timestamp :=
  '(y, s) ← take_digits 4 0 s;
  s ← take_char "-" s;
  '(m, s) ← take_digits 2 0 s;
  s ← take_char "-" s;
  '(d, s) ← take_digits 2 0 s;
  '(h, mi, sec, ns) ←
    match s with
    | "" => Some (0, 0, 0, 0)
    | String c s' =>
        if Ascii.eqb c "T" || Ascii.eqb c " " then parse_clock s' else None
    end;
  let t := Timestamp y m d h mi sec ns in
  if valid_timestamp t then Some t else None.

(** The texts pandas reads as the missing timestamp. *)
Definition nat_strings : list string :=
  [""; "NaT"; "nat"; "NAT"; "nan"; "NaN"; "NAN"].

Definition iso_to_datetime (s : string) : parsed :=
  if decide (s ∈ nat_strings) then ParsedNaT
  else match parse_iso s with
       | Some t => Parsed t
       | None => Unparsable
       end.

(** * Lemmas *)

Lemma days_in_month_bounds y m : 28 ≤ days_in_month y m ≤ 31.
Proof. unfold days_in_month. repeat case_match; lia. Qed.

Lemma valid_date_spec y m d :
  valid_date y m d = true ↔ 1 ≤ m ≤ 12 ∧ 1 ≤ d ≤ days_in_month y m.
Proof. unfold valid_date. rewrite !andb_true_iff, !Z.leb_le. lia. Qed.

Lemma valid_timestamp_spec t :
  valid_timestamp t = true ↔
    valid_date (ts_year t) (ts_month t) (ts_day t) = true ∧
    0 ≤ ts_hour t < 24 ∧ 0 ≤ ts_minute t < 60 ∧ 0 ≤ ts_second t < 60 ∧
    0 ≤ ts_nano t < 1000000000.
Proof.
  unfold valid_timestamp. rewrite !andb_true_iff, !Z.leb_le, !Z.ltb_lt. tauto.
Qed.

Lemma dayofweek_range t : 0 ≤ dayofweek t < 7.
Proof. unfold dayofweek. lia_div. Qed.

Lemma epoch_ns_split t :
  epoch_ns t =
    days_from_civil (ts_year t) (ts_month t) (ts_day t) * ns_per_day + ns_of_day t.
Proof. unfold epoch_ns, ns_of_day, ns_per_day. lia. Qed.

Lemma ns_of_day_range t : valid_timestamp t = true → 0 ≤ ns_of_day t < ns_per_day.
Proof.
  intros (_ & ? & ? & ? & ?)%valid_timestamp_spec.
  unfold ns_of_day, ns_per_day. lia.
Qed.

(** The whole days between two valid timestamps: the difference of the day
    numbers, less one when the time of day of the later is the earlier. *)
Lemma timedelta_days_spec a b :
  valid_timestamp a = true → valid_timestamp b = true →
  timedelta_days a b =
    days_from_civil (ts_year a) (ts_month a) (ts_day a)
    - days_from_civil (ts_year b) (ts_month b) (ts_day b)
    - (if ns_of_day a <? ns_of_day b then 1 else 0).
Proof.
  intros Ha%ns_of_day_range Hb%ns_of_day_range.
  unfold timedelta_days. rewrite !epoch_ns_split.
  set (da := days_from_civil _ _ _). set (db := days_from_civil _ _ _).
  assert (0 < ns_per_day) by done.
  destruct (Z.ltb_spec (ns_of_day a) (ns_of_day b)).
  - symmetry. apply (Z.div_unique _ _ _ (ns_of_day a - ns_of_day b + ns_per_day)); lia.
  - symmetry. apply (Z.div_unique _ _ _ (ns_of_day a - ns_of_day b)); lia.
Qed.

(** ** The day number advances by one from a day to the next *)

Lemma is_leap_spec y :
  is_leap y = true ↔ y mod 4 = 0 ∧ (y mod 100 ≠ 0 ∨ y mod 400 = 0).
Proof.
  unfold is_leap.
  rewrite andb_true_iff, orb_true_iff, negb_true_iff, !Z.eqb_eq, Z.eqb_neq. tauto.
Qed.

Lemma days_from_civil_same_month y m d k :
  days_from_civil y m (d + k) = days_from_civil y m d + k.
Proof. unfold days_from_civil. lia. Qed.

(** The formula with the month-dependent parts named, so that they can be
    replaced by their values for a given month. *)
Lemma days_from_civil_unfold y m d y' mp doy0 :
  y' = (if m <=? 2 then y - 1 else y) →
  mp = (m + 9) mod 12 →
  doy0 = (153 * mp + 2) / 5 →
  days_from_civil y m d =
    y' / 400 * 146097
    + (y' mod 400 * 365 + y' mod 400 / 4 - y' mod 400 / 100 + (doy0 + d - 1))
    - 719468.
Proof. by intros -> -> ->. Qed.

(** Replace [days_from_civil] at a literal month by the unfolded formula. *)
Ltac days_from_civil_at_month :=
  repeat match goal with
  | |- context [days_from_civil ?y ?m ?d] =>
      let b := eval vm_compute in (m <=? 2) in
      let mp := eval vm_compute in ((m + 9) mod 12) in
      let doy0 := eval vm_compute in ((153 * mp + 2) / 5) in
      rewrite (days_from_civil_unfold y m d (if b then y - 1 else y) mp doy0)
        by reflexivity
  end; cbv iota.

Lemma days_in_month_feb y :
  days_in_month y 2 = 28 ∧ ¬ (y mod 4 = 0 ∧ (y mod 100 ≠ 0 ∨ y mod 400 = 0))
  ∨ days_in_month y 2 = 29 ∧ y mod 4 = 0 ∧ (y mod 100 ≠ 0 ∨ y mod 400 = 0).
Proof.
  unfold days_in_month. change (2 =? 2) with true. cbv iota.
  destruct (is_leap y) eqn:E; [right | left]; (split; [done|]).
  - by apply is_leap_spec.
  - rewrite <-is_leap_spec. congruence.
Qed.

Lemma days_from_civil_march_1 y :
  days_from_civil y 3 1 = days_from_civil y 2 (days_in_month y 2) + 1.
Proof.
  days_from_civil_at_month.
  destruct (days_in_month_feb y) as [[-> Hy] | [-> Hy]]; lia_div.
Qed.

Lemma days_from_civil_next_month y m :
  1 ≤ m < 12 →
  days_from_civil y (m + 1) 1 = days_from_civil y m (days_in_month y m) + 1.
Proof.
  intros Hm.
  assert (m = 1 ∨ m = 2 ∨ m = 3 ∨ m = 4 ∨ m = 5 ∨ m = 6 ∨ m = 7 ∨ m = 8 ∨
          m = 9 ∨ m = 10 ∨ m = 11) as Hcases by lia.
  destruct_or!; subst m; try apply days_from_civil_march_1;
    match goal with
    | |- context [days_in_month y ?m] =>
        let n := eval vm_compute in (days_in_month 0 m) in
        change (days_in_month y m) with n
    end; days_from_civil_at_month; lia.
Qed.

Lemma days_from_civil_next_year y :
  days_from_civil (y + 1) 1 1 = days_from_civil y 12 31 + 1.
Proof.
  days_from_civil_at_month. replace (y + 1 - 1) with y by lia. lia.
Qed.

Lemma days_from_civil_next_day y m d :
  valid_date y m d = true →
  let '(y', m', d') := next_day y m d in
  days_from_civil y' m' d' = days_from_civil y m d + 1.
Proof.
  intros [Hm Hd]%valid_date_spec. unfold next_day.
  destruct (Z.ltb_spec d (days_in_month y m)).
  - apply days_from_civil_same_month.
  - assert (d = days_in_month y m) as -> by lia.
    destruct (Z.ltb_spec m 12).
    + apply days_from_civil_next_month. lia.
    + assert (m = 12) as -> by lia. apply days_from_civil_next_year.
Qed.

(** ** The ISO-like parser *)

Lemma parse_iso_valid s t : parse_iso s = Some t → valid_timestamp t = true.
Proof.
  unfold parse_iso. intros H.
  repeat (simplify_option_eq; try case_match); done.
Qed.

Lemma iso_to_datetime_valid s t :
  iso_to_datetime s = Parsed t → valid_timestamp t = true.
Proof.
  unfold iso_to_datetime. case_decide; [done|].
  destruct (parse_iso s) eqn:E; [|done]. intros [= <-].
  by eapply parse_iso_valid.
Qed.

#[export] Instance iso_parser : DatetimeParser :=
  {| to_datetime := iso_to_datetime; to_datetime_valid := iso_to_datetime_valid |}.

(** The timestamps of the documented scenarios. *)
Example parse_create_at :
  iso_to_datetime "2024-01-01 09:00:00" = Parsed (Timestamp 2024 1 1 9 0 0 0).
Proof. vm_compute. reflexivity. Qed.

Example parse_flight_date_millis :
  iso_to_datetime "2025-08-15T17:00:00.000" = Parsed (Timestamp 2025 8 15 17 0 0 0).
Proof. vm_compute. reflexivity. Qed.

Example parse_rejects_month_13 : iso_to_datetime "2024-13-01" = Unparsable.
Proof. vm_compute. reflexivity. Qed.

Example monday_2024_01_01 : dayofweek (Timestamp 2024 1 1 9 0 0 0) = 0.
Proof. reflexivity. Qed.

Example epoch_day_zero : days_from_civil 1970 1 1 = 0.
Proof. reflexivity. Qed.
