(* ===== verification/Frame.v ===== *)
(** * Data-frame cells, rows and tables

    The pandas values [src/main_model.py] handles: a cell ([val]) is a text,
    an integer, a float, a timestamp or the missing value; a row is a finite
    map from column names to cells; a table is a list of rows.  The
    operations are the cell-level readings of the pandas calls of the
    program: column access and assignment, [isnull], [fillna(0)],
    [astype(str)], comparison with a number, and the [.dt] and [.str]
    accessors.  The [.str] accessor is the one place where pandas decides
    by the column and not by the cell: it exists on a column of dtype
    [object] ([object_dtype]) and raises [AttributeError] on any other,
    whatever the rows ([assign_str]). *)

From S2P Require Import Prelude PyText Calendar.
From Stdlib Require Import QArith Qminmax Qround.
From stdpp Require Import base tactics option list strings numbers gmap pretty.

#[local] Open Scope string_scope.
#[local] Open Scope Z_scope.

(** ** Cells *)

#[global] Instance Q_eq_dec : EqDecision Q.
Proof. solve_decision. Defined.

Inductive val : Type :=
| VStr (s : string)
| VInt (z : Z)
| VFloat (q : Q)
| VTime (t : timestamp)
| VNull.

#[global] Instance val_eq_dec : EqDecision val.
Proof. solve_decision. Defined.

#[global] Instance val_inhabited : Inhabited val := populate VNull.

(** A row maps column names to cells; a table is a list of rows. *)
Abbreviation row := (gmap string val).
Abbreviation table := (list (gmap string val)).

(** [pd.isnull] on a cell *)
Definition isnull (v : val) : bool :=
  match v with VNull => true | _ => false end.

(** [fillna(0)] on a cell *)
Definition fillna0 (v : val) : val :=
  match v with VNull => VInt 0 | _ => v end.

(** The number in a numeric cell; [None] for the missing value. *)
Definition as_number (v : val) : result (option Q) :=
  match v with
  | VInt z => Ok (Some (inject_Z z))
  | VFloat q => Ok (Some q)
  | VNull => Ok None
  | VStr _ => Raise (TypeError "text where a number is expected")
  | VTime _ => Raise (TypeError "timestamp where a number is expected")
  end.

(** The conversion scikit-learn applies to a cell of its input. *)
Definition to_float (v : val) : result Q :=
  match v with
  | VInt z => Ok (inject_Z z)
  | VFloat q => Ok q
  | VStr _ => Raise (ValueError "could not convert string to float")
  | VTime _ => Raise (TypeError "float() argument must be a string or a real number")
  | VNull => Raise (ValueError "Input X contains NaN")
  end.

(** A cell of a numeric column: a number or the missing value. *)
Definition is_number (v : val) : bool :=
  match v with VInt _ | VFloat _ | VNull => true | VStr _ | VTime _ => false end.

(** The dictionary [d] holds a number or the missing value under [k]. *)
Definition number_at (k : string) (d : gmap string val) : bool :=
  from_option is_number false (d !! k).

(** [astype(str)] on a cell: a text is itself, the missing value reads
    ["nan"], an integer its decimal numeral.  The renderings of floats and
    timestamps are not modelled. *)
Definition astype_str (v : val) : option string :=
  match v with
  | VStr s => Some s
  | VInt z => Some (pretty z)
  | VNull => Some "nan"
  | VFloat _ | VTime _ => None
  end.

(** ** Comparison with an integer constant

    [v < k] and [v >= k] as Python evaluates them on a cell: false on the
    missing value, [TypeError] on a text or a timestamp. *)
Definition val_lt (v : val) (k : Z) : result bool :=
  n ← as_number v;
  Ok (match n with Some q => bool_decide (q < inject_Z k)%Q | None => false end).

Definition val_ge (v : val) (k : Z) : result bool :=
  n ← as_number v;
  Ok (match n with Some q => bool_decide (inject_Z k <= q)%Q | None => false end).

(** [(column >= k).astype(int)] *)
Definition ge_flag (v : val) (k : Z) : result val :=
  b ← val_ge v k; Ok (VInt (if b : bool then 1 else 0)).

(** ** Arithmetic on cells

    Two integers give an integer (an [int64] column); a float operand makes
    the result a float; the missing value propagates; a text or a timestamp
    is a [TypeError]. *)
Definition num_binop (fz : Z → Z → Z) (fq : Q → Q → Q) (a b : val) : result val :=
  match a, b with
  | VInt x, VInt y => Ok (VInt (fz x y))
  | _, _ =>
      x ← as_number a; y ← as_number b;
      Ok (match x, y with
          | Some p, Some q => VFloat (Qred (fq p q))
          | _, _ => VNull
          end)
  end.

(** [a - b], [a + b] and [a // k] *)
Definition val_sub : val → val → result val := num_binop Z.sub Qminus.
Definition val_add : val → val → result val := num_binop Z.add Qplus.
Definition val_floordiv (a : val) (k : Z) : result val :=
  num_binop Z.div (λ p q, inject_Z (Qfloor (p / q))) a (VInt k).

(** ** The [.dt] accessor *)

Definition dt_error : error :=
  AttributeError "Can only use .dt accessor with datetimelike values".

Definition dt_field (f : timestamp → Z) (v : val) : result val :=
  match v with
  | VTime t => Ok (VInt (f t))
  | VNull => Ok VNull
  | _ => Raise dt_error
  end.

Definition dt_hour : val → result val := dt_field ts_hour.
Definition dt_month : val → result val := dt_field ts_month.
Definition dt_dayofweek : val → result val := dt_field dayofweek.

(** [(a - b).dt.days] *)
Definition dt_days_between (a b : val) : result val :=
  let bad := Raise (TypeError "unsupported operand type(s) for -") in
  match a, b with
  | VTime x, VTime y => Ok (VInt (timedelta_days x y))
  | VTime _, VNull | VNull, VTime _ | VNull, VNull => Ok VNull
  | _, _ => bad
  end.

(** ** The [.str] accessor *)

Definition str_error : error :=
  AttributeError "Can only use .str accessor with string values".

Definition is_text (v : val) : bool :=
  match v with VStr _ => true | _ => false end.

(** A string method on a cell of a column of dtype [object]: a cell that
    is not a text gives the missing value. *)
Definition str_map (f : string → string) (v : val) : val :=
  match v with VStr s => VStr (f s) | _ => VNull end.

(** [.str[:2]] and [.str.strip()] on such a cell *)
Definition str_slice2 : val → val := str_map (str_take 2).
Definition str_strip : val → val := str_map strip.

(** The accessor on the column of a frame of one row, whose dtype is that
    of its cell: it exists when the cell is a text, and does not on a
    number, a timestamp or [NaN]. *)
Definition str_cell (g : val → val) (v : val) : result val :=
  if is_text v then Ok (g v) else Raise str_error.

(** ** Columns of a row *)

(** [df[c]] *)
Definition col (c : string) (r : row) : result val :=
  or_raise (r !! c) (KeyError c).

(** [df[columns]]: the cells of the named columns, in the order of the
    names.  pandas lists every absent column in its [KeyError]; the model
    names the first. *)
Definition select (columns : list string) (r : row) : result (list val) :=
  result_mapM (λ c, col c r) columns.

(** [c in df.columns] *)
Definition has_col (c : string) (r : row) : bool := bool_decide (is_Some (r !! c)).

(** A row holds every column of a list. *)
Definition has_cols (columns : list string) (r : row) : Prop :=
  Forall (λ c, is_Some (r !! c)) columns.

(** [dropna(subset=[c])] and a row filter by a cell test *)
Definition notnull_at (c : string) (r : row) : bool :=
  match r !! c with Some v => negb (isnull v) | None => false end.

(** [np.clip(x, lo, hi)]: [minimum(maximum(x, lo), hi)] *)
Definition clip (x lo hi : Q) : Q := Qmin (Qmax x lo) hi.

(** ** Assignments to columns *)

(** [df[c] = f(df)] on one row *)
Definition assign (c : string) (f : row → result val) (r : row) : result row :=
  v ← f r; Ok (<[c := v]> r).

(** [g(df[a])] and [g(df[a], df[b])] on one row *)
Definition on1 (g : val → result val) (a : string) (r : row) : result val :=
  x ← col a r; g x.

Definition on2 (g : val → val → result val) (a b : string) (r : row) : result val :=
  x ← col a r; y ← col b r; g x y.

(** [df[c] = f(df)] on a table whose rows are treated one by one *)
Definition assign_rows (c : string) (f : row → result val) (df : table) : result table :=
  result_mapM (assign c f) df.

(** The dtype [read_csv] gives a column is [object] when one of its cells
    is a text, and when the file has no row; it is numeric otherwise (a
    column of numbers, or of missing values only). *)
Definition object_dtype (c : string) (df : table) : bool :=
  bool_decide (df = []) || existsb (λ r, from_option is_text false (r !! c)) df.

(** [df[c'] = df[c].str.<g>]: pandas decides by the dtype of the column
    whether the accessor exists, also on a table without rows. *)
Definition assign_str (object : bool) (g : val → val) (c' c : string) (df : table) :
    result table :=
  if object then assign_rows c' (on1 (λ v, Ok (g v)) c) df
  else _ ← result_mapM (col c) df; Raise str_error.

(** [r'] is [r] with the columns [cs] set: it holds them, and it agrees
    with [r] elsewhere. *)
Definition grows (cs : list string) (r r' : row) : Prop :=
  has_cols cs r' ∧ ∀ c, c ∉ cs → r' !! c = r !! c.

(** * Lemmas *)

Lemma isnull_spec v : isnull v = true ↔ v = VNull.
Proof. by destruct v. Qed.

Lemma fillna0_notnull v : isnull (fillna0 v) = false.
Proof. by destruct v. Qed.

Lemma fillna0_id v : isnull v = false → fillna0 v = v.
Proof. by destruct v. Qed.

Lemma fillna0_idemp v : fillna0 (fillna0 v) = fillna0 v.
Proof. by destruct v. Qed.

Lemma astype_str_VStr s : astype_str (VStr s) = Some s.
Proof. done. Qed.

Lemma is_number_as_number v : is_number v = true ↔ is_Ok (as_number v).
Proof. destruct v; simpl; split; try done; try (by eexists); by intros [? ?]. Qed.

(** [fillna(0)] makes a numeric cell one that scikit-learn accepts. *)
Lemma to_float_fillna0 v : is_number v = true → is_Ok (to_float (fillna0 v)).
Proof. destruct v; try done; by eexists. Qed.

Lemma number_at_Some k d :
  number_at k d = true ↔ ∃ v, d !! k = Some v ∧ is_number v = true.
Proof.
  unfold number_at. destruct (d !! k) as [v|]; simpl; [|naive_solver].
  split; [by exists v|by intros (? & [= <-] & ?)].
Qed.

(** ** Comparisons *)

Lemma inject_Z_lt_decide (x k : Z) :
  bool_decide (inject_Z x < inject_Z k)%Q = (x <? k).
Proof.
  destruct (Z.ltb_spec x k).
  - apply bool_decide_eq_true. by rewrite <-Zlt_Qlt.
  - apply bool_decide_eq_false. rewrite <-Zlt_Qlt. lia.
Qed.

Lemma inject_Z_le_decide (x k : Z) :
  bool_decide (inject_Z k <= inject_Z x)%Q = (k <=? x).
Proof.
  destruct (Z.leb_spec k x).
  - apply bool_decide_eq_true. by rewrite <-Zle_Qle.
  - apply bool_decide_eq_false. rewrite <-Zle_Qle. lia.
Qed.

Lemma val_lt_VInt x k : val_lt (VInt x) k = Ok (x <? k).
Proof. unfold val_lt. simpl. by rewrite inject_Z_lt_decide. Qed.

Lemma val_ge_VInt x k : val_ge (VInt x) k = Ok (k <=? x).
Proof. unfold val_ge. simpl. by rewrite inject_Z_le_decide. Qed.

Lemma val_lt_VNull k : val_lt VNull k = Ok false.
Proof. done. Qed.

Lemma val_ge_VNull k : val_ge VNull k = Ok false.
Proof. done. Qed.

Lemma ge_flag_VInt x k : ge_flag (VInt x) k = Ok (VInt (if k <=? x then 1 else 0)).
Proof. unfold ge_flag. by rewrite val_ge_VInt. Qed.

Lemma ge_flag_VNull k : ge_flag VNull k = Ok (VInt 0).
Proof. done. Qed.

(** ** Arithmetic *)

Lemma val_sub_VInt a b : val_sub (VInt a) (VInt b) = Ok (VInt (a - b)).
Proof. done. Qed.

Lemma val_add_VInt a b : val_add (VInt a) (VInt b) = Ok (VInt (a + b)).
Proof. done. Qed.

Lemma val_floordiv_VInt a k : val_floordiv (VInt a) k = Ok (VInt (a / k)).
Proof. done. Qed.

Lemma val_sub_VNull_l b : isnull b = true ∨ (∃ z, b = VInt z) → val_sub VNull b = Ok VNull.
Proof. intros [->%isnull_spec | [z ->]]; done. Qed.

Lemma val_sub_VNull_r a : isnull a = true ∨ (∃ z, a = VInt z) → val_sub a VNull = Ok VNull.
Proof. intros [->%isnull_spec | [z ->]]; done. Qed.

Lemma val_floordiv_VNull k : val_floordiv VNull k = Ok VNull.
Proof. done. Qed.

#[export] Hint Rewrite val_lt_VInt val_ge_VInt val_lt_VNull val_ge_VNull
  ge_flag_VInt ge_flag_VNull val_sub_VInt val_add_VInt val_floordiv_VInt
  val_floordiv_VNull inject_Z_lt_decide inject_Z_le_decide : flight.

(** ** Columns *)

Lemma col_Ok c (r : row) v : col c r = Ok v ↔ r !! c = Some v.
Proof. apply or_raise_Ok. Qed.

Lemma col_Raise c (r : row) e : col c r = Raise e ↔ r !! c = None ∧ e = KeyError c.
Proof. apply or_raise_Raise. Qed.

Lemma col_insert c v (r : row) : col c (<[c := v]> r) = Ok v.
Proof. apply col_Ok, lookup_insert_eq. Qed.

Lemma col_insert_ne c d v (r : row) : c ≠ d → col d (<[c := v]> r) = col d r.
Proof. intros. unfold col. by rewrite lookup_insert_ne. Qed.

Lemma has_col_spec c (r : row) : has_col c r = true ↔ is_Some (r !! c).
Proof. apply bool_decide_eq_true. Qed.

Lemma select_Ok columns (r : row) vs :
  select columns r = Ok vs ↔ Forall2 (λ c v, r !! c = Some v) columns vs.
Proof.
  unfold select. rewrite result_mapM_Forall2.
  split; intros H; (eapply Forall2_impl; [exact H|]); intros c v; by rewrite col_Ok.
Qed.

Lemma select_length columns (r : row) vs :
  select columns r = Ok vs → length vs = length columns.
Proof. apply result_mapM_length. Qed.

Lemma select_total columns (r : row) :
  has_cols columns r → is_Ok (select columns r).
Proof.
  intros H. apply result_mapM_total. eapply Forall_impl; [exact H|].
  intros c [v Hv]. exists v. by apply col_Ok.
Qed.

(** The first absent column is the one the [KeyError] names. *)
Lemma select_KeyError columns (r : row) e :
  select columns r = Raise e →
  ∃ c, e = KeyError c ∧ c ∈ columns ∧ r !! c = None.
Proof.
  unfold select. induction columns as [|c cs IH]; [done|]. simpl.
  destruct (col c r) as [v|e'] eqn:Ec; simpl.
  - destruct (result_mapM _ cs) eqn:Ecs; [done|]. simpl. intros [= ->].
    destruct (IH eq_refl) as (d & ? & ? & ?). exists d. set_solver.
  - intros [= ->]. apply col_Raise in Ec as [? ->]. exists c. set_solver.
Qed.

(** ** Clipping *)

Lemma clip_between x lo hi : (lo <= hi)%Q → (lo <= clip x lo hi <= hi)%Q.
Proof.
  intros H. unfold clip. split.
  - apply Q.min_glb; [apply Q.le_max_r | done].
  - apply Q.le_min_r.
Qed.

Lemma clip_below x lo hi : (lo <= hi)%Q → (x <= lo)%Q → (clip x lo hi == lo)%Q.
Proof.
  intros H Hx. unfold clip. rewrite (Q.max_r x lo) by done. by apply Q.min_l.
Qed.

Lemma clip_above x lo hi : (hi <= x)%Q → (clip x lo hi == hi)%Q.
Proof.
  intros Hx. unfold clip. apply Q.min_r.
  etrans; [exact Hx | apply Q.le_max_l].
Qed.

Lemma clip_inside x lo hi : (lo <= x <= hi)%Q → (clip x lo hi == x)%Q.
Proof.
  intros [Hlo Hhi]. unfold clip. rewrite (Q.max_l x lo) by done. by apply Q.min_l.
Qed.

(** When the floor exceeds the ceiling, every input is sent to the ceiling. *)
Lemma clip_crossed x lo hi : (hi <= lo)%Q → (clip x lo hi == hi)%Q.
Proof.
  intros H. unfold clip. apply Q.min_r. etrans; [exact H | apply Q.le_max_r].
Qed.

#[export] Instance clip_proper : Proper (Qeq ==> Qeq ==> Qeq ==> Qeq) clip.
Proof. intros x x' Hx lo lo' Hlo hi hi' Hhi. unfold clip. by rewrite Hx, Hlo, Hhi. Qed.

(** ** Assignments *)

Lemma assign_Ok c f (r r' : row) :
  assign c f r = Ok r' ↔ ∃ v, f r = Ok v ∧ r' = <[c := v]> r.
Proof.
  unfold assign. rewrite bind_Ok_iff.
  split; intros (v & Hv & Hr); exists v; split; congruence.
Qed.

Lemma on1_Ok g a (r : row) v :
  on1 g a r = Ok v ↔ ∃ x, r !! a = Some x ∧ g x = Ok v.
Proof.
  unfold on1, col. rewrite bind_Ok_iff. by setoid_rewrite or_raise_Ok.
Qed.

Lemma on2_Ok g a b (r : row) v :
  on2 g a b r = Ok v ↔ ∃ x y, r !! a = Some x ∧ r !! b = Some y ∧ g x y = Ok v.
Proof.
  unfold on2, col. rewrite bind_Ok_iff. setoid_rewrite bind_Ok_iff.
  setoid_rewrite or_raise_Ok. split.
  - intros (x & Hx & y & Hy & Hg). by exists x, y.
  - intros (x & y & Hx & Hy & Hg). exists x. split; [done|]. by exists y.
Qed.

Lemma assign_on1 c g a (r : row) x v :
  r !! a = Some x → g x = Ok v → assign c (on1 g a) r = Ok (<[c := v]> r).
Proof.
  intros Hx Hv. apply assign_Ok. exists v. split; [|done]. apply on1_Ok. eauto.
Qed.

Lemma assign_on2 c g a b (r : row) x y v :
  r !! a = Some x → r !! b = Some y → g x y = Ok v →
  assign c (on2 g a b) r = Ok (<[c := v]> r).
Proof.
  intros Hx Hy Hv. apply assign_Ok. exists v. split; [|done]. apply on2_Ok. eauto.
Qed.

(** One assignment of a chain of assignments: the argument columns are
    looked up through the insertions made so far, and the value is computed
    by [tac], or with the equations of the database [flight]. *)
Ltac assign_with tac :=
  first [ erewrite assign_on2; [|by simplify_map_eq..|tac]
        | erewrite assign_on1; [|by simplify_map_eq|tac] ];
  simpl.

Ltac assign_step := assign_with ltac:(flight_simpl; reflexivity).

Lemma assign_rows_Ok c f (df df' : table) :
  assign_rows c f df = Ok df' ↔
    Forall2 (λ r r', ∃ v, f r = Ok v ∧ r' = <[c := v]> r) df df'.
Proof.
  unfold assign_rows. rewrite result_mapM_Forall2.
  split; intros Hf; (eapply Forall2_impl; [exact Hf|]); intros r r'; apply assign_Ok.
Qed.

(** A row of the result of a column assignment is a row of the argument
    with the column set. *)
Lemma assign_rows_elem c f (df df' : table) r' :
  assign_rows c f df = Ok df' → r' ∈ df' →
  ∃ r v, r ∈ df ∧ f r = Ok v ∧ r' = <[c := v]> r.
Proof.
  intros Hdf Hr'. destruct (result_mapM_elem _ _ _ _ Hdf Hr') as (r & Hr & Ha).
  apply assign_Ok in Ha as (v & Hv & ->). by exists r, v.
Qed.

Lemma assign_rows_total c f (df : table) :
  Forall (λ r, is_Ok (f r)) df → is_Ok (assign_rows c f df).
Proof.
  intros Hdf. apply result_mapM_total. eapply Forall_impl; [exact Hdf|].
  intros r [v Hv]. exists (<[c := v]> r). unfold assign. by rewrite Hv.
Qed.

(** A property of rows that every assigned row acquires. *)
Lemma assign_rows_Forall (P Q : row → Prop) c f (df df' : table) :
  assign_rows c f df = Ok df' → Forall P df →
  (∀ r v, P r → f r = Ok v → Q (<[c := v]> r)) → Forall Q df'.
Proof.
  intros Hdf HP HQ. apply Forall_forall. intros r' Hr'.
  destruct (assign_rows_elem _ _ _ _ _ Hdf Hr') as (r & v & Hr & Hv & ->).
  eapply HQ; [|done]. by eapply Forall_forall in HP.
Qed.

Lemma on1_total g a (r : row) x : r !! a = Some x → is_Ok (g x) → is_Ok (on1 g a r).
Proof. intros Hx [v Hv]. exists v. apply on1_Ok. eauto. Qed.

(** ** Rows that grow *)

Lemma grows_refl (r : row) : grows [] r r.
Proof. split; [constructor | done]. Qed.

Lemma grows_insert c v (r : row) : grows [c] r (<[c := v]> r).
Proof.
  split; [by repeat constructor; rewrite lookup_insert_eq|].
  intros c' Hc'%not_elem_of_cons. apply lookup_insert_ne.
  by intros ->; destruct Hc'.
Qed.

Lemma grows_is_Some cs (r r' : row) c :
  grows cs r r' → is_Some (r !! c) → is_Some (r' !! c).
Proof.
  intros [Hcs Hne] Hc. destruct (decide (c ∈ cs)) as [Hin|Hin].
  - by eapply Forall_forall in Hcs.
  - by rewrite Hne.
Qed.

Lemma grows_trans cs1 cs2 (r1 r2 r3 : row) :
  grows cs1 r1 r2 → grows cs2 r2 r3 → grows (cs2 ++ cs1) r1 r3.
Proof.
  intros [Hc1 H1] [Hc2 H2]. split.
  - apply Forall_app. split; [done|]. eapply Forall_impl; [exact Hc1|].
    intros c. by apply (grows_is_Some cs2).
  - intros c [??]%not_elem_of_app. by rewrite H2, H1.
Qed.

(** The list of columns matters as a set. *)
Lemma grows_equiv cs cs' (r r' : row) :
  Forall (λ c, c ∈ cs) cs' → Forall (λ c, c ∈ cs') cs → grows cs r r' → grows cs' r r'.
Proof.
  rewrite !Forall_forall. intros H1 H2 [Hc Hne]. split.
  - apply Forall_forall. intros c Hin%H1. by eapply Forall_forall in Hc.
  - intros c Hin. apply Hne. by intros ?%H2.
Qed.

Lemma grows_has_cols cs cs0 (r r' : row) :
  grows cs r r' → has_cols cs0 r → has_cols cs0 r'.
Proof.
  intros Hg H0. eapply Forall_impl; [exact H0|]. intros c.
  by apply (grows_is_Some cs).
Qed.

Lemma assign_grows c f (r r' : row) : assign c f r = Ok r' → grows [c] r r'.
Proof. intros (v & _ & ->)%assign_Ok. apply grows_insert. Qed.

(** The columns a chain of assignments sets, from the equation [H] of its
    successful run. *)
Ltac grows_chain H :=
  repeat (let r := fresh "r" in let Ha := fresh "Ha" in
          apply bind_Ok_inv in H as (r & Ha%assign_grows & H));
  apply assign_grows in H;
  repeat match goal with
  | H1 : grows _ ?r1 ?r2, H2 : grows _ ?r2 ?r3 |- _ =>
      pose proof (grows_trans _ _ _ _ _ H1 H2); clear H1 H2
  end.

Lemma Forall2_grows_trans cs1 cs2 (df1 df2 df3 : table) :
  Forall2 (grows cs1) df1 df2 → Forall2 (grows cs2) df2 df3 →
  Forall2 (grows (cs2 ++ cs1)) df1 df3.
Proof.
  intros H1. revert df3. induction H1; inversion 1; subst; constructor;
    eauto using grows_trans.
Qed.

Lemma assign_rows_grows c f (df df' : table) :
  assign_rows c f df = Ok df' → Forall2 (grows [c]) df df'.
Proof.
  intros H%assign_rows_Ok. eapply Forall2_impl; [exact H|].
  intros r r' (v & _ & ->). apply grows_insert.
Qed.

(** ** The [.str] accessor *)

(** The accessor succeeds on a column of dtype [object] only, and then as
    the assignment of the method to every cell. *)
Lemma assign_str_Ok object g c' c (df df' : table) :
  assign_str object g c' c df = Ok df' ↔
    object = true ∧ assign_rows c' (on1 (λ v, Ok (g v)) c) df = Ok df'.
Proof.
  unfold assign_str. destruct object; [naive_solver|].
  split; [|by intros [? _]]. by destruct (result_mapM (col c) df).
Qed.

Lemma assign_str_numeric g c' c (df : table) :
  Forall (has_cols [c]) df → assign_str false g c' c df = Raise str_error.
Proof.
  intros Hdf. unfold assign_str.
  destruct (result_mapM_total (col c) df) as [cells ->]; [|done].
  eapply Forall_impl; [exact Hdf|]. intros r [v Hv]%Forall_singleton.
  exists v. by apply col_Ok.
Qed.

Lemma object_dtype_text c (df : table) r s :
  r ∈ df → r !! c = Some (VStr s) → object_dtype c df = true.
Proof.
  intros Hr Hs. unfold object_dtype. apply orb_true_iff. right.
  apply existsb_exists. exists r. split; [by apply list_elem_of_In|]. by rewrite Hs.
Qed.

Lemma object_dtype_numeric c (df : table) :
  df ≠ [] → Forall (λ r, from_option is_text false (r !! c) = false) df →
  object_dtype c df = false.
Proof.
  intros Hne Hdf. unfold object_dtype. rewrite bool_decide_eq_false_2 by done. simpl.
  by apply existsb_false_Forall.
Qed.

Lemma Forall2_grows_has_cols cs cs0 (df df' : table) :
  Forall2 (grows cs) df df' → Forall (has_cols cs0) df → Forall (has_cols cs0) df'.
Proof.
  intros Hg Hdf. apply Forall_forall. intros r' Hr'.
  apply list_elem_of_lookup in Hr' as [k Hr'].
  destruct (Forall2_lookup_r _ _ _ _ _ Hg Hr') as (r & Hr & Hgr).
  eapply grows_has_cols; [exact Hgr|]. eapply Forall_lookup_1 in Hdf; done.
Qed.

Lemma notnull_at_Some c (r : row) :
  notnull_at c r ↔ ∃ v, r !! c = Some v ∧ v ≠ VNull.
Proof.
  unfold notnull_at. destruct (r !! c) as [v|]; [|split; [done|by intros (?&?&?)]].
  split.
  - intros Hv. exists v. split; [done|]. by intros ->.
  - intros (? & [= <-] & Hv). by destruct v.
Qed.
