(* ===== verification/Spec.v ===== *)
(** * Specification of the feature derivation

    What the row-wise part of FeatureEngineer promises, stated on typed
    data and without pandas: an itinerary (two timestamps and two clock
    times that may be unreadable) determines thirteen derived columns.
    [Features.v] and [Predictor.v] prove that the training path
    ([feature_engineering], [main_model.py:98-142]) and the inference path
    ([predict_single_flight], [:360-409]) both compute these columns. *)

From S2P Require Import Prelude Calendar Frame.
From Stdlib Require Import QArith.
From stdpp Require Import base tactics option list strings numbers gmap.

#[local] Open Scope string_scope.
#[local] Open Scope Z_scope.

(** ** Pure feature functions *)

(** The bucket of a number of days in advance. *)
Definition booking_bucket (days : Z) : Z :=
  if days <? 7 then 0 else if days <? 30 then 1 else if days <? 90 then 2 else 3.

(** The flag of a weekend day, Monday being 0. *)
Definition weekend (day_of_week : Z) : Z := if 5 <=? day_of_week then 1 else 0.

(** The duration of a flight from two numbers of minutes: a negative
    difference is taken to cross midnight. *)
Definition duration (arrival departure : Z) : Z :=
  if arrival - departure <? 0 then arrival - departure + 24 * 60
  else arrival - departure.

(** The part of the day of a number of minutes since midnight. *)
Definition day_part (minutes : Z) : Z :=
  let hour := minutes / 60 in
  if (6 <=? hour) && (hour <? 12) then 0
  else if (12 <=? hour) && (hour <? 18) then 1
  else if (18 <=? hour) && (hour <? 22) then 2 else 3.

(** ** Itineraries and their derived columns *)

(** A listing or a request, once read: when it was created, when the
    flight leaves, and the two clock times in minutes, [None] standing for
    a clock time that could not be read. *)
Record itinerary : Type := Itinerary {
  created : timestamp;
  flies : timestamp;
  departs : option Z;
  arrives : option Z
}.

(** A number that may be missing, as a cell. *)
Definition cell (o : option Z) : val :=
  match o with Some z => VInt z | None => VNull end.

(** The derived columns, in the order the program assigns them. *)
Definition derived_columns (i : itinerary) : list (string * val) :=
  [("create_hour", VInt (ts_hour (created i)));
   ("create_day_of_week", VInt (dayofweek (created i)));
   ("create_month", VInt (ts_month (created i)));
   ("flight_month", VInt (ts_month (flies i)));
   ("flight_day_of_week", VInt (dayofweek (flies i)));
   ("days_in_advance", VInt (timedelta_days (flies i) (created i)));
   ("is_weekend_booking", VInt (weekend (dayofweek (created i))));
   ("is_weekend_flight", VInt (weekend (dayofweek (flies i))));
   ("booking_category", VInt (booking_bucket (timedelta_days (flies i) (created i))));
   ("departure_minutes", cell (departs i));
   ("arrival_minutes", cell (arrives i));
   ("flight_duration",
      cell (a ← arrives i; d ← departs i; Some (duration a d)));
   ("departure_time_category", VInt (from_option day_part 3 (departs i)))].

(** The names of the derived columns. *)
Definition derived_names : list string :=
  ["create_hour"; "create_day_of_week"; "create_month"; "flight_month";
   "flight_day_of_week"; "days_in_advance"; "is_weekend_booking";
   "is_weekend_flight"; "booking_category"; "departure_minutes";
   "arrival_minutes"; "flight_duration"; "departure_time_category"].

(** A row with columns set, the first of the list first. *)
Definition with_columns (columns : list (string * val)) (r : row) : row :=
  foldl (λ r cv, <[cv.1 := cv.2]> r) r columns.

(** The row of an itinerary: the base row with the derived columns. *)
Definition engineered (i : itinerary) (r : row) : row :=
  with_columns (derived_columns i) r.

(** * Lemmas *)

Lemma booking_bucket_spec d c :
  booking_bucket d = c ↔
    (c = 0 ∧ d < 7) ∨ (c = 1 ∧ 7 ≤ d < 30) ∨ (c = 2 ∧ 30 ≤ d < 90) ∨ (c = 3 ∧ 90 ≤ d).
Proof. unfold booking_bucket. Zcompare_cases; lia. Qed.

Lemma booking_bucket_range d : 0 ≤ booking_bucket d ≤ 3.
Proof. unfold booking_bucket. Zcompare_cases; lia. Qed.

Lemma weekend_range d : 0 ≤ weekend d ≤ 1.
Proof. unfold weekend. Zcompare_cases; lia. Qed.

Lemma day_part_range m : 0 ≤ day_part m ≤ 3.
Proof. unfold day_part. cbv zeta. Zcompare_cases; lia. Qed.

Lemma day_part_spec m c :
  day_part m = c ↔
    (c = 0 ∧ 360 ≤ m < 720) ∨ (c = 1 ∧ 720 ≤ m < 1080) ∨
    (c = 2 ∧ 1080 ≤ m < 1320) ∨ (c = 3 ∧ (m < 360 ∨ 1320 ≤ m)).
Proof. unfold day_part. cbv zeta. Zcompare_cases; lia_div. Qed.

(** Between two times of day the duration is the difference modulo a day. *)
Lemma duration_mod a d :
  0 ≤ a < 1440 → 0 ≤ d < 1440 → duration a d = (a - d) mod 1440.
Proof. intros Ha Hd. unfold duration. Zcompare_cases; lia_div. Qed.

Lemma duration_range a d :
  0 ≤ a < 1440 → 0 ≤ d < 1440 → 0 ≤ duration a d < 1440.
Proof. intros Ha Hd. rewrite duration_mod by done. lia_div. Qed.

(** ** Rows with columns set *)

Lemma with_columns_cons c v columns (r : row) :
  with_columns ((c, v) :: columns) r = with_columns columns (<[c := v]> r).
Proof. done. Qed.

Lemma with_columns_lookup_ne columns (r : row) c :
  c ∉ columns.*1 → with_columns columns r !! c = r !! c.
Proof.
  revert r. induction columns as [|[c' v] columns IH]; intros r Hc; [done|].
  rewrite with_columns_cons, IH by (by apply not_elem_of_cons in Hc as [_ ?]).
  apply lookup_insert_ne. apply not_elem_of_cons in Hc as [Hc _]. by intros ->.
Qed.

Lemma with_columns_lookup columns (r : row) c v :
  NoDup columns.*1 → (c, v) ∈ columns → with_columns columns r !! c = Some v.
Proof.
  revert r. induction columns as [|[c' v'] columns IH]; intros r Hnd Hin.
  { by apply elem_of_nil in Hin. }
  apply NoDup_cons in Hnd as [Hc' Hnd]. rewrite with_columns_cons.
  apply elem_of_cons in Hin as [[= <- <-]|Hin]; [|by apply IH].
  rewrite with_columns_lookup_ne by done. apply lookup_insert_eq.
Qed.

Lemma derived_columns_names i : (derived_columns i).*1 = derived_names.
Proof. done. Qed.

Lemma derived_names_NoDup : NoDup derived_names.
Proof. compute_done. Qed.

(** A column that is not derived is the column of the base row. *)
Lemma engineered_lookup_ne i (r : row) c :
  c ∉ derived_names → engineered i r !! c = r !! c.
Proof. intros Hc. by apply with_columns_lookup_ne. Qed.

Lemma engineered_lookup i (r : row) c v :
  (c, v) ∈ derived_columns i → engineered i r !! c = Some v.
Proof. apply with_columns_lookup. apply derived_names_NoDup. Qed.

Lemma derived_columns_elem i c :
  c ∈ derived_names → ∃ v, (c, v) ∈ derived_columns i.
Proof.
  rewrite <-(derived_columns_names i). intros ([c' v] & -> & Hin)%list_elem_of_fmap.
  by exists v.
Qed.

Lemma cell_number o : is_number (cell o) = true.
Proof. by destruct o. Qed.

(** Every derived column holds a number or the missing value. *)
Lemma engineered_number i (r : row) c :
  c ∈ derived_names → ∃ v, engineered i r !! c = Some v ∧ is_number v = true.
Proof.
  intros [v Hv]%(derived_columns_elem i). exists v.
  split; [by apply engineered_lookup|].
  assert (Forall (λ cv, is_number cv.2 = true) (derived_columns i)) as Hn
    by (repeat constructor; apply cell_number).
  by apply (proj1 (Forall_forall _ _) Hn (c, v)).
Qed.

(** The derived columns do not depend on the base row. *)
Lemma engineered_lookup_derived i (r r' : row) c :
  c ∈ derived_names → engineered i r !! c = engineered i r' !! c.
Proof.
  intros [v Hv]%(derived_columns_elem i).
  by rewrite !(engineered_lookup _ _ _ _ Hv).
Qed.

(** A derived column is never missing but for the three that depend on the
    clock times. *)
Lemma engineered_notnull i (r : row) c :
  c ∈ derived_names → c ∉ ["departure_minutes"; "arrival_minutes"; "flight_duration"] →
  ∃ z, engineered i r !! c = Some (VInt z).
Proof.
  intros Hc Hn. unfold derived_names in Hc.
  repeat (apply elem_of_cons in Hc as [->|Hc]);
    try (eexists; apply engineered_lookup; unfold derived_columns;
         repeat first [left; done | right]; fail).
  all: try (exfalso; apply Hn; repeat first [left; done | right]; fail).
  by apply elem_of_nil in Hc.
Qed.
