(* ===== verification/Encoder.v ===== *)
(** * The label encoder

    scikit-learn's [LabelEncoder] as [feature_engineering] fits it
    ([main_model.py:165-169]: [fit_transform] on a column cast to text) and
    as [predict_single_flight] applies it ([:416-426]: [transform] on one
    label).  The fitted vocabulary [classes_] is the sorted list of the
    distinct labels; the code of a label is its position; [transform]
    raises [ValueError] on a label outside the vocabulary and
    [inverse_transform] on a code outside the positions. *)

From S2P Require Import Prelude.
From stdpp Require Import base tactics option list strings numbers sorting.

#[local] Open Scope string_scope.
#[local] Open Scope Z_scope.

(** ** Definitions *)

Record LabelEncoder : Type := { classes_ : list string }.

#[global] Instance LabelEncoder_eq_dec : EqDecision LabelEncoder.
Proof. solve_decision. Defined.

(** [np.unique]: the distinct elements, in increasing order. *)
Definition unique (ys : list string) : list string :=
  merge_sort String.le (remove_dups ys).

(** [LabelEncoder().fit(ys)] *)
Definition fit (ys : list string) : LabelEncoder := {| classes_ := unique ys |}.

Definition unseen_error : error :=
  ValueError "y contains previously unseen labels".

(** [le.transform([y])[0]] *)
Definition encode (le : LabelEncoder) (y : string) : result Z :=
  match list_find (λ x, x = y) (classes_ le) with
  | Some (i, _) => Ok (Z.of_nat i)
  | None => Raise unseen_error
  end.

(** [le.inverse_transform([code])[0]] *)
Definition decode (le : LabelEncoder) (code : Z) : result string :=
  if code <? 0 then Raise unseen_error
  else or_raise (classes_ le !! Z.to_nat code) unseen_error.

(** [le.transform(ys)] and [le.inverse_transform(codes)] *)
Definition transform (le : LabelEncoder) (ys : list string) : result (list Z) :=
  result_mapM (encode le) ys.

Definition inverse_transform (le : LabelEncoder) (codes : list Z) : result (list string) :=
  result_mapM (decode le) codes.

(** [le.fit_transform(ys)]: the fitted encoder and the codes of [ys]. *)
Definition fit_transform (ys : list string) : LabelEncoder * result (list Z) :=
  let le := fit ys in (le, transform le ys).

(** [len(le.classes_)] *)
Definition n_classes (le : LabelEncoder) : Z := Z.of_nat (length (classes_ le)).

(** The invariant of a fitted encoder: the vocabulary is strictly
    increasing, hence duplicate-free. *)
Definition fitted (le : LabelEncoder) : Prop :=
  StronglySorted (strict String.le) (classes_ le).

(** * Lemmas *)

(** ** The fitted vocabulary *)

Lemma unique_sorted ys : StronglySorted (strict String.le) (unique ys).
Proof.
  apply StronglySorted_strict; [apply _ | |].
  - apply StronglySorted_merge_sort; apply _.
  - unfold unique. rewrite merge_sort_Permutation. apply NoDup_remove_dups.
Qed.

Lemma elem_of_unique ys y : y ∈ unique ys ↔ y ∈ ys.
Proof. unfold unique. by rewrite merge_sort_Permutation, elem_of_remove_dups. Qed.

Lemma unique_NoDup ys : NoDup (unique ys).
Proof. eapply StronglySorted_NoDup; [apply _ | apply unique_sorted]. Qed.

Lemma fit_fitted ys : fitted (fit ys).
Proof. apply unique_sorted. Qed.

Lemma fitted_NoDup le : fitted le → NoDup (classes_ le).
Proof. apply StronglySorted_NoDup, _. Qed.

(** ** Codes *)

Lemma encode_Ok le y c :
  encode le y = Ok c ↔
    ∃ i, c = Z.of_nat i ∧ classes_ le !! i = Some y ∧
         ∀ j, (j < i)%nat → classes_ le !! j ≠ Some y.
Proof.
  unfold encode. destruct (list_find _ _) as [[i x]|] eqn:E.
  - apply list_find_Some in E as (Hi & -> & Hmin). split.
    + intros [= <-]. exists i. split_and!; [done..|].
      intros j Hj Hjy. by eapply Hmin.
    + intros (i' & -> & Hi' & Hmin'). f_equal.
      destruct (Nat.lt_total i i') as [?|[?|?]]; [|lia|].
      * by destruct (Hmin' i).
      * by destruct (Hmin i' y).
  - split; [done|]. intros (i & _ & Hi & _).
    eapply list_find_None, Forall_forall in E; [|by eapply list_elem_of_lookup_2].
    done.
Qed.

Lemma encode_Ok_NoDup le y c :
  NoDup (classes_ le) →
  encode le y = Ok c ↔ 0 ≤ c ∧ classes_ le !! Z.to_nat c = Some y.
Proof.
  intros Hnd. rewrite encode_Ok. split.
  - intros (i & -> & Hi & _). rewrite Nat2Z.id. split; [lia | done].
  - intros [Hc Hy]. exists (Z.to_nat c). split_and!; [lia | done |].
    intros j Hj Hjy. pose proof (NoDup_lookup _ _ _ _ Hnd Hjy Hy). lia.
Qed.

Lemma encode_unseen le y : y ∉ classes_ le ↔ encode le y = Raise unseen_error.
Proof.
  unfold encode. destruct (list_find _ _) as [[i x]|] eqn:E.
  - apply list_find_Some in E as (Hi & -> & _).
    split; [|done]. intros []. by eapply list_elem_of_lookup_2.
  - split; [done|]. intros _ Hin.
    eapply list_find_None, Forall_forall in E; done.
Qed.

Lemma encode_seen le y : y ∈ classes_ le ↔ is_Ok (encode le y).
Proof.
  split.
  - intros Hin. destruct (encode le y) eqn:E; [by eexists|].
    exfalso. unfold encode in E.
    destruct (list_find _ _) as [[]|] eqn:F; [done|].
    eapply list_find_None, Forall_forall in F; [|exact Hin]. done.
  - intros [c (i & _ & Hi & _)%encode_Ok]. by eapply list_elem_of_lookup_2.
Qed.

Lemma encode_range le y c : encode le y = Ok c → 0 ≤ c < n_classes le.
Proof.
  intros (i & -> & Hi & _)%encode_Ok. apply lookup_lt_Some in Hi.
  unfold n_classes. lia.
Qed.

Lemma decode_Ok le c y :
  decode le c = Ok y ↔ 0 ≤ c ∧ classes_ le !! Z.to_nat c = Some y.
Proof.
  unfold decode. destruct (Z.ltb_spec c 0).
  - split; [done | lia].
  - rewrite or_raise_Ok. split; [done | by intros []].
Qed.

Lemma decode_out_of_range le c :
  ¬ (0 ≤ c < n_classes le) → decode le c = Raise unseen_error.
Proof.
  unfold n_classes, decode. intros Hc. destruct (Z.ltb_spec c 0); [done|].
  rewrite (lookup_ge_None_2 (classes_ le)) by lia. done.
Qed.

Lemma fitted_lookup_strict le i j x y :
  fitted le → classes_ le !! i = Some x → classes_ le !! j = Some y →
  (i < j)%nat → strict String.le x y.
Proof. apply StronglySorted_lookup_lt. Qed.

(** * Properties *)

(** A label of a duplicate-free vocabulary has a code, which decodes to it. *)
Lemma encode_seen_decode le y :
  NoDup (classes_ le) → y ∈ classes_ le →
  ∃ c, encode le y = Ok c ∧ 0 ≤ c < n_classes le ∧ decode le c = Ok y.
Proof.
  intros Hnd [c Hc]%encode_seen. exists c.
  split; [done|]. split; [by eapply encode_range|].
  by apply decode_Ok, encode_Ok_NoDup.
Qed.

(** Fitting yields a well-formed encoder: the vocabulary [classes_] is
    strictly increasing in the order of texts (hence without duplicates),
    and it holds exactly the labels of the training column. *)
Theorem fit_vocabulary ys :
  fitted (fit ys) ∧ NoDup (classes_ (fit ys)) ∧ ∀ y, y ∈ classes_ (fit ys) ↔ y ∈ ys.
Proof.
  split_and!; [apply fit_fitted | apply unique_NoDup | apply elem_of_unique].
Qed.

(** C11: Encoding round trip: every label of the training column has a code,
    the code is a position of the vocabulary, and decoding the code gives
    the label back. *)
Theorem encode_decode ys y :
  y ∈ ys →
  ∃ c, encode (fit ys) y = Ok c ∧ 0 ≤ c < n_classes (fit ys) ∧
       decode (fit ys) c = Ok y.
Proof.
  intros Hy%elem_of_unique. by apply encode_seen_decode; [apply unique_NoDup|].
Qed.

Lemma encode_decode_witness :
  ∃ c, encode (fit ["HAN"; "SGN"; "DAD"; "SGN"]) "HAN" = Ok c ∧
       0 ≤ c < n_classes (fit ["HAN"; "SGN"; "DAD"; "SGN"]) ∧
       decode (fit ["HAN"; "SGN"; "DAD"; "SGN"]) c = Ok "HAN".
Proof. apply encode_decode. compute_done. Defined.

(** Decoding round trip: on a fitted encoder, a code that decodes to a
    label is the code that label encodes to, so that codes and labels are in
    bijection. *)
Theorem decode_encode le c y :
  fitted le → decode le c = Ok y → encode le y = Ok c.
Proof.
  intros Hle%fitted_NoDup Hc%decode_Ok. by apply encode_Ok_NoDup.
Qed.

Lemma decode_encode_witness : encode (fit ["b"; "a"]) "b" = Ok 1.
Proof. apply decode_encode; [apply fit_fitted | reflexivity]. Defined.

(** C39: A label that does not occur in the training column has no code:
    [transform] raises [ValueError], it never invents a code. *)
Theorem encode_unseen_raises ys y :
  y ∉ ys → encode (fit ys) y = Raise unseen_error.
Proof. intros Hy. apply encode_unseen. simpl. by rewrite elem_of_unique. Qed.

Lemma encode_unseen_raises_witness :
  encode (fit ["HAN"; "SGN"]) "PQC" = Raise unseen_error.
Proof. apply encode_unseen_raises. compute_done. Defined.

(** Codes follow the order of the labels: on a fitted encoder a label
    is smaller than another exactly when its code is smaller. *)
Theorem encode_monotone le y1 y2 c1 c2 :
  fitted le → encode le y1 = Ok c1 → encode le y2 = Ok c2 →
  strict String.le y1 y2 ↔ c1 < c2.
Proof.
  intros Hle (i & -> & Hi & _)%encode_Ok (j & -> & Hj & _)%encode_Ok.
  split.
  - intros Hlt. destruct (Nat.lt_total i j) as [?|[->|Hji]]; [lia| |].
    + simplify_eq. by destruct (irreflexivity (strict String.le) _ Hlt).
    + pose proof (fitted_lookup_strict _ _ _ _ _ Hle Hj Hi Hji) as Hgt.
      destruct (irreflexivity (strict String.le) y1). by etrans.
  - intros Hij. eapply fitted_lookup_strict; [done..|lia].
Qed.

Lemma encode_monotone_witness : strict String.le "DAD" "SGN" ↔ 0 < 2.
Proof.
  by apply (encode_monotone (fit ["HAN"; "SGN"; "DAD"]));
    [apply fit_fitted | reflexivity | reflexivity].
Defined.

(** C40: [fit_transform] never raises: every label of the column it was
    fitted on has a code below the vocabulary size, and
    [inverse_transform] recovers the column. *)
Theorem fit_transform_total ys :
  ∃ cs, (fit_transform ys).2 = Ok cs ∧
        Forall (λ c, 0 ≤ c < n_classes (fit ys)) cs ∧
        inverse_transform (fit ys) cs = Ok ys.
Proof.
  unfold fit_transform, transform, inverse_transform. simpl.
  assert (∀ k, k ⊆ ys → ∃ cs, result_mapM (encode (fit ys)) k = Ok cs ∧
            Forall (λ c, 0 ≤ c < n_classes (fit ys)) cs ∧
            result_mapM (decode (fit ys)) cs = Ok k) as H; [|by apply H].
  induction k as [|y k IH]; intros Hk; [by exists []|].
  destruct (encode_seen_decode (fit ys) y) as (c & Hc & Hr & Hd);
    [apply unique_NoDup | apply elem_of_unique, Hk; by left|].
  destruct IH as (cs & Hcs & Hrs & Hds); [intros ??; apply Hk; by right|].
  exists (c :: cs). simpl. rewrite Hc, Hd. simpl. rewrite Hcs, Hds.
  split; [done|]. split; [by constructor | done].
Qed.

