(* ===== verification/Stats.v ===== *)
(** * Series statistics

    The pandas reductions the program calls on a numeric column:
    [Series.mean], [Series.std] (kept as its square, the sample variance
    with [ddof=1]), [min] and [max].  A reduction skips missing values and
    is itself missing ([None]) when nothing is left to reduce.  Values are
    exact rationals; results are in lowest terms. *)

From S2P Require Import Prelude Frame.
From Stdlib Require Import QArith Qminmax Qround Lqa.
From stdpp Require Import base tactics option list strings numbers gmap sorting.

#[local] Open Scope Z_scope.

(** ** Definitions *)

(** The numbers of the cells of a column that are not missing. *)
Definition numbers (column : list val) : result (list Q) :=
  ns ← result_mapM as_number column; Ok (omap (M := list) id ns).

(** [df[c]] as a list of cells, one per row. *)
Definition column (c : string) (df : table) : result (list val) :=
  result_mapM (col c) df.

Definition qsum (xs : list Q) : Q := foldr Qplus 0%Q xs.

(** The length of a list as a rational. *)
Definition qlen {A} (xs : list A) : Q := inject_Z (Z.of_nat (length xs)).

(** [Series.mean()] *)
Definition mean (xs : list Q) : option Q :=
  match xs with
  | [] => None
  | _ => Some (Qred (qsum xs / qlen xs))
  end.

(** The square of [Series.std()]: the sample variance, missing below two
    observations. *)
Definition variance (xs : list Q) : option Q :=
  match xs with
  | [] | [_] => None
  | _ =>
      m ← mean xs;
      Some (Qred (qsum ((λ x, (x - m) * (x - m))%Q <$> xs) / (qlen xs - 1)))
  end.

(** [Series.min()] and [Series.max()] *)
Definition qmin_list (xs : list Q) : option Q :=
  match xs with
  | [] => None
  | x :: xs => Some (foldr Qmin x xs)
  end.

Definition qmax_list (xs : list Q) : option Q :=
  match xs with
  | [] => None
  | x :: xs => Some (foldr Qmax x xs)
  end.

(** A statistic as a cell: a float, or the missing value. *)
Definition stat_cell (o : option Q) : val :=
  match o with Some q => VFloat q | None => VNull end.

(** The value at the fractional position [pos] of a sorted list, by linear
    interpolation between the neighbouring elements; the element past the
    last one is the last one. *)
Definition interpolate (s : list Q) (d : Q) (pos : Q) : Q :=
  let lo := Z.to_nat (Qfloor pos) in
  let a := default d (s !! lo) in
  let b := default a (s !! S lo) in
  (a + (pos - inject_Z (Qfloor pos)) * (b - a))%Q.

(** [Series.quantile(q)] with the default linear interpolation: the value
    at position [q * (n - 1)] of the sorted observations. *)
Definition quantile (q : Q) (xs : list Q) : option Q :=
  match merge_sort Qle xs with
  | [] => None
  | (x0 :: _) as s => Some (Qred (interpolate s x0 (q * (qlen s - 1))))
  end.

(** * Lemmas *)

Lemma qlen_nil {A} : (qlen (@nil A) == 0)%Q.
Proof. reflexivity. Qed.

Lemma qlen_cons {A} (x : A) xs : (qlen (x :: xs) == qlen xs + 1)%Q.
Proof.
  unfold qlen. simpl length. rewrite Nat2Z.inj_succ. unfold Z.succ.
  by rewrite inject_Z_plus.
Qed.

Lemma qlen_nonneg {A} (xs : list A) : (0 <= qlen xs)%Q.
Proof. unfold qlen. change 0%Q with (inject_Z 0). rewrite <-Zle_Qle. lia. Qed.

Lemma qlen_pos {A} (x : A) xs : (0 < qlen (x :: xs))%Q.
Proof. rewrite qlen_cons. pose proof (qlen_nonneg xs). lra. Qed.

Lemma qsum_bounds lo hi xs :
  Forall (λ x, (lo <= x <= hi)%Q) xs →
  (qlen xs * lo <= qsum xs <= qlen xs * hi)%Q.
Proof.
  induction 1 as [|x xs [Hlo Hhi] _ [IHlo IHhi]].
  - rewrite qlen_nil. simpl. split; lra.
  - rewrite qlen_cons. simpl. split; lra.
Qed.

Lemma mean_is_Some xs : xs ≠ [] → is_Some (mean xs).
Proof. destruct xs; [done | by eexists]. Qed.

(** The mean lies between any bounds of the observations. *)
Lemma mean_bounds lo hi xs m :
  Forall (λ x, (lo <= x <= hi)%Q) xs → mean xs = Some m → (lo <= m <= hi)%Q.
Proof.
  intros Hxs. destruct xs as [|x xs]; [done|]. intros [= <-].
  rewrite Qred_correct. apply qsum_bounds in Hxs as [Hlo Hhi].
  pose proof (qlen_pos x xs) as Hn.
  change (qsum (x :: xs)) with (x + qsum xs)%Q in *. split.
  - apply Qle_shift_div_l; [done|]. lra.
  - apply Qle_shift_div_r; [done|]. lra.
Qed.

(** The mean of a constant column is the constant. *)
Lemma mean_constant c xs m :
  Forall (λ x, (x == c)%Q) xs → mean xs = Some m → (m == c)%Q.
Proof.
  intros Hxs Hm. apply Qle_antisym; eapply (mean_bounds c c) in Hm; try lra.
  all: eapply Forall_impl; [exact Hxs|]; intros x Hx; simpl in Hx; lra.
Qed.

Lemma foldr_Qmin_le x xs : (foldr Qmin x xs <= x)%Q.
Proof.
  induction xs as [|y xs IH]; simpl; [lra|]. etrans; [apply Q.le_min_r | done].
Qed.

Lemma foldr_Qmax_ge x xs : (x <= foldr Qmax x xs)%Q.
Proof.
  induction xs as [|y xs IH]; simpl; [lra|]. etrans; [done | apply Q.le_max_r].
Qed.

Lemma qmin_list_le xs m : qmin_list xs = Some m → Forall (λ x, (m <= x)%Q) xs.
Proof.
  destruct xs as [|x xs]; [done|]. intros [= <-].
  constructor; [apply foldr_Qmin_le|].
  induction xs as [|y xs IH]; simpl; constructor; [apply Q.le_min_l|].
  eapply Forall_impl; [exact IH|]. intros z Hz. simpl in Hz.
  etrans; [apply Q.le_min_r | done].
Qed.

Lemma qmax_list_ge xs m : qmax_list xs = Some m → Forall (λ x, (x <= m)%Q) xs.
Proof.
  destruct xs as [|x xs]; [done|]. intros [= <-].
  constructor; [apply foldr_Qmax_ge|].
  induction xs as [|y xs IH]; simpl; constructor; [apply Q.le_max_l|].
  eapply Forall_impl; [exact IH|]. intros z Hz. simpl in Hz.
  etrans; [done | apply Q.le_max_r].
Qed.

(** ** Interpolation on a sorted list *)

Lemma Qfloor_frac p : (0 <= p - inject_Z (Qfloor p) < 1)%Q.
Proof.
  pose proof (Qfloor_le p). pose proof (Qlt_floor p) as H1.
  rewrite inject_Z_plus in H1. change (inject_Z 1) with 1%Q in H1. lra.
Qed.

Lemma Qfloor_nonneg p : (0 <= p)%Q → 0 ≤ Qfloor p.
Proof. intros Hp. change 0 with (Qfloor 0). by apply Qfloor_resp_le. Qed.

Lemma Qfloor_lt_len {A} p (s : list A) :
  (0 <= p <= qlen s - 1)%Q → (Z.to_nat (Qfloor p) < length s)%nat.
Proof.
  intros [H0 Hp]. pose proof (Qfloor_nonneg p H0). pose proof (Qfloor_le p) as Hf.
  assert (inject_Z (Qfloor p) < inject_Z (Z.of_nat (length s)))%Q as Hlt.
  { unfold qlen in Hp. lra. }
  rewrite <-Zlt_Qlt in Hlt. lia.
Qed.

Section interpolate.
Context (s : list Q) (d : Q) (Hs : StronglySorted Qle s).

Lemma interpolate_between p a :
  (0 <= p)%Q → s !! Z.to_nat (Qfloor p) = Some a →
  (a <= interpolate s d p <= default a (s !! S (Z.to_nat (Qfloor p))))%Q.
Proof.
  intros Hp Ha. unfold interpolate. rewrite Ha. simpl.
  pose proof (Qfloor_frac p) as Hf.
  assert (a <= default a (s !! S (Z.to_nat (Qfloor p))))%Q as Hab.
  { destruct (s !! S _) as [b|] eqn:Hb; simpl; [|lra].
    eapply (StronglySorted_lookup_lt Qle); [done..|lia]. }
  split; nra.
Qed.

Lemma interpolate_mono p1 p2 :
  (0 <= p1)%Q → (p1 <= p2)%Q → (p2 <= qlen s - 1)%Q →
  (interpolate s d p1 <= interpolate s d p2)%Q.
Proof.
  intros H0 H12 Hn.
  pose proof (Qfloor_nonneg p1 H0) as Hk1.
  pose proof (Qfloor_resp_le _ _ H12) as Hk.
  destruct (lookup_lt_is_Some_2 s (Z.to_nat (Qfloor p1))) as [a1 Ha1];
    [apply Qfloor_lt_len; lra|].
  destruct (lookup_lt_is_Some_2 s (Z.to_nat (Qfloor p2))) as [a2 Ha2];
    [apply Qfloor_lt_len; lra|].
  destruct (decide (Qfloor p1 = Qfloor p2)) as [Heq|Hne].
  - unfold interpolate. rewrite <-Heq, Ha1. simpl.
    pose proof (interpolate_between p1 a1 H0 Ha1) as [_ Hb].
    unfold interpolate in Hb. rewrite Ha1 in Hb. simpl in Hb.
    pose proof (Qfloor_frac p1). nra.
  - pose proof (interpolate_between p1 a1 H0 Ha1) as [_ Hb1].
    pose proof (interpolate_between p2 a2 ltac:(lra) Ha2) as [Hb2 _].
    etrans; [exact Hb1|]. etrans; [|exact Hb2].
    destruct (s !! S _) as [b|] eqn:Hb; simpl;
      (eapply (StronglySorted_lookup_le Qle); [done..|lia]).
Qed.

(** The interpolated value lies between any bounds of the list. *)
Lemma interpolate_bounds lo hi p :
  Forall (λ x, (lo <= x <= hi)%Q) s → (0 <= p <= qlen s - 1)%Q →
  (lo <= interpolate s d p <= hi)%Q.
Proof.
  intros Hb [H0 Hn].
  destruct (lookup_lt_is_Some_2 s (Z.to_nat (Qfloor p))) as [a Ha];
    [by apply Qfloor_lt_len|].
  pose proof (interpolate_between p a H0 Ha) as [Hl Hu].
  assert (lo <= a <= hi)%Q as Hab.
  { eapply Forall_forall in Hb; [exact Hb|]. by eapply list_elem_of_lookup_2. }
  assert (default a (s !! S (Z.to_nat (Qfloor p))) <= hi)%Q.
  { destruct (s !! S _) as [b|] eqn:Hb'; simpl; [|lra].
    eapply Forall_forall in Hb; [apply Hb|]. by eapply list_elem_of_lookup_2. }
  lra.
Qed.
End interpolate.

(** ** Quantiles *)

Lemma sorted_merge_sort xs : StronglySorted Qle (merge_sort Qle xs).
Proof. apply StronglySorted_merge_sort; apply _. Qed.

Lemma quantile_Some q xs v :
  quantile q xs = Some v ↔
    ∃ x0 s, merge_sort Qle xs = x0 :: s ∧
      v = Qred (interpolate (x0 :: s) x0 (q * (qlen (x0 :: s) - 1))).
Proof.
  unfold quantile. destruct (merge_sort Qle xs) as [|x0 s].
  - split; [done | intros (? & ? & ? & ?); done].
  - split; [intros [= <-]; by eexists _, _ | by intros (? & ? & [= <- <-] & ->)].
Qed.

Lemma quantile_None q xs : quantile q xs = None ↔ xs = [].
Proof.
  unfold quantile. destruct (merge_sort Qle xs) as [|x0 s] eqn:E.
  - split; [intros _|done]. apply Permutation_nil_r. by rewrite <-E, merge_sort_Permutation.
  - split; [done|]. intros ->. by vm_compute in E.
Qed.

Lemma quantile_position q x0 (s : list Q) :
  (0 <= q <= 1)%Q → (0 <= q * (qlen (x0 :: s) - 1) <= qlen (x0 :: s) - 1)%Q.
Proof.
  intros Hq. rewrite qlen_cons. pose proof (qlen_nonneg s). split; nra.
Qed.

(** Quantiles are monotone in the level. *)
Lemma quantile_mono q1 q2 xs v1 v2 :
  (0 <= q1)%Q → (q1 <= q2)%Q → (q2 <= 1)%Q →
  quantile q1 xs = Some v1 → quantile q2 xs = Some v2 → (v1 <= v2)%Q.
Proof.
  intros H0 H12 H1 (x0 & s & Hs & ->)%quantile_Some (? & ? & Hs' & ->)%quantile_Some.
  rewrite Hs in Hs'. injection Hs' as <- <-. rewrite !Qred_correct.
  pose proof (sorted_merge_sort xs) as Hsorted. rewrite Hs in Hsorted.
  pose proof (quantile_position q1 x0 s ltac:(lra)).
  pose proof (quantile_position q2 x0 s ltac:(lra)).
  apply interpolate_mono; [done|lra| |lra].
  rewrite qlen_cons. pose proof (qlen_nonneg s). nra.
Qed.

(** A quantile lies between any bounds of the observations. *)
Lemma quantile_bounds lo hi q xs v :
  Forall (λ x, (lo <= x <= hi)%Q) xs → (0 <= q <= 1)%Q →
  quantile q xs = Some v → (lo <= v <= hi)%Q.
Proof.
  intros Hb Hq (x0 & s & Hs & ->)%quantile_Some. rewrite Qred_correct.
  pose proof (sorted_merge_sort xs) as Hsorted. rewrite Hs in Hsorted.
  apply interpolate_bounds; [done| |by apply quantile_position].
  by rewrite <-Hs, merge_sort_Permutation.
Qed.

Example quantile_quarter : quantile (1 # 4) [5; 1; 4; 2; 3]%Q = Some 2%Q.
Proof. reflexivity. Qed.
Example quantile_interpolates : quantile (1 # 4) [20; 10]%Q = Some (25 # 2)%Q.
Proof. reflexivity. Qed.

(** ** Columns and their numbers *)

Lemma numbers_elem cells xs x :
  numbers cells = Ok xs → x ∈ xs → ∃ v, v ∈ cells ∧ as_number v = Ok (Some x).
Proof.
  unfold numbers. intros (ns & Hns & [= <-])%bind_Ok_inv Hx.
  apply list_elem_of_omap in Hx as (o & Ho & Hx). simpl in Hx. subst o.
  by eapply result_mapM_elem.
Qed.

Lemma column_elem c (df : table) cells v :
  column c df = Ok cells → v ∈ cells → ∃ r, r ∈ df ∧ r !! c = Some v.
Proof.
  intros Hc Hv. destruct (result_mapM_elem _ _ _ _ Hc Hv) as (r & Hr & Hcol).
  exists r. split; [done|]. by apply or_raise_Ok in Hcol.
Qed.

Lemma stat_cell_number o : is_number (stat_cell o) = true.
Proof. by destruct o. Qed.

Lemma stat_cell_VFloat o q : stat_cell o = VFloat q ↔ o = Some q.
Proof. destruct o; simpl; split; congruence. Qed.

(** ** Columns under row filters and assignments *)

Lemma column_assign_ne c a f (df df' : table) :
  assign_rows a f df = Ok df' → a ≠ c → column c df' = column c df.
Proof.
  intros Ha%assign_rows_Ok Hne. unfold column.
  induction Ha as [|r r' df df' (v & _ & ->) _ IH]; [done|]. simpl.
  by rewrite IH, col_insert_ne.
Qed.

Lemma column_filter (P : row → Prop) `{∀ r, Decision (P r)} c (df : table) cells :
  column c df = Ok cells →
  ∃ cells', column c (filter P df) = Ok cells' ∧ sublist cells' cells.
Proof.
  unfold column. revert cells. induction df as [|r df IH]; intros cells; simpl.
  { intros [= <-]. by exists []. }
  intros (v & Hv & (vs & Hvs & [= <-])%bind_Ok_inv)%bind_Ok_inv.
  destruct (IH _ Hvs) as (cells' & Hc & Hsub). rewrite filter_cons.
  destruct (decide (P r)).
  - exists (v :: cells'). simpl. rewrite Hv. simpl. rewrite Hc. split; [done|].
    by apply sublist_skip.
  - exists cells'. split; [done|]. by apply sublist_cons.
Qed.

Lemma numbers_sublist cells cells' xs :
  sublist cells' cells → numbers cells = Ok xs →
  ∃ xs', numbers cells' = Ok xs' ∧ sublist xs' xs.
Proof.
  unfold numbers. intros Hsub. revert xs.
  induction Hsub as [|v cells' cells _ IH|v cells' cells _ IH]; intros xs; simpl.
  - intros [= <-]. by exists [].
  - intros (ns & (n & Hn & (ns' & Hns & [= <-])%bind_Ok_inv)%bind_Ok_inv
      & [= <-])%bind_Ok_inv.
    destruct (IH (omap id ns')) as (xs' & (ns'' & Hns'' & [= <-])%bind_Ok_inv & Hs);
      [by rewrite Hns|].
    exists (omap id (n :: ns'')). rewrite Hn. simpl. rewrite Hns''. split; [done|].
    destruct n; simpl; [by apply sublist_skip|done].
  - intros (ns & (n & Hn & (ns' & Hns & [= <-])%bind_Ok_inv)%bind_Ok_inv
      & [= <-])%bind_Ok_inv.
    destruct (IH (omap id ns')) as (xs' & Hxs' & Hs); [by rewrite Hns|].
    exists xs'. split; [done|]. destruct n; simpl; [by apply sublist_cons|done].
Qed.

(** The numbers of a column after a row filter are a sublist of those
    before it, and an assignment to another column leaves them alone. *)
Lemma column_numbers_filter (P : row → Prop) `{∀ r, Decision (P r)} c (df : table) xs :
  column c df ≫= numbers = Ok xs →
  ∃ xs', column c (filter P df) ≫= numbers = Ok xs' ∧ sublist xs' xs.
Proof.
  intros (cells & Hc & Hx)%bind_Ok_inv.
  destruct (column_filter P c df cells Hc) as (cells' & -> & Hsub).
  by apply (numbers_sublist cells).
Qed.

Lemma column_numbers_assign c a f (df df' : table) xs :
  assign_rows a f df = Ok df' → a ≠ c →
  column c df ≫= numbers = Ok xs → column c df' ≫= numbers = Ok xs.
Proof. intros Ha Hne. by rewrite (column_assign_ne c a f df df' Ha Hne). Qed.

Lemma column_total c (df : table) :
  Forall (λ r, is_Some (r !! c)) df → is_Ok (column c df).
Proof.
  intros Hdf. apply result_mapM_total. eapply Forall_impl; [exact Hdf|].
  intros r [v Hv]. exists v. by apply or_raise_Ok.
Qed.

Lemma numbers_total c (df : table) cells :
  column c df = Ok cells →
  Forall (λ r, ∃ v, r !! c = Some v ∧ is_Ok (as_number v)) df → is_Ok (numbers cells).
Proof.
  intros Hc Hdf. unfold numbers.
  destruct (result_mapM_total as_number cells) as [ns Hns]; [|rewrite Hns; by eexists].
  apply Forall_forall. intros v Hv.
  destruct (column_elem _ _ _ _ Hc Hv) as (r & Hr & Hrv).
  eapply Forall_forall in Hdf as (v' & ? & ?); [|done]. by simplify_eq.
Qed.

(** ** Extremes *)

Section extremes.
Context (P : Q → Prop) (xs : list Q) (HP : Forall P xs).

(** A property of the observations that minimum and maximum of two
    preserve holds of the extremes. *)
Lemma qmin_list_elem m :
  (∀ a b, P a → P b → P (Qmin a b)) → qmin_list xs = Some m → P m.
Proof.
  intros Hmin. destruct HP as [|x xs' Hx Hxs]; [done|]. intros [= <-].
  induction Hxs; simpl; auto.
Qed.

Lemma qmax_list_elem m :
  (∀ a b, P a → P b → P (Qmax a b)) → qmax_list xs = Some m → P m.
Proof.
  intros Hmax. destruct HP as [|x xs' Hx Hxs]; [done|]. intros [= <-].
  induction Hxs; simpl; auto.
Qed.
End extremes.

Lemma qmin_list_bounds lo hi xs m :
  Forall (λ x, (lo <= x <= hi)%Q) xs → qmin_list xs = Some m → (lo <= m <= hi)%Q.
Proof.
  intros Hxs. apply (qmin_list_elem _ _ Hxs). intros a b [? Ha] [??].
  split; [by apply Q.min_glb | etrans; [apply Q.le_min_l | exact Ha]].
Qed.

Lemma qmax_list_bounds lo hi xs m :
  Forall (λ x, (lo <= x <= hi)%Q) xs → qmax_list xs = Some m → (lo <= m <= hi)%Q.
Proof.
  intros Hxs. apply (qmax_list_elem _ _ Hxs). intros a b [Ha ?] [??].
  split; [etrans; [exact Ha | apply Q.le_max_l] | by apply Q.max_lub].
Qed.

(** The extremes bracket the mean. *)
Lemma mean_between xs lo hi m :
  qmin_list xs = Some lo → qmax_list xs = Some hi → mean xs = Some m →
  (lo <= m <= hi)%Q.
Proof.
  intros Hlo%qmin_list_le Hhi%qmax_list_ge. apply mean_bounds.
  apply Forall_and. by split.
Qed.

(** ** The quartiles and their fence *)

Lemma interpolate_index s d k x :
  s !! k = Some x → (interpolate s d (inject_Z (Z.of_nat k)) == x)%Q.
Proof.
  intros Hk. unfold interpolate. rewrite Qfloor_Z, Nat2Z.id, Hk. simpl. ring.
Qed.

Lemma interpolate_unfold s d p k :
  Qfloor p = Z.of_nat k →
  interpolate s d p =
    (default d (s !! k) +
     (p - inject_Z (Z.of_nat k)) *
     (default (default d (s !! k)) (s !! S k) - default d (s !! k)))%Q.
Proof. intros Hp. unfold interpolate. by rewrite Hp, Nat2Z.id. Qed.

(** From three observations on, the middle observation lies between the
    first and the third quartile. *)
Lemma quartiles_bracket_element xs q1 q3 :
  (3 ≤ length xs)%nat → quantile (1 # 4) xs = Some q1 → quantile (3 # 4) xs = Some q3 →
  ∃ x, x ∈ xs ∧ (q1 <= x <= q3)%Q.
Proof.
  intros Hn (x0 & s & Hs & ->)%quantile_Some (? & ? & Hs' & ->)%quantile_Some.
  rewrite Hs in Hs'. injection Hs' as <- <-.
  pose proof (sorted_merge_sort xs) as Hsorted. rewrite Hs in Hsorted.
  assert (length (x0 :: s) = length xs) as Hlen
    by (by rewrite <-Hs, merge_sort_Permutation).
  set (k := ((length xs - 1) / 2)%nat).
  destruct (lookup_lt_is_Some_2 (x0 :: s) k) as [x Hx].
  { subst k. rewrite Hlen. apply Nat.lt_le_trans with (length xs - 1 + 1)%nat; [|lia].
    pose proof (Nat.Div0.div_le_upper_bound (length xs - 1) 2 (length xs - 1)). lia. }
  exists x. split.
  { rewrite <-(merge_sort_Permutation Qle xs), Hs. by eapply list_elem_of_lookup_2. }
  rewrite !Qred_correct, <-(interpolate_index _ x0 _ _ Hx).
  assert (qlen (x0 :: s) - 1 == inject_Z (Z.of_nat (length xs) - 1))%Q as Hq.
  { unfold qlen. rewrite Hlen. unfold Z.sub. by rewrite inject_Z_plus. }
  assert (Z.of_nat (length xs) - 1 ≤ 4 * Z.of_nat k ∧
          4 * Z.of_nat k ≤ 3 * (Z.of_nat (length xs) - 1)) as [Hk1 Hk2].
  { subst k. rewrite Nat2Z.inj_div, Nat2Z.inj_sub by lia. simpl. lia_div. }
  revert Hk1 Hk2 Hq. generalize (Z.of_nat k) (Z.of_nat (length xs) - 1).
  intros K M Hk1 Hk2 Hq.
  assert (inject_Z M <= 4 * inject_Z K)%Q
    by (change 4%Q with (inject_Z 4); rewrite <-inject_Z_mult, <-Zle_Qle; lia).
  assert (4 * inject_Z K <= 3 * inject_Z M)%Q
    by (change 4%Q with (inject_Z 4); change 3%Q with (inject_Z 3);
        rewrite <-!inject_Z_mult, <-Zle_Qle; lia).
  split; apply interpolate_mono; try done; rewrite ?Hq; lra.
Qed.

(** The fence [Q1 - 1.5 IQR, Q3 + 1.5 IQR] holds an observation. *)
Lemma quartile_fence_keeps xs q1 q3 :
  quantile (1 # 4) xs = Some q1 → quantile (3 # 4) xs = Some q3 →
  ∃ x, x ∈ xs ∧ (q1 - (3 # 2) * (q3 - q1) <= x <= q3 + (3 # 2) * (q3 - q1))%Q.
Proof.
  intros H1 H3.
  pose proof (quantile_mono (1 # 4) (3 # 4) _ _ _
                ltac:(lra) ltac:(lra) ltac:(lra) H1 H3) as Hle.
  destruct (decide (3 ≤ length xs)%nat) as [Hn|Hn].
  { destruct (quartiles_bracket_element xs q1 q3 Hn H1 H3) as (x & Hx & ?).
    exists x. split; [done|lra]. }
  apply quantile_Some in H1 as (x0 & s & Hs & ->).
  apply quantile_Some in H3 as (? & ? & Hs' & ->).
  rewrite Hs in Hs'. injection Hs' as <- <-.
  pose proof (sorted_merge_sort xs) as Hsorted. rewrite Hs in Hsorted.
  assert (length (x0 :: s) = length xs) as Hlen
    by (by rewrite <-Hs, merge_sort_Permutation).
  exists x0. split.
  { rewrite <-(merge_sort_Permutation Qle xs), Hs. left. }
  rewrite !Qred_correct in *.
  destruct s as [|x1 [|x2 s]]; [| |simpl in Hlen; lia].
  - rewrite !(interpolate_unfold _ _ _ 0) in * by reflexivity.
    change (qlen [x0]) with 1%Q in *. simpl in *.
    change (inject_Z (Z.of_nat 0)) with 0%Q in *. lra.
  - assert (x0 <= x1)%Q
      by (eapply (StronglySorted_lookup_lt Qle _ 0%nat 1%nat); [done..|lia]).
    rewrite !(interpolate_unfold _ _ _ 0) in * by reflexivity.
    change (qlen [x0; x1]) with 2%Q in *. simpl in *.
    change (inject_Z (Z.of_nat 0)) with 0%Q in *. lra.
Qed.
