(* ===== verification/State.v ===== *)
(** * The predictor object

    The attributes of [FlightPricePredictor] ([main_model.py:18-32]) as a
    record that every method takes and returns.  Python dictionaries kept
    in attributes ([label_encoders], [price_stats], the popularity
    statistics) are finite maps with string keys; an attribute that is
    [None] until a method sets it is an [option].  The trained model is a
    value of an abstract type with the two observations the program makes
    of it ([Regressor]).  The attribute [scaler] is created and pickled but
    never fitted nor applied: it is a constant.  [results] is the
    dictionary of the candidates' evaluations, in insertion order.
    [object_columns] is the part of [self.df] that its rows do not show:
    the names of the columns [read_csv] gave the dtype [object], which
    decides whether the [.str] accessor exists on a column. *)

From S2P Require Import Prelude Frame Encoder.
From Stdlib Require Import QArith.
From stdpp Require Import base tactics option list strings numbers gmap.

#[local] Open Scope string_scope.
#[local] Open Scope Z_scope.

(** A fitted scikit-learn regressor, as the predictor uses it: the number
    of features it was fitted on ([n_features_in_]) and its prediction for
    one feature vector. *)
Class Regressor : Type := {
  model : Type;
  n_features_in_ : model → nat;
  predict_one : model → list Q → Q
}.

Definition shape_error : error :=
  ValueError "X has a different number of features than the model is expecting".

(** [model.predict] on one feature vector: scikit-learn checks the number
    of features before it predicts. *)
Definition predict `{Regressor} (m : model) (x : list Q) : result Q :=
  if decide (length x = n_features_in_ m) then Ok (predict_one m x)
  else Raise shape_error.

(** The simplest regressor, used in the worked examples: a model is the
    number of features it was fitted on and the constant it predicts. *)
Definition constant_regressor : Regressor :=
  {| model := nat * Q; n_features_in_ := fst; predict_one := λ m _, m.2 |}.

(** [RobustScaler()], never fitted. *)
Inductive Scaler : Type := RobustScaler.

#[global] Instance Scaler_eq_dec : EqDecision Scaler.
Proof. solve_decision. Defined.

(** A quotient of two errors: a number, or [float('inf')]. *)
Inductive ratio : Type := Ratio (q : Q) | Inf.

Section state.
Context `{Regressor}.

(** An entry of [self.results] ([main_model.py:250-261]).  The two standard
    deviations and root mean squared errors are kept as their squares
    ([cv_mae_var], [train_mse], [test_mse]); a coefficient of
    determination that is [nan] is [None]. *)
Record evaluation : Type := {
  ev_model : model;
  cv_mae_mean : Q;
  cv_mae_var : Q;
  train_mae : Q;
  test_mae : Q;
  train_mse : Q;
  test_mse : Q;
  train_r2 : option Q;
  test_r2 : option Q;
  overfitting_ratio : ratio
}.

Record FlightPricePredictor : Type := {
  csv_file : option string;
  df : option table;
  object_columns : list string;
  X : option (list (list val));
  y : option (list val);
  scaler : Scaler;
  label_encoders : gmap string LabelEncoder;
  best_model : option model;
  model_type : option string;
  feature_columns : option (list string);
  results : list (string * evaluation);
  price_stats : option (gmap string val);
  route_popularity_stats : gmap string val;
  airline_popularity_stats : gmap string val
}.

(** [FlightPricePredictor(csv_file)] *)
Definition init (csv : option string) : FlightPricePredictor := {|
  csv_file := csv;
  df := None;
  object_columns := [];
  X := None;
  y := None;
  scaler := RobustScaler;
  label_encoders := ∅;
  best_model := None;
  model_type := None;
  feature_columns := None;
  results := [];
  price_stats := None;
  route_popularity_stats := ∅;
  airline_popularity_stats := ∅
|}.

(** [d[k]] on a dictionary attribute *)
Definition getitem {V} (k : string) (d : gmap string V) : result V :=
  or_raise (d !! k) (KeyError k).

(** [d.get(k, default)] *)
Definition get_default {V} (k : string) (v0 : V) (d : gmap string V) : V :=
  default v0 (d !! k).

(** [self.df] when a method subscripts it: [None] is not subscriptable. *)
Definition none_error : error := TypeError "'NoneType' object is not subscriptable".

Definition the_df (self : FlightPricePredictor) : result table :=
  or_raise (df self) none_error.

End state.

Arguments FlightPricePredictor {_}.
Arguments evaluation {_}.

(** * Lemmas *)

Section state_lemmas.
Context `{Regressor} {V : Type}.
Implicit Types (d : gmap string V) (k : string).

Lemma getitem_Ok k d v : getitem k d = Ok v ↔ d !! k = Some v.
Proof. apply or_raise_Ok. Qed.

Lemma getitem_Raise k d e : getitem k d = Raise e ↔ d !! k = None ∧ e = KeyError k.
Proof. apply or_raise_Raise. Qed.

Lemma getitem_insert k v d : getitem k (<[k := v]> d) = Ok v.
Proof. apply getitem_Ok, lookup_insert_eq. Qed.

Lemma get_default_Some k v v0 d : d !! k = Some v → get_default k v0 d = v.
Proof. unfold get_default. by intros ->. Qed.

Lemma get_default_None k v0 d : d !! k = None → get_default k v0 d = v0.
Proof. unfold get_default. by intros ->. Qed.

Lemma init_no_model csv : best_model (init csv) = None.
Proof. done. Qed.

Lemma predict_Ok (m : model) x :
  length x = n_features_in_ m → predict m x = Ok (predict_one m x).
Proof. intros Hn. unfold predict. by rewrite decide_True. Qed.

Lemma predict_Ok_inv (m : model) x p :
  predict m x = Ok p → length x = n_features_in_ m ∧ p = predict_one m x.
Proof. unfold predict. case_decide; [by intros [= <-]|done]. Qed.

Lemma predict_Raise (m : model) x e :
  predict m x = Raise e → length x ≠ n_features_in_ m ∧ e = shape_error.
Proof. unfold predict. case_decide; [done|by intros [= <-]]. Qed.
End state_lemmas.
