(* ===== verification/Cleaner.v ===== *)
(** * DataCleaner

    [FlightPricePredictor.load_and_preprocess_data]
    ([main_model.py:34-95]): the table is read, exact duplicates are
    dropped, the prices outside the interquartile fence are removed, the
    price statistics are recorded, and the rows whose creation timestamp,
    flight date or aircraft type is unusable are dropped, in this order.
    Reading the file is an interface ([CsvReader]); the columns it types
    as texts are recorded in [object_columns], and the trimming of the
    aircraft type at line 90 raises [AttributeError] when that column is
    not among them.  The statements that only print are left out. *)

From S2P Require Import Prelude PyText Calendar Frame Encoder Stats State.
From Stdlib Require Import QArith Qminmax Lqa Ascii String.
From stdpp Require Import base tactics option list strings numbers gmap sorting.

#[local] Open Scope string_scope.
#[local] Open Scope Z_scope.

(** ** Reading the table *)

(** Lines 39-40 *)
Definition column_names : list string :=
  ["create_at"; "flight_number"; "type_of_plane"; "departure_airport";
   "arrival_airport"; "flight_date"; "departure_time"; "arrival_time";
   "classes"; "price"].

(** [pd.read_csv(csv_file, names=column_names, skiprows=1)], line 42: the
    rows of the file after its header, each with the ten named columns. *)
Class CsvReader : Type := {
  read_csv : string → result table;
  read_csv_columns f df : read_csv f = Ok df → Forall (has_cols column_names) df
}.

(** A reader over files held in memory: a row is given the ten columns,
    a field the file lacks being missing. *)
Definition reindex (columns : list string) (r : row) : row :=
  list_to_map ((λ c, (c, default VNull (r !! c))) <$> columns).

Definition read_memory (files : gmap string table) (f : string) : result table :=
  df ← or_raise (files !! f) (FileNotFoundError f);
  Ok (reindex column_names <$> (df : table)).

(** ** Steps of the method *)

Definition no_csv_error : error := ValueError "file CSV đâu ?!".

(** Line 46: [drop_duplicates()] keeps the first of equal rows. *)
Fixpoint drop_duplicates (df : table) : table :=
  match df with
  | [] => []
  | r :: df => r :: filter (λ r', r' ≠ r) (drop_duplicates df)
  end.

(** Arithmetic on floats that may be [nan] *)
Definition nan_lift2 (f : Q → Q → Q) (a b : option Q) : option Q :=
  x ← a; y ← b; Some (f x y).

(** Lines 57-59 *)
Definition IQR (Q1 Q3 : option Q) : option Q := nan_lift2 Qminus Q3 Q1.

Definition lower_bound (Q1 Q3 : option Q) : option Q :=
  nan_lift2 Qminus Q1 (nan_lift2 Qmult (Some (3 # 2)%Q) (IQR Q1 Q3)).

Definition upper_bound (Q1 Q3 : option Q) : option Q :=
  nan_lift2 Qplus Q3 (nan_lift2 Qmult (Some (3 # 2)%Q) (IQR Q1 Q3)).

(** Line 63: [(price >= lower_bound) & (price <= upper_bound)]; a comparison
    with [nan] is false. *)
Definition within (lower upper : option Q) (price : val) : result bool :=
  p ← as_number price;
  Ok (match p, lower, upper with
      | Some p, Some lo, Some hi => bool_decide (lo <= p)%Q && bool_decide (p <= hi)%Q
      | _, _, _ => false
      end).

Definition price_within (lower upper : option Q) (r : row) : result bool :=
  p ← col "price" r; within lower upper p.

(** [df[flags]]: the rows whose flag is true. *)
Definition filter_rows (keep : row → result bool) (df : table) : result table :=
  flags ← result_mapM keep df;
  Ok ((filter (λ rb, rb.2 = true) (zip df flags)).*1).

(** A reduction of a numeric column as a cell.  The result carries the
    value; whether pandas returns it as an integer or as a float is not
    tracked. *)
Definition reduce (f : list Q → option Q) (c : string) (df : table) : result val :=
  cells ← column c df; xs ← numbers cells; Ok (stat_cell (f xs)).

(** Lines 66-73; the entry ["std"] holds the square of the standard
    deviation. *)
Definition make_price_stats (Q1 Q3 : option Q) (df : table) : result (gmap string val) :=
  vmin ← reduce qmin_list "price" df;
  vmax ← reduce qmax_list "price" df;
  vmean ← reduce mean "price" df;
  vstd ← reduce variance "price" df;
  Ok (<["min" := vmin]> (<["max" := vmax]> (<["mean" := vmean]> (<["std" := vstd]>
      (<["Q1" := stat_cell Q1]> (<["Q3" := stat_cell Q3]> ∅)))))).

Section cleaner.
Context `{Regressor} `{DatetimeParser} `{CsvReader}.

(** Line 75: [pd.to_datetime(..., errors='coerce')] on a cell: what does
    not parse becomes [NaT]. *)
Definition to_datetime_coerce (v : val) : result val :=
  match v with
  | VStr s =>
      Ok (match to_datetime s with Parsed t => VTime t | _ => VNull end)
  | VTime t => Ok (VTime t)
  | VNull => Ok VNull
  | VInt _ | VFloat _ =>
      Raise (TypeError "to_datetime of a number is not modelled")
  end.

(** [parse_flight_date(date_str)], lines 78-85 *)
Definition parse_flight_date (date_str : val) : val :=
  match date_str with
  | VStr s =>
      if str_contains "T" s then
        match to_datetime s with
        | Parsed t => VTime t
        | ParsedNaT => VNull
        | Unparsable => VNull
        end
      else VNull
  | _ => VNull
  end.

(** Line 91: [df['type_of_plane'] != ''] *)
Definition not_empty_at (c : string) (r : row) : bool :=
  bool_decide (r !! c ≠ Some (VStr "")).

(** ** The method *)

Definition load_and_preprocess_data (self : FlightPricePredictor) :
    result FlightPricePredictor :=
  (* lines 35-46 *)
  csv ← or_raise (csv_file self) no_csv_error;
  df ← read_csv csv;
  let dtypes := filter (λ c, object_dtype c df) column_names in
  let df := drop_duplicates df in
  (* lines 55-63 *)
  prices ← column "price" df;
  xs ← numbers prices;
  let Q1 := quantile (1 # 4) xs in
  let Q3 := quantile (3 # 4) xs in
  df ← filter_rows (price_within (lower_bound Q1 Q3) (upper_bound Q1 Q3)) df;
  (* lines 66-73 *)
  stats ← make_price_stats Q1 Q3 df;
  (* lines 75-76 *)
  df ← assign_rows "create_at" (on1 to_datetime_coerce "create_at") df;
  let df := filter (λ r, notnull_at "create_at" r) df in
  (* lines 87-88 *)
  df ← assign_rows "flight_date" (on1 (λ v, Ok (parse_flight_date v)) "flight_date") df;
  let df := filter (λ r, notnull_at "flight_date" r) df in
  (* lines 90-92 *)
  df ← assign_str (bool_decide ("type_of_plane" ∈ dtypes)) str_strip
         "type_of_plane" "type_of_plane" df;
  let df := filter (λ r, not_empty_at "type_of_plane" r) df in
  let df := filter (λ r, notnull_at "type_of_plane" r) df in
  Ok {| csv_file := csv_file self;
        df := Some df;
        object_columns := dtypes;
        X := X self;
        y := y self;
        scaler := scaler self;
        label_encoders := label_encoders self;
        best_model := best_model self;
        model_type := model_type self;
        feature_columns := feature_columns self;
        results := results self;
        price_stats := Some stats;
        route_popularity_stats := route_popularity_stats self;
        airline_popularity_stats := airline_popularity_stats self |}.

(** The cells of a row of a file the method can clean: the price is a
    number or missing, the creation timestamp a text or missing. *)
Definition dtyped (r : row) : Prop :=
  (∀ v, r !! "price" = Some v → is_Ok (as_number v)) ∧
  (∀ v, r !! "create_at" = Some v → is_Ok (to_datetime_coerce v)).

(** The same of a row that holds the columns the method reads; every
    step of the method preserves it. *)
Definition typed (r : row) : Prop :=
  (∃ v, r !! "price" = Some v ∧ is_Ok (as_number v)) ∧
  (∃ v, r !! "create_at" = Some v ∧ is_Ok (to_datetime_coerce v)) ∧
  is_Some (r !! "flight_date") ∧ is_Some (r !! "type_of_plane").

End cleaner.

(** The rows a cleaning leaves: both timestamps are parsed and the
    aircraft type is a trimmed text that is not empty. *)
Definition cleaned (r : row) : Prop :=
  (∃ t, r !! "create_at" = Some (VTime t)) ∧
  (∃ t, r !! "flight_date" = Some (VTime t)) ∧
  (∃ s, r !! "type_of_plane" = Some (VStr s) ∧ s ≠ "" ∧ strip s = s).

(** * Lemmas *)

(** ** Deduplication *)

Lemma elem_of_drop_duplicates (r : row) df : r ∈ drop_duplicates df ↔ r ∈ df.
Proof.
  induction df as [|r0 df IH]; simpl; [done|].
  rewrite !elem_of_cons, list_elem_of_filter, IH.
  destruct (decide (r = r0)); intuition.
Qed.

Lemma NoDup_drop_duplicates df : NoDup (drop_duplicates df).
Proof.
  induction df as [|r df IH]; simpl; constructor.
  - rewrite list_elem_of_filter. by intros [? _].
  - by apply NoDup_filter.
Qed.

Lemma drop_duplicates_sublist df : sublist (drop_duplicates df) df.
Proof.
  induction df as [|r df IH]; simpl; [done|].
  constructor. etrans; [apply sublist_filter | done].
Qed.

Lemma drop_duplicates_NoDup df : NoDup df → drop_duplicates df = df.
Proof.
  induction 1 as [|r df Hr _ IH]; simpl; [done|]. rewrite IH. f_equal.
  apply filter_Forall_id, Forall_forall. by intros r' Hr' ->.
Qed.

(** ** Row filters *)

Lemma filter_flags keep (df : table) flags :
  Forall2 (λ r b, keep r = Ok b) df flags →
  (filter (λ rb, rb.2 = true) (zip df flags)).*1 = filter (λ r, keep r = Ok true) df.
Proof.
  induction 1 as [|r b df flags Hr _ IH]; [done|]. simpl.
  rewrite filter_cons, (filter_cons (λ r, keep r = Ok true)). simpl. rewrite Hr.
  destruct b.
  - rewrite !decide_True by done. rewrite fmap_cons. by f_equal.
  - by rewrite !decide_False by done.
Qed.

(** A filter by flags succeeds when every flag can be computed, and keeps
    the rows whose flag is true. *)
Lemma filter_rows_Ok keep df df' :
  filter_rows keep df = Ok df' ↔
    Forall (λ r, is_Ok (keep r)) df ∧ df' = filter (λ r, keep r = Ok true) df.
Proof.
  unfold filter_rows. rewrite bind_Ok_iff. setoid_rewrite result_mapM_Forall2. split.
  - intros (flags & Hf & [= <-]). split; [|by apply filter_flags].
    eapply Forall2_Forall_l; [exact Hf|]. apply Forall_true. intros b r Hr. by exists b.
  - intros [Hall ->]. apply result_mapM_total in Hall as [flags Hf].
    apply result_mapM_Forall2 in Hf. exists flags. split; [done|].
    by rewrite (filter_flags _ _ _ Hf).
Qed.

Lemma filter_rows_total keep df :
  Forall (λ r, is_Ok (keep r)) df →
  filter_rows keep df = Ok (filter (λ r, keep r = Ok true) df).
Proof. intros Hdf. by apply filter_rows_Ok. Qed.

(** ** The fence *)

Lemma within_true lower upper p :
  within lower upper p = Ok true ↔
    ∃ x lo hi, as_number p = Ok (Some x) ∧ lower = Some lo ∧ upper = Some hi ∧
      (lo <= x <= hi)%Q.
Proof.
  unfold within. rewrite bind_Ok_iff. split.
  - intros ([x|] & Hp & Hb); [|done].
    destruct lower as [lo|], upper as [hi|]; try done. injection Hb as Hb.
    apply andb_true_iff in Hb as [?%bool_decide_eq_true ?%bool_decide_eq_true].
    by exists x, lo, hi.
  - intros (x & lo & hi & Hp & -> & -> & Hlo & Hhi). exists (Some x).
    split; [done|]. by rewrite !bool_decide_eq_true_2.
Qed.

(** The prices of the rows a fence keeps lie within the fence. *)
Lemma fenced lower upper df df' cells xs :
  filter_rows (price_within lower upper) df = Ok df' →
  column "price" df' = Ok cells → numbers cells = Ok xs →
  Forall (λ x, ∃ lo hi, lower = Some lo ∧ upper = Some hi ∧ (lo <= x <= hi)%Q) xs.
Proof.
  intros [_ ->]%filter_rows_Ok Hc Hx. apply Forall_forall. intros x Hin.
  destruct (numbers_elem _ _ _ Hx Hin) as (v & Hv & Hn).
  destruct (column_elem _ _ _ _ Hc Hv) as (r & [Hr _]%list_elem_of_filter & Hp).
  unfold price_within, col in Hr. rewrite Hp in Hr. simpl in Hr.
  apply within_true in Hr as (x' & lo & hi & Hx' & ? & ? & ?).
  rewrite Hn in Hx'. injection Hx' as <-. by exists lo, hi.
Qed.

(** ** The price statistics *)

Lemma reduce_Ok f c df v :
  reduce f c df = Ok v ↔
    ∃ cells xs, column c df = Ok cells ∧ numbers cells = Ok xs ∧ v = stat_cell (f xs).
Proof.
  unfold reduce. rewrite bind_Ok_iff. split.
  - intros (cells & ? & (xs & ? & [= <-])%bind_Ok_inv). by exists cells, xs.
  - intros (cells & xs & ? & Hx & ->). exists cells. split; [done|]. by rewrite Hx.
Qed.

Lemma make_price_stats_Ok Q1 Q3 df stats :
  make_price_stats Q1 Q3 df = Ok stats →
  ∃ cells xs, column "price" df = Ok cells ∧ numbers cells = Ok xs ∧
    stats !! "min" = Some (stat_cell (qmin_list xs)) ∧
    stats !! "max" = Some (stat_cell (qmax_list xs)) ∧
    stats !! "mean" = Some (stat_cell (mean xs)) ∧
    stats !! "std" = Some (stat_cell (variance xs)) ∧
    stats !! "Q1" = Some (stat_cell Q1) ∧ stats !! "Q3" = Some (stat_cell Q3).
Proof.
  unfold make_price_stats. intros Hs.
  apply bind_Ok_inv in Hs as (vmin & (cells & xs & Hc & Hx & ->)%reduce_Ok & Hs).
  unfold reduce in Hs. rewrite Hc in Hs. simpl in Hs. rewrite Hx in Hs.
  injection Hs as <-. exists cells, xs. split_and!; by simplify_map_eq.
Qed.

Lemma reduce_total f c (df : table) :
  Forall (λ r, ∃ v, r !! c = Some v ∧ is_Ok (as_number v)) df → is_Ok (reduce f c df).
Proof.
  intros Hdf. destruct (column_total c df) as [cells Hc].
  { eapply Forall_impl; [exact Hdf|]. by intros r (v & -> & _). }
  destruct (numbers_total _ _ _ Hc Hdf) as [xs Hx].
  eexists. apply reduce_Ok. by exists cells, xs.
Qed.

(** ** The reader over files in memory *)

Lemma reindex_lookup columns (r : row) c :
  c ∈ columns → reindex columns r !! c = Some (default VNull (r !! c)).
Proof.
  intros Hc. unfold reindex. apply elem_of_list_to_map_1'.
  - by intros y (c' & [= <- ->] & _)%list_elem_of_fmap.
  - apply list_elem_of_fmap. by exists c.
Qed.

Lemma read_memory_columns files f df :
  read_memory files f = Ok df → Forall (has_cols column_names) df.
Proof.
  unfold read_memory. intros (df0 & _ & [= <-])%bind_Ok_inv.
  apply Forall_fmap, Forall_true. intros r. apply Forall_forall. intros c Hc.
  by rewrite reindex_lookup.
Qed.

Section cleaner_lemmas.
Context `{Regressor} `{DatetimeParser} `{CsvReader}.

(** ** Preservation of the cell types *)

Lemma to_datetime_coerce_again v v' :
  to_datetime_coerce v = Ok v' → is_Ok (to_datetime_coerce v').
Proof.
  destruct v as [s| | |t|]; simpl; intros; simplify_eq; try by eexists.
  destruct (to_datetime s); by eexists.
Qed.

Lemma typed_price df :
  Forall typed df → Forall (λ r, ∃ v, r !! "price" = Some v ∧ is_Ok (as_number v)) df.
Proof. intros Hdf. eapply Forall_impl; [exact Hdf|]. by intros r [? _]. Qed.

Lemma dtyped_typed r : has_cols column_names r → dtyped r → typed r.
Proof.
  intros Hc (Hp & Ha). unfold has_cols in Hc. rewrite Forall_forall in Hc.
  destruct (Hc "price") as [p ?]; [compute_done|].
  destruct (Hc "create_at") as [a ?]; [compute_done|].
  split_and!; [exists p | exists a | apply Hc; compute_done..]; eauto.
Qed.

Lemma price_within_total lower upper r : typed r → is_Ok (price_within lower upper r).
Proof.
  intros ((v & Hv & [n Hn]) & _). unfold price_within, col, within.
  rewrite Hv. simpl. rewrite Hn. by eexists.
Qed.

Lemma make_price_stats_total Q1 Q3 df :
  Forall typed df → is_Ok (make_price_stats Q1 Q3 df).
Proof.
  intros Hdf%typed_price. unfold make_price_stats.
  destruct (reduce_total qmin_list _ _ Hdf) as [? ->].
  destruct (reduce_total qmax_list _ _ Hdf) as [? ->].
  destruct (reduce_total mean _ _ Hdf) as [? ->].
  destruct (reduce_total variance _ _ Hdf) as [? ->]. by eexists.
Qed.

(** An assignment of the method to one of its columns keeps the types. *)
Lemma typed_assign g a df df' :
  assign_rows a (on1 g a) df = Ok df' → Forall typed df →
  (∀ v v', g v = Ok v' →
     (a = "price" → is_Ok (as_number v')) ∧
     (a = "create_at" → is_Ok (to_datetime_coerce v'))) →
  Forall typed df'.
Proof.
  intros Hdf Ht Hg. eapply assign_rows_Forall; [done..|].
  intros r v ((p & Hp & ?) & (c & Hc & ?) & [d Hd] & [t Htp]) Hv.
  apply on1_Ok in Hv as (x & Hx & Hv). destruct (Hg _ _ Hv) as (Hgp & Hgc).
  unfold typed. split_and!.
  - destruct (decide (a = "price")) as [->|]; simplify_map_eq; eauto.
  - destruct (decide (a = "create_at")) as [->|]; simplify_map_eq; eauto.
  - destruct (decide (a = "flight_date")) as [->|]; simplify_map_eq; eauto.
  - destruct (decide (a = "type_of_plane")) as [->|]; simplify_map_eq; eauto.
Qed.

Lemma typed_create_at df df' :
  assign_rows "create_at" (on1 to_datetime_coerce "create_at") df = Ok df' →
  Forall typed df → Forall typed df'.
Proof.
  intros Hdf Ht. eapply typed_assign; [done..|]. intros v v' Hv.
  split_and!; [done | intros _; by eapply to_datetime_coerce_again].
Qed.

Lemma typed_flight_date df df' :
  assign_rows "flight_date" (on1 (λ v, Ok (parse_flight_date v)) "flight_date") df
    = Ok df' →
  Forall typed df → Forall typed df'.
Proof. intros Hdf Ht. eapply typed_assign; [done..|]. by intros v v' Hv. Qed.

Lemma typed_total g a df :
  Forall typed df → (∀ r, typed r → ∃ x, r !! a = Some x ∧ is_Ok (g x)) →
  is_Ok (assign_rows a (on1 g a) df).
Proof.
  intros Hdf Hg. apply assign_rows_total. eapply Forall_impl; [exact Hdf|].
  intros r (x & ? & ?)%Hg. by eapply on1_total.
Qed.

Lemma to_datetime_coerce_cases v v' :
  to_datetime_coerce v = Ok v' → v' = VNull ∨ ∃ t, v' = VTime t.
Proof.
  destruct v as [s| | |t|]; simpl; intros; simplify_eq; eauto.
  destruct (to_datetime s); eauto.
Qed.

Lemma parse_flight_date_cases v :
  parse_flight_date v = VNull ∨
  ∃ s t, v = VStr s ∧ str_contains "T" s = true ∧ to_datetime s = Parsed t ∧
         parse_flight_date v = VTime t.
Proof.
  destruct v as [s| | | |]; simpl; eauto.
  destruct (str_contains "T" s) eqn:?; [|by left].
  destruct (to_datetime s) as [t| |] eqn:?; [right; by exists s, t | by left..].
Qed.

(** The dtype recorded for a column of the file is the one inferred from
    the table as read. *)
Lemma object_column_spec (df : table) c :
  c ∈ column_names →
  bool_decide (c ∈ filter (λ c, object_dtype c df) column_names) = object_dtype c df.
Proof.
  intros Hc. destruct (object_dtype c df) eqn:E.
  - apply bool_decide_eq_true_2, list_elem_of_filter. by rewrite E.
  - apply bool_decide_eq_false_2. intros [HE _]%list_elem_of_filter. by rewrite E in HE.
Qed.

Lemma typed_numeric_plane (df : table) :
  Forall typed df →
  assign_str false str_strip "type_of_plane" "type_of_plane" df = Raise str_error.
Proof.
  intros Hdf. apply assign_str_numeric. eapply Forall_impl; [exact Hdf|].
  intros r (_ & _ & _ & Ht). by apply Forall_singleton.
Qed.

(** The method up to line 88 on a file it can clean: it reaches the
    [.str] accessor of line 90 with a table of typed rows. *)
Lemma load_prefix self f df0 :
  csv_file self = Some f → read_csv f = Ok df0 → Forall dtyped df0 →
  ∃ stats df3, Forall typed df3 ∧
    load_and_preprocess_data self =
      (df ← assign_str
              (bool_decide ("type_of_plane" ∈
                 filter (λ c, object_dtype c df0) column_names))
              str_strip "type_of_plane" "type_of_plane" df3;
       Ok {| csv_file := csv_file self;
             df := Some (filter (λ r, notnull_at "type_of_plane" r)
                           (filter (λ r, not_empty_at "type_of_plane" r) df));
             object_columns := filter (λ c, object_dtype c df0) column_names;
             X := X self; y := y self; scaler := scaler self;
             label_encoders := label_encoders self; best_model := best_model self;
             model_type := model_type self; feature_columns := feature_columns self;
             results := results self; price_stats := Some stats;
             route_popularity_stats := route_popularity_stats self;
             airline_popularity_stats := airline_popularity_stats self |}).
Proof.
  intros Hf Hread Hd. unfold load_and_preprocess_data. rewrite Hf. simpl.
  rewrite Hread. simpl.
  assert (Forall typed (drop_duplicates df0)) as Hdd.
  { eapply Forall_sublist; [apply drop_duplicates_sublist|].
    apply read_csv_columns in Hread. rewrite Forall_forall in *.
    intros r Hr. apply dtyped_typed; auto. }
  destruct (column_total "price" (drop_duplicates df0)) as [cells Hc].
  { eapply Forall_impl; [apply (typed_price _ Hdd)|]. by intros r (v & -> & _). }
  rewrite Hc. simpl.
  destruct (numbers_total _ _ _ Hc (typed_price _ Hdd)) as [xs ->]. simpl.
  rewrite filter_rows_total
    by (eapply Forall_impl; [exact Hdd|]; intros r; apply price_within_total).
  simpl.
  match goal with |- context [filter ?P (drop_duplicates df0)] =>
    pose proof (Forall_filter _ P _ Hdd) as Ha end.
  destruct (make_price_stats_total (quantile (1 # 4) xs) (quantile (3 # 4) xs) _ Ha)
    as [stats ->]. simpl.
  destruct (typed_total to_datetime_coerce "create_at" _ Ha) as [df2 E2];
    [by intros r (_ & ? & _)|].
  rewrite E2. simpl. pose proof (typed_create_at _ _ E2 Ha) as Hb.
  apply (Forall_filter _ (λ r : row, notnull_at "create_at" r)) in Hb.
  destruct (typed_total (λ v, Ok (parse_flight_date v)) "flight_date" _ Hb)
    as [df3 E3].
  { intros r (_ & _ & [x ->] & _). exists x. split; [done | by eexists]. }
  rewrite E3. simpl. pose proof (typed_flight_date _ _ E3 Hb) as Hc3.
  apply (Forall_filter _ (λ r : row, notnull_at "flight_date" r)) in Hc3.
  by eexists stats, _.
Qed.

(** What a successful cleaning leaves: a table with the ten columns and
    price statistics whose bounds are numbers; the results are those of the
    object it started from. *)
Lemma load_Ok self self' :
  load_and_preprocess_data self = Ok self' →
  ∃ df' stats, df self' = Some df' ∧ Forall (has_cols column_names) df' ∧
    price_stats self' = Some stats ∧
    number_at "min" stats = true ∧ number_at "max" stats = true ∧
    results self' = results self.
Proof.
  unfold load_and_preprocess_data. intros Hload. simplify_result.
  match goal with Hs : assign_str _ _ _ _ _ = Ok _ |- _ =>
    apply assign_str_Ok in Hs as [_ Hs] end.
  eexists _, _. split_and!; [done| |done| | |done].
  - repeat apply Forall_filter.
    repeat (eapply Forall2_grows_has_cols; [by eapply assign_rows_grows|];
            try apply Forall_filter).
    match goal with Hf : filter_rows _ _ = Ok _ |- _ =>
      apply filter_rows_Ok in Hf as [_ ->] end.
    apply Forall_filter. eapply Forall_sublist; [apply drop_duplicates_sublist|].
    by eapply read_csv_columns.
  - match goal with Hs : make_price_stats _ _ _ = Ok _ |- _ =>
      apply make_price_stats_Ok in Hs as (? & ? & _ & _ & Hmin & _) end.
    apply number_at_Some. eexists. split; [done|apply stat_cell_number].
  - match goal with Hs : make_price_stats _ _ _ = Ok _ |- _ =>
      apply make_price_stats_Ok in Hs as (? & ? & _ & _ & _ & Hmax & _) end.
    apply number_at_Some. eexists. split; [done|apply stat_cell_number].
Qed.

(** * Properties *)

(** C7: Every row of the cleaned table has a parsed creation timestamp, a
    parsed flight date and an aircraft type that is a trimmed, non-empty
    text: the rows that fail one of the three are dropped. *)
Theorem load_cleaned self self' :
  load_and_preprocess_data self = Ok self' →
  ∃ df', df self' = Some df' ∧ Forall cleaned df'.
Proof.
  unfold load_and_preprocess_data. intros Hload. simplify_result.
  match goal with Hs : assign_str _ _ _ _ _ = Ok _ |- _ =>
    apply assign_str_Ok in Hs as [_ Hs] end.
  eexists. split; [done|]. apply Forall_forall. intros r.
  rewrite !list_elem_of_filter.
  intros ((v3 & Hv3 & Hn3)%notnull_at_Some & Hne%bool_decide_unpack & Hr).
  eapply assign_rows_elem in Hr as (r2 & v & Hr2 & Hv & Heq); [|done]. subst r.
  apply list_elem_of_filter in Hr2 as [(v2 & Hv2 & Hn2)%notnull_at_Some Hr2].
  eapply assign_rows_elem in Hr2 as (r1 & w & Hr1 & Hw & Heq); [|done]. subst r2.
  apply list_elem_of_filter in Hr1 as [(v1 & Hv1 & Hn1)%notnull_at_Some Hr1].
  eapply assign_rows_elem in Hr1 as (r0 & u & Hr0 & Hu & Heq); [|done]. subst r1.
  apply on1_Ok in Hu as (? & _ & Hu). apply on1_Ok in Hw as (xf & _ & [= <-]).
  apply on1_Ok in Hv as (xt & _ & [= <-]). unfold cleaned. simplify_map_eq.
  split_and!.
  - apply to_datetime_coerce_cases in Hu as [->|[t ->]]; [done | by exists t].
  - destruct (parse_flight_date_cases xf) as [Ep|(s & t & _ & _ & _ & Ep)];
      rewrite Ep in *; [done | by exists t].
  - destruct xt as [s| | | |]; simplify_eq/=. exists (strip s).
    split; [done|]. split; [by intros Es; rewrite Es in Hne | apply strip_idemp].
Qed.

(** C22: The recorded price statistics are ordered: the first quartile does
    not exceed the third, the minimum and the maximum of the kept prices
    lie within the fence [Q1 - 1.5 IQR, Q3 + 1.5 IQR] of the quartiles, and
    the mean lies between them. *)
Theorem price_stats_fence self self' stats q1 q3 lo hi m :
  load_and_preprocess_data self = Ok self' → price_stats self' = Some stats →
  stats !! "Q1" = Some (VFloat q1) → stats !! "Q3" = Some (VFloat q3) →
  stats !! "min" = Some (VFloat lo) → stats !! "max" = Some (VFloat hi) →
  stats !! "mean" = Some (VFloat m) →
  (q1 <= q3 ∧ q1 - (3 # 2) * (q3 - q1) <= lo ∧ lo <= m <= hi ∧
   hi <= q3 + (3 # 2) * (q3 - q1))%Q.
Proof.
  unfold load_and_preprocess_data. intros Hload Hstats HQ1 HQ3 Hmin Hmax Hmean.
  simplify_result.
  match goal with Hs : make_price_stats _ _ _ = Ok _ |- _ =>
    apply make_price_stats_Ok in Hs
      as (cells & xs & Hc & Hx & Hmin' & Hmax' & Hmean' & _ & HQ1' & HQ3') end.
  rewrite HQ1 in HQ1'. rewrite HQ3 in HQ3'. rewrite Hmin in Hmin'.
  rewrite Hmax in Hmax'. rewrite Hmean in Hmean'.
  injection HQ1' as HQ1'%eq_sym%stat_cell_VFloat.
  injection HQ3' as HQ3'%eq_sym%stat_cell_VFloat.
  injection Hmin' as Hmin'%eq_sym%stat_cell_VFloat.
  injection Hmax' as Hmax'%eq_sym%stat_cell_VFloat.
  injection Hmean' as Hmean'%eq_sym%stat_cell_VFloat.
  match goal with Hf : filter_rows _ _ = Ok _ |- _ =>
    pose proof (fenced _ _ _ _ _ _ Hf Hc Hx) as Hfence end.
  rewrite HQ1', HQ3' in Hfence. simpl in Hfence.
  assert (Forall (λ x, q1 - (3 # 2) * (q3 - q1) <= x <= q3 + (3 # 2) * (q3 - q1))%Q xs)
    as Hb.
  { eapply Forall_impl; [exact Hfence|]. by intros x (? & ? & [= <-] & [= <-] & ?). }
  pose proof (quantile_mono (1 # 4) (3 # 4) _ _ _
                ltac:(lra) ltac:(lra) ltac:(lra) HQ1' HQ3').
  pose proof (qmin_list_bounds _ _ _ _ Hb Hmin').
  pose proof (qmax_list_bounds _ _ _ _ Hb Hmax').
  pose proof (mean_between _ _ _ _ Hmin' Hmax' Hmean'). lra.
Qed.

(** C15: Cleaning returns exactly when pandas gives the aircraft-type column
    the dtype of texts.  On a file that can be read, whose prices are
    numbers or missing and whose creation timestamps are texts or missing,
    the method returns when some row names an aircraft type (or the file
    has no row), and raises the [AttributeError] of the [.str] accessor
    when no row does, whatever rows the filters before line 90 leave. *)
Theorem load_total self f df0 :
  csv_file self = Some f → read_csv f = Ok df0 → Forall dtyped df0 →
  (object_dtype "type_of_plane" df0 = true → is_Ok (load_and_preprocess_data self)) ∧
  (object_dtype "type_of_plane" df0 = false →
   load_and_preprocess_data self = Raise str_error).
Proof.
  intros Hf Hread Hd.
  destruct (load_prefix self f df0 Hf Hread Hd) as (stats & df3 & Ht3 & ->).
  rewrite object_column_spec by compute_done.
  split; intros ->; [|by rewrite (typed_numeric_plane _ Ht3)].
  destruct (typed_total (λ v, Ok (str_strip v)) "type_of_plane" _ Ht3) as [df4 E4];
    [by intros r (_ & _ & _ & [x ->]); exists x; split; [|eexists]|].
  unfold assign_str. rewrite E4. by eexists.
Qed.


(** Without a file name the method raises its [ValueError] before it
    reads anything. *)
Theorem load_without_csv self :
  csv_file self = None → load_and_preprocess_data self = Raise no_csv_error.
Proof. intros Hf. unfold load_and_preprocess_data. by rewrite Hf. Qed.

End cleaner_lemmas.

(** C28: The removal of outliers never empties the table: when some price
    is a number, a row with a price inside the fence of the quartiles
    exists and is kept. *)
Theorem fence_keeps_a_row df cells xs df' :
  column "price" df = Ok cells → numbers cells = Ok xs → xs ≠ [] →
  filter_rows (price_within
                 (lower_bound (quantile (1 # 4) xs) (quantile (3 # 4) xs))
                 (upper_bound (quantile (1 # 4) xs) (quantile (3 # 4) xs))) df
    = Ok df' →
  df' ≠ [].
Proof.
  intros Hc Hx Hne [_ ->]%filter_rows_Ok.
  destruct (quantile (1 # 4) xs) as [q1|] eqn:H1; [|by apply quantile_None in H1].
  destruct (quantile (3 # 4) xs) as [q3|] eqn:H3; [|by apply quantile_None in H3].
  destruct (quartile_fence_keeps xs q1 q3 H1 H3) as (x & Hin & Hb).
  destruct (numbers_elem _ _ _ Hx Hin) as (v & Hv & Hn).
  destruct (column_elem _ _ _ _ Hc Hv) as (r & Hr & Hp).
  intros Hnil. refine (filter_nil_not_elem_of _ _ r Hnil _ Hr).
  unfold price_within, col. rewrite Hp. simpl. apply within_true.
  by exists x, (q1 - (3 # 2) * (q3 - q1))%Q, (q3 + (3 # 2) * (q3 - q1))%Q.
Qed.

(** * A worked example *)

Definition memory_reader (files : gmap string table) : CsvReader :=
  {| read_csv := read_memory files; read_csv_columns := read_memory_columns files |}.

(** A line of the scraped file *)
Definition listing (create_at flight_number type_of_plane departure_airport
    arrival_airport flight_date departure_time arrival_time classes : string)
    (price : Z) : row :=
  list_to_map
    [("create_at", VStr create_at); ("flight_number", VStr flight_number);
     ("type_of_plane", VStr type_of_plane);
     ("departure_airport", VStr departure_airport);
     ("arrival_airport", VStr arrival_airport); ("flight_date", VStr flight_date);
     ("departure_time", VStr departure_time); ("arrival_time", VStr arrival_time);
     ("classes", VStr classes); ("price", VInt price)].

(** Nine lines: a duplicate, an outlier, a creation timestamp that does
    not parse, a flight date without ['T'], a blank aircraft type, and four
    lines that survive. *)
Definition history : table :=
  [listing "2024-01-01 09:00:00" "VJ124" " Airbus A320 " "SGN" "HAN"
           "2024-02-15T14:30:00" "14:30" "16:45" "Eco" 1500000;
   listing "2024-01-01 09:00:00" "VJ124" " Airbus A320 " "SGN" "HAN"
           "2024-02-15T14:30:00" "14:30" "16:45" "Eco" 1500000;
   listing "2024-01-15 10:30:00" "VJ1198" "Airbus A321" "SGN" "HAN"
           "2024-01-20T08:00:00" "08:00" "10:15" "Eco" 1200000;
   listing "2024-01-18 15:20:00" "VJ196" "Airbus A320" "SGN" "HAN"
           "2024-01-25T19:00:00" "19:00" "21:15" "Business" 3100000;
   listing "2024-01-10 08:00:00" "VN213" "Airbus A321" "HAN" "SGN"
           "2024-03-01T06:00:00" "06:00" "08:10" "Eco" 90000000;
   listing "yesterday" "VJ130" "Airbus A320" "SGN" "HAN"
           "2024-02-01T10:00:00" "10:00" "12:10" "Eco" 1300000;
   listing "2024-01-11 12:00:00" "VJ132" "Airbus A320" "SGN" "HAN"
           "2024-02-01 10:00:00" "10:00" "12:10" "Eco" 1250000;
   listing "2024-01-12 12:00:00" "VJ134" "   " "SGN" "HAN"
           "2024-02-03T10:00:00" "10:00" "12:10" "Eco" 1400000;
   listing "2024-01-05 07:45:00" "VN215" "Airbus A321" "HAN" "DAD"
           "2024-01-06T23:30:00" "23:30" "01:00" "Eco" 1800000].

Definition history_file : string := "flight_price_history.csv".

Definition files : gmap string table := {[ history_file := history ]}.

(** The run of the method on the example, and the object it leaves. *)
Definition loaded : result (@FlightPricePredictor constant_regressor) :=
  load_and_preprocess_data (H0 := iso_parser) (H1 := memory_reader files)
    (init (Some history_file)).

Definition cleaned_example : @FlightPricePredictor constant_regressor :=
  try_except loaded (init None).


Lemma load_without_csv_witness :
  load_and_preprocess_data (H := constant_regressor) (H0 := iso_parser)
    (H1 := memory_reader files) (init None) = Raise no_csv_error.
Proof. by apply load_without_csv. Defined.

Lemma history_dtyped (g : row → row) :
  (∀ r c, c ∈ ["price"; "create_at"] → g r !! c = r !! c) →
  Forall (dtyped (H0 := iso_parser)) (g <$> (reindex column_names <$> history)).
Proof.
  intros Hg. unfold history. cbn [fmap list_fmap].
  repeat apply Forall_cons_2; [..|apply Forall_nil_2];
    (split_and!; intros v; rewrite Hg by set_solver; intros Hv; vm_compute in Hv;
     injection Hv as <-; by eexists).
Qed.

Lemma load_total_witness :
  (object_dtype "type_of_plane" (reindex column_names <$> history) = true →
   is_Ok loaded) ∧
  (object_dtype "type_of_plane" (reindex column_names <$> history) = false →
   loaded = Raise str_error).
Proof.
  apply (load_total (H0 := iso_parser) (H1 := memory_reader files) _ history_file
           (reindex column_names <$> history)); [reflexivity | reflexivity |].
  rewrite <-(list_fmap_id (_ <$> history)). by apply history_dtyped.
Defined.

(** The same file without a single aircraft type: pandas reads the column
    as numbers, and line 90 raises. *)
Definition history_without_planes : table := delete "type_of_plane" <$> history.

Example load_without_planes :
  load_and_preprocess_data (H := constant_regressor) (H0 := iso_parser)
    (H1 := memory_reader {[ history_file := history_without_planes ]})
    (init (Some history_file)) = Raise str_error.
Proof. vm_compute. reflexivity. Qed.

Lemma load_cleaned_witness :
  ∃ df', df cleaned_example = Some df' ∧ Forall cleaned df'.
Proof.
  apply (load_cleaned (H0 := iso_parser) (H1 := memory_reader files)
           (init (Some history_file))).
  vm_compute. reflexivity.
Defined.

Lemma price_stats_fence_witness :
  (1287500 <= 2125000 ∧ 1287500 - (3 # 2) * (2125000 - 1287500) <= 1200000 ∧
   1200000 <= 1650000 <= 3100000 ∧
   3100000 <= 2125000 + (3 # 2) * (2125000 - 1287500))%Q.
Proof.
  apply (price_stats_fence (H0 := iso_parser) (H1 := memory_reader files)
           (init (Some history_file)) cleaned_example
           (default ∅ (price_stats cleaned_example)));
    vm_compute; reflexivity.
Defined.

Lemma fence_keeps_a_row_witness :
  [<["price" := VInt 7]> (∅ : row); <["price" := VInt 9]> ∅] ≠ [].
Proof.
  by apply (fence_keeps_a_row [<["price" := VInt 7]> ∅; <["price" := VInt 9]> ∅]
              [VInt 7; VInt 9] [7; 9]%Q).
Defined.

(** Four of the nine lines survive, in the order of the file. *)
Example cleaned_flight_numbers :
  (d ← df cleaned_example; Some ((λ r : row, r !! "flight_number") <$> (d : table)))
  = Some [Some (VStr "VJ124"); Some (VStr "VJ1198"); Some (VStr "VJ196");
          Some (VStr "VN215")].
Proof. vm_compute. reflexivity. Qed.


(** On the example the sublist is proper and the numbers differ: the
    recorded first quartile is 1287500 and the recorded mean 1650000, where
    the prices of the four lines of the cleaned table have the first
    quartile 1425000 and the mean 1900000. *)
Example recorded_statistics_differ :
  (s ← loaded; Ok (price_stats s ≫= (.!! "Q1"), price_stats s ≫= (.!! "mean")))
    = Ok (Some (VFloat 1287500), Some (VFloat 1650000)) ∧
  (s ← loaded; d ← the_df s;
   q ← reduce (quantile (1 # 4)) "price" d; m ← reduce mean "price" d; Ok (q, m))
    = Ok (VFloat 1425000, VFloat 1900000).
Proof. split; vm_compute; reflexivity. Qed.
