(* ===== verification/Features.v ===== *)
(** * FeatureEngineer

    [FlightPricePredictor.feature_engineering] ([main_model.py:97-194]).
    The column-wise pandas statements of lines 98-142 do not look across
    rows and are modelled row by row ([row_features]); the popularity
    counts, their statistics and the label encoders (lines 144-169) are
    computed over the whole table; lines 171-190 select the feature matrix
    [X] and the target [y] and drop the rows with a missing cell. *)

From S2P Require Import Prelude PyText Calendar Frame Spec Encoder Stats State.
From S2P Require Import Cleaner.
From Stdlib Require Import QArith Ascii String.
From stdpp Require Import base tactics option list strings numbers gmap.

#[local] Open Scope string_scope.
#[local] Open Scope Z_scope.

(** ** The nested helpers *)

(** [categorize_advance_booking(days)], lines 107-115 *)
Definition categorize_advance_booking (days : val) : result val :=
  lt7 ← val_lt days 7;
  if lt7 : bool then Ok (VInt 0) else
  lt30 ← val_lt days 30;
  if lt30 : bool then Ok (VInt 1) else
  lt90 ← val_lt days 90;
  if lt90 : bool then Ok (VInt 2) else Ok (VInt 3).

(** The body of the [try] of [time_to_minutes], lines 121-122: [split]
    raises [AttributeError] on a cell that is not a text, the unpacking and
    [int] raise [ValueError]. *)
Definition clock_minutes (time_str : val) : result Z :=
  match time_str with
  | VStr s =>
      match PyText.split ":" s with
      | [h; m] => hour ← py_int h; minute ← py_int m; Ok (hour * 60 + minute)
      | _ => Raise (ValueError "not enough or too many values to unpack")
      end
  | _ => Raise (AttributeError "object has no attribute 'split'")
  end.

(** [time_to_minutes(time_str)], lines 119-124: any exception gives [nan]. *)
Definition time_to_minutes (time_str : val) : val :=
  try_except (VInt <$> clock_minutes time_str) VNull.

(** Lines 128-129: the difference, plus a day where it is negative. *)
Definition flight_duration (arrival_minutes departure_minutes : val) : result val :=
  d ← val_sub arrival_minutes departure_minutes;
  negative ← val_lt d 0;
  if negative : bool then val_add d (VInt (24 * 60)) else Ok d.

(** [categorize_time_of_day(minutes)], lines 131-140 *)
Definition categorize_time_of_day (minutes : val) : result val :=
  hour ← val_floordiv minutes 60;
  ge6 ← val_ge hour 6; lt12 ← val_lt hour 12;
  if ge6 && lt12 then Ok (VInt 0) else
  ge12 ← val_ge hour 12; lt18 ← val_lt hour 18;
  if ge12 && lt18 then Ok (VInt 1) else
  ge18 ← val_ge hour 18; lt22 ← val_lt hour 22;
  if ge18 && lt22 then Ok (VInt 2) else Ok (VInt 3).

(** ** The row-wise columns, lines 98-142 *)

(** Lines 98-105 *)
Definition calendar_features (r : row) : result row :=
  r ← assign "create_hour" (on1 dt_hour "create_at") r;
  r ← assign "create_day_of_week" (on1 dt_dayofweek "create_at") r;
  r ← assign "create_month" (on1 dt_month "create_at") r;
  r ← assign "flight_month" (on1 dt_month "flight_date") r;
  r ← assign "flight_day_of_week" (on1 dt_dayofweek "flight_date") r;
  r ← assign "days_in_advance" (on2 dt_days_between "flight_date" "create_at") r;
  r ← assign "is_weekend_booking" (on1 (λ v, ge_flag v 5) "create_day_of_week") r;
  assign "is_weekend_flight" (on1 (λ v, ge_flag v 5) "flight_day_of_week") r.

(** Lines 117-142 *)
Definition time_features (r : row) : result row :=
  r ← assign "booking_category" (on1 categorize_advance_booking "days_in_advance") r;
  r ← assign "departure_minutes" (on1 (λ v, Ok (time_to_minutes v)) "departure_time") r;
  r ← assign "arrival_minutes" (on1 (λ v, Ok (time_to_minutes v)) "arrival_time") r;
  r ← assign "flight_duration" (on2 flight_duration "arrival_minutes" "departure_minutes") r;
  assign "departure_time_category" (on1 categorize_time_of_day "departure_minutes") r.

Definition row_features (r : row) : result row :=
  r ← calendar_features r; time_features r.

(** ** Popularity, lines 144-161 *)

(** [groupby(['departure_airport', 'arrival_airport'])]: the key of a row,
    absent when a part of it is missing ([groupby] drops such rows). *)
Definition route_key (r : row) : result (option (val * val)) :=
  d ← col "departure_airport" r; a ← col "arrival_airport" r;
  Ok (if isnull d || isnull a then None else Some (d, a)).

(** [route_counts]: the keys of the rows, one occurrence per row, so that
    the size of a group is the number of occurrences of its key. *)
Definition route_counts (df : table) : result (list (val * val)) :=
  ks ← result_mapM route_key df; Ok (omap (M := list) id ks).

(** [counts.get(k, 0)] *)
Definition counts_get {K} `{EqDecision K} (counts : list K) (k : option K) : Z :=
  match k with
  | Some k => Z.of_nat (count_if (λ k', k' = k) counts)
  | None => 0
  end.

(** Lines 145-148 *)
Definition route_popularity (counts : list (val * val)) (r : row) : result val :=
  k ← route_key r; Ok (VInt (counts_get counts k)).

(** [value_counts()] of the [airline] column: its values that are not
    missing, one occurrence per row. *)
Definition airline_key (r : row) : result (option val) :=
  a ← col "airline" r; Ok (if isnull a then None else Some a).

Definition airline_counts (df : table) : result (list val) :=
  ks ← result_mapM airline_key df; Ok (omap (M := list) id ks).

(** Line 156: [map(airline_counts).fillna(0)] *)
Definition airline_popularity (counts : list val) (r : row) : result val :=
  k ← airline_key r; Ok (VInt (counts_get counts k)).

(** The [{'mean': ..., 'std': ...}] of a column, lines 149-152 and 158-161;
    the entry ["std"] holds the square of the standard deviation. *)
Definition popularity_stats (c : string) (df : table) : result (gmap string val) :=
  cells ← column c df;
  xs ← numbers cells;
  Ok (<["mean" := stat_cell (mean xs)]> (<["std" := stat_cell (variance xs)]> ∅)).

(** ** Label encoders, lines 163-169 *)

Definition categorical_cols : list string :=
  ["flight_number"; "departure_airport"; "arrival_airport"; "classes";
   "type_of_plane"; "airline"].

(** [f'{col}_encoded'] *)
Definition encoded_name (c : string) : string := c +:+ "_encoded".

(** [col in df.columns]: every row holds the column. *)
Definition in_columns (c : string) (df : table) : bool := forallb (has_col c) df.

Definition astype_str_error : error :=
  TypeError "astype(str) of a float or a timestamp is not modelled".

(** [df[col].astype(str)] *)
Definition astype_str_column (c : string) (df : table) : result (list string) :=
  cells ← column c df;
  result_mapM (λ v, or_raise (astype_str v) astype_str_error) cells.

(** One turn of the loop of lines 165-169. *)
Definition fit_encoder (c : string) (st : table * gmap string LabelEncoder) :
    result (table * gmap string LabelEncoder) :=
  let '(df, encoders) := st in
  if in_columns c df then
    labels ← astype_str_column c df;
    let '(le, codes) := fit_transform labels in
    codes ← codes;
    Ok (zip_with (λ r code, <[encoded_name c := VInt code]> r) df codes,
        <[c := le]> encoders)
  else Ok st.

Fixpoint fit_encoders (cs : list string) (st : table * gmap string LabelEncoder) :
    result (table * gmap string LabelEncoder) :=
  match cs with
  | [] => Ok st
  | c :: cs => st ← fit_encoder c st; fit_encoders cs st
  end.

(** ** The feature matrix, lines 171-190 *)

Definition all_feature_columns : list string :=
  ["flight_number_encoded"; "departure_airport_encoded";
   "arrival_airport_encoded"; "classes_encoded"; "type_of_plane_encoded";
   "airline_encoded";
   "create_hour"; "create_day_of_week"; "create_month";
   "flight_month"; "flight_day_of_week";
   "days_in_advance"; "departure_minutes"; "flight_duration";
   "is_weekend_booking"; "is_weekend_flight";
   "booking_category"; "departure_time_category";
   "route_popularity"; "airline_popularity"].

(** Line 183 *)
Definition available_features (df : table) : list string :=
  filter (λ c, in_columns c df) all_feature_columns.

(** Line 188: the rows without a missing cell in [X] or [y]. *)
Definition mask (xy : list val * val) : bool :=
  negb (existsb isnull xy.1 || isnull xy.2).

(** ** The method *)

Section feature_engineering.
Context `{Regressor}.

Definition feature_engineering (self : FlightPricePredictor) :
    result FlightPricePredictor :=
  df ← the_df self;
  (* lines 98-142 *)
  df ← result_mapM row_features df;
  (* lines 144-152 *)
  counts ← route_counts df;
  df ← result_mapM (assign "route_popularity" (route_popularity counts)) df;
  route_stats ← popularity_stats "route_popularity" df;
  (* lines 154-161 *)
  df ← assign_str (bool_decide ("flight_number" ∈ object_columns self)) str_slice2
         "airline" "flight_number" df;
  counts ← airline_counts df;
  df ← result_mapM (assign "airline_popularity" (airline_popularity counts)) df;
  airline_stats ← popularity_stats "airline_popularity" df;
  (* lines 163-169 *)
  '(df, encoders) ← fit_encoders categorical_cols (df, label_encoders self);
  (* lines 171-190 *)
  let available := available_features df in
  xs ← result_mapM (select available) df;
  ys ← column "price" df;
  let kept := filter (λ xy, mask xy) (zip xs ys) in
  Ok {| csv_file := csv_file self;
        df := Some df;
        object_columns := object_columns self;
        X := Some kept.*1;
        y := Some kept.*2;
        scaler := scaler self;
        label_encoders := encoders;
        best_model := best_model self;
        model_type := model_type self;
        feature_columns := Some available;
        results := results self;
        price_stats := price_stats self;
        route_popularity_stats := route_stats;
        airline_popularity_stats := airline_stats |}.

End feature_engineering.

(** A clock time as the scraper writes it: [HH:MM]. *)
Definition clock_text (h m : Z) : string :=
  two_digits h +:+ String ":" (two_digits m).

(** ** What the engineered table holds *)

(** The columns the method sets after the row-wise ones, and all the
    columns it sets. *)
Definition table_columns : list string :=
  ["route_popularity"; "airline"; "airline_popularity"] ++
  (encoded_name <$> categorical_cols).

Definition added_columns : list string := table_columns ++ derived_names.

(** The label of a row in a categorical column: the cell as a text. *)
Definition label_of (c : string) (r : row) : result string :=
  v ← col c r; or_raise (astype_str v) astype_str_error.

(** A row holds, in the encoded column of [c], the code of its label
    under the encoder [le]. *)
Definition encoded_with (le : LabelEncoder) (c : string) (r : row) : Prop :=
  ∃ s code, label_of c r = Ok s ∧ Encoder.encode le s = Ok code ∧
            r !! encoded_name c = Some (VInt code).

(** ** The itinerary of a row *)

(** The minutes of a clock cell as training reads it: unreadable is
    missing. *)
Definition train_clock (v : val) : option Z := result_to_option (clock_minutes v).

(** The itinerary a row with parsed timestamps stands for, given the
    reading of its two clock cells. *)
Definition itinerary_of (clock : val → option Z) (r : row) : option itinerary :=
  match r !! "create_at", r !! "flight_date",
        r !! "departure_time", r !! "arrival_time" with
  | Some (VTime t1), Some (VTime t2), Some dep, Some arr =>
      Some (Itinerary t1 t2 (clock dep) (clock arr))
  | _, _, _, _ => None
  end.

(** * Lemmas *)

(** ** The nested helpers *)

Lemma categorize_advance_booking_VInt d :
  categorize_advance_booking (VInt d) =
    Ok (VInt (if d <? 7 then 0 else if d <? 30 then 1 else if d <? 90 then 2 else 3)).
Proof.
  unfold categorize_advance_booking. flight_simpl. by Zcompare_cases.
Qed.

Lemma categorize_advance_booking_VNull :
  categorize_advance_booking VNull = Ok (VInt 3).
Proof. done. Qed.

Lemma categorize_time_of_day_VInt m :
  categorize_time_of_day (VInt m) =
    Ok (VInt (if (6 <=? m / 60) && (m / 60 <? 12) then 0
              else if (12 <=? m / 60) && (m / 60 <? 18) then 1
              else if (18 <=? m / 60) && (m / 60 <? 22) then 2 else 3)).
Proof.
  unfold categorize_time_of_day. flight_simpl.
  destruct (_ && _); [done|]. flight_simpl.
  destruct (_ && _); [done|]. flight_simpl. by destruct (_ && _).
Qed.

Lemma categorize_time_of_day_VNull : categorize_time_of_day VNull = Ok (VInt 3).
Proof. done. Qed.

Lemma flight_duration_VInt a d :
  flight_duration (VInt a) (VInt d) =
    Ok (VInt (if a - d <? 0 then a - d + 24 * 60 else a - d)).
Proof.
  unfold flight_duration. flight_simpl. destruct (_ <? _); by flight_simpl.
Qed.

Lemma flight_duration_VNull_l d :
  isnull d = true ∨ (∃ z, d = VInt z) → flight_duration VNull d = Ok VNull.
Proof. intros H. unfold flight_duration. by rewrite val_sub_VNull_l. Qed.

Lemma flight_duration_VNull_r a :
  isnull a = true ∨ (∃ z, a = VInt z) → flight_duration a VNull = Ok VNull.
Proof. intros H. unfold flight_duration. by rewrite val_sub_VNull_r. Qed.

(** [time_to_minutes] yields an integer or the missing value. *)
Lemma time_to_minutes_cases v :
  time_to_minutes v = VNull ∨ ∃ z, time_to_minutes v = VInt z.
Proof.
  unfold time_to_minutes. destruct (clock_minutes v); simpl; eauto.
Qed.

Lemma clock_minutes_Ok v z :
  clock_minutes v = Ok z ↔
    ∃ a b h m, v = VStr (a +:+ String ":" b) ∧
      str_contains ":" a = false ∧ str_contains ":" b = false ∧
      py_int a = Ok h ∧ py_int b = Ok m ∧ z = h * 60 + m.
Proof.
  split.
  - destruct v as [s| | | |]; try done. simpl.
    destruct (PyText.split ":" s) as [|a [|b [|]]] eqn:E; try done.
    apply split_two in E as (-> & Ha & Hb). intros Hz.
    apply bind_Ok_inv in Hz as (h & Hh & Hz).
    apply bind_Ok_inv in Hz as (m & Hm & [= <-]).
    by exists a, b, h, m.
  - intros (a & b & h & m & -> & Ha & Hb & Hh & Hm & ->). simpl.
    rewrite (proj2 (split_two ":" _ a b)) by done. by rewrite Hh, Hm.
Qed.

Lemma clock_minutes_clock_text h m :
  0 ≤ h < 100 → 0 ≤ m < 100 → clock_minutes (VStr (clock_text h m)) = Ok (h * 60 + m).
Proof.
  intros Hh Hm. apply clock_minutes_Ok.
  exists (two_digits h), (two_digits m), h, m.
  split_and!;
    first [done | by apply two_digits_no_char | by apply py_int_two_digits].
Qed.

(** ** The helpers compute the specified functions *)

Lemma itinerary_of_Some clock r i :
  itinerary_of clock r = Some i ↔
    ∃ dep arr, r !! "create_at" = Some (VTime (created i)) ∧
      r !! "flight_date" = Some (VTime (flies i)) ∧
      r !! "departure_time" = Some dep ∧ r !! "arrival_time" = Some arr ∧
      departs i = clock dep ∧ arrives i = clock arr.
Proof.
  unfold itinerary_of. split.
  - repeat case_match; try done. intros [= <-]. by eexists _, _.
  - intros (dep & arr & -> & -> & -> & -> & Hd & Ha). destruct i; simpl in *.
    by subst.
Qed.

Lemma time_to_minutes_cell v : time_to_minutes v = cell (train_clock v).
Proof. unfold time_to_minutes, train_clock. by destruct (clock_minutes v). Qed.

Lemma flight_duration_cell a d :
  flight_duration (cell a) (cell d) =
    Ok (cell (a' ← a; d' ← d; Some (duration a' d'))).
Proof.
  destruct a as [a|], d as [d|]; simpl; try done. by rewrite flight_duration_VInt.
Qed.

Lemma categorize_time_of_day_cell d :
  categorize_time_of_day (cell d) = Ok (VInt (from_option day_part 3 d)).
Proof. destruct d as [d|]; [apply categorize_time_of_day_VInt | done]. Qed.

Lemma categorize_advance_booking_bucket d :
  categorize_advance_booking (VInt d) = Ok (VInt (booking_bucket d)).
Proof. apply categorize_advance_booking_VInt. Qed.

(** The row-wise statements of [feature_engineering] compute the derived
    columns of the row's itinerary. *)
Lemma row_features_engineered r i :
  itinerary_of train_clock r = Some i → row_features r = Ok (engineered i r).
Proof.
  intros (dep & arr & Hc & Hf & Hd & Ha & Hdi & Hai)%itinerary_of_Some.
  destruct i as [t1 t2 d a]. simpl in *. subst d a.
  unfold row_features, calendar_features. do 8 assign_step.
  unfold time_features.
  assign_with ltac:(apply categorize_advance_booking_bucket).
  do 2 assign_with ltac:(by rewrite time_to_minutes_cell).
  assign_with ltac:(apply flight_duration_cell).
  assign_with ltac:(apply categorize_time_of_day_cell). reflexivity.
Qed.

(** ** The columns of the engineered table *)

Lemma row_features_grows (r r' : row) :
  row_features r = Ok r' → grows derived_names r r'.
Proof.
  unfold row_features, calendar_features, time_features.
  intros (r1 & H1 & H2)%bind_Ok_inv. grows_chain H1. grows_chain H2.
  eapply grows_equiv; [| |eassumption]; compute_done.
Qed.

Lemma in_columns_Forall c (df : table) :
  in_columns c df = true ↔ Forall (λ r, is_Some (r !! c)) df.
Proof.
  unfold in_columns. rewrite <-Is_true_true, forallb_True.
  split; intros Hf; (eapply Forall_impl; [exact Hf|]); intros r; unfold has_col;
    by rewrite bool_decide_spec.
Qed.

Lemma in_columns_grows cs c (df0 df : table) :
  Forall2 (grows cs) df0 df →
  c ∈ cs ∨ in_columns c df0 = true → in_columns c df = true.
Proof.
  intros Hg Hc. apply in_columns_Forall, Forall_forall. intros r Hr.
  apply list_elem_of_lookup in Hr as [k Hr].
  destruct (Forall2_lookup_r _ _ _ _ _ Hg Hr) as (r0 & Hr0 & Hgr).
  destruct Hc as [Hc|Hc%in_columns_Forall];
    [destruct Hgr as [Hcs _]; by eapply Forall_forall in Hcs|].
  eapply grows_is_Some; [done|]. eapply Forall_forall in Hc; [done|].
  by eapply list_elem_of_lookup_2.
Qed.

Lemma fit_encoder_Ok c df enc df' enc' :
  fit_encoder c (df, enc) = Ok (df', enc') → in_columns c df = true →
  encoded_name c ≠ c →
  ∃ le, enc' = <[c := le]> enc ∧ fitted le ∧
    Forall2 (λ r r', grows [encoded_name c] r r' ∧ encoded_with le c r') df df'.
Proof.
  unfold fit_encoder. intros H Hin Hne. rewrite Hin in H.
  apply bind_Ok_inv in H as (labels & Hl & H). unfold fit_transform in H.
  apply bind_Ok_inv in H as (codes & Hc & [= <- <-]).
  exists (fit labels). split; [done|]. split; [apply fit_fitted|].
  apply bind_Ok_inv in Hl as (cells & Hcells & Hl).
  pose proof (result_mapM_compose _ _ _ _ _ Hcells Hl) as H1.
  set (le := fit labels) in *. clearbody le.
  assert (Forall2 (λ r code, ∃ s, label_of c r = Ok s ∧
                     Encoder.encode le s = Ok code) df codes) as H2.
  { apply result_mapM_Forall2 in Hc. clear Hcells Hl Hin. revert codes Hc.
    induction H1 as [|r s df ls (v & Hv & Hs) _ IH]; inversion 1; subst;
      constructor; [|by apply IH].
    exists s. split; [|done]. unfold label_of. by rewrite Hv. }
  eapply zip_with_Forall2; [exact H2|]. intros r code (s & Hs & Hcode).
  split; [apply grows_insert|]. exists s, code. split_and!; [|done|apply lookup_insert_eq].
  unfold label_of, col in *. by rewrite lookup_insert_ne.
Qed.

(** A row keeps its code when columns other than the label and the code
    are set. *)
Lemma encoded_with_grows le c cs (r r' : row) :
  grows cs r r' → c ∉ cs → encoded_name c ∉ cs →
  encoded_with le c r → encoded_with le c r'.
Proof.
  intros [_ Hg] Hc Hec (s & code & Hs & Hcode & He). exists s, code.
  unfold label_of, col in *. by rewrite !Hg.
Qed.

Lemma fit_encoders_Ok cs : ∀ df enc df' enc',
  fit_encoders cs (df, enc) = Ok (df', enc') →
  Forall (λ c, in_columns c df = true) cs →
  NoDup (cs ++ (encoded_name <$> cs)) →
  Forall2 (grows (encoded_name <$> cs)) df df' ∧
  (∀ c, c ∉ cs → enc' !! c = enc !! c) ∧
  (∀ c, c ∈ cs → ∃ le, enc' !! c = Some le ∧ fitted le ∧
                        Forall (encoded_with le c) df').
Proof.
  induction cs as [|c cs IH]; intros df enc df' enc' H Hin Hnd.
  { injection H as <- <-. split_and!; [|done|by intros ? ?%elem_of_nil].
    apply Forall2_same_length_lookup_2; [done|]. intros. simplify_eq. apply grows_refl. }
  apply Forall_cons in Hin as [Hc Hin]. simpl in H, Hnd.
  apply NoDup_cons in Hnd as [Hc1 Hnd]. apply not_elem_of_app in Hc1 as [Hc1 Hc2].
  apply not_elem_of_cons in Hc2 as [Hc2 Hc3].
  apply NoDup_app in Hnd as (Hnd1 & Hdisj & Hnd2). apply NoDup_cons in Hnd2 as [Hc4 Hnd2].
  assert (encoded_name c ∉ cs) as Hc5 by (intros ?%Hdisj; set_solver).
  apply bind_Ok_inv in H as ([df1 enc1] & H1 & H2).
  destruct (fit_encoder_Ok _ _ _ _ _ H1 Hc) as (le & -> & Hle & Hg1); [done|].
  destruct (IH _ _ _ _ H2) as (Hg2 & Hne & Hcs).
  { eapply Forall_impl; [exact Hin|]. intros c' Hc'.
    eapply in_columns_grows;
      [eapply Forall2_impl; [exact Hg1|]; by intros ?? [? _] | by right]. }
  { apply NoDup_app. split_and!; [done| |done]. intros x Hx Hx'. eapply Hdisj; [done|by right]. }
  split_and!.
  - eapply Forall2_impl.
    { eapply Forall2_grows_trans; [|exact Hg2]. eapply Forall2_impl; [exact Hg1|].
      by intros ?? [? _]. }
    intros r r'. apply grows_equiv; apply Forall_forall; set_solver.
  - intros c' [Hcc' Hc']%not_elem_of_cons. by rewrite (Hne _ Hc'), lookup_insert_ne.
  - intros c' Hc'. destruct (decide (c' ∈ cs)) as [Hin'|Hn]; [by apply Hcs|].
    apply elem_of_cons in Hc' as [->|?]; [|done].
    exists le. rewrite (Hne _ Hn), lookup_insert_eq. split_and!; [done..|].
    apply Forall_forall. intros r' Hr'. apply list_elem_of_lookup in Hr' as [k Hr'].
    destruct (Forall2_lookup_r _ _ _ _ _ Hg2 Hr') as (r1 & Hr1 & Hgr).
    eapply encoded_with_grows; [exact Hgr|by intros (?&?&?)%list_elem_of_fmap; set_solver|done|].
    by destruct (Forall2_lookup_r _ _ _ _ _ Hg1 Hr1) as (r0 & _ & _ & He).
Qed.

Lemma popularity_stats_mean c df stats :
  popularity_stats c df = Ok stats → number_at "mean" stats = true.
Proof.
  unfold popularity_stats.
  intros (cells & _ & (xs & _ & [= <-])%bind_Ok_inv)%bind_Ok_inv.
  apply number_at_Some. eexists. split; [by simplify_map_eq|apply stat_cell_number].
Qed.

Section feature_engineering_lemmas.
Context `{Regressor}.

(** What a successful run leaves, phase by phase. *)
Lemma feature_engineering_Ok self self' df0 :
  df self = Some df0 → Forall (has_cols column_names) df0 →
  feature_engineering self = Ok self' →
  ∃ df1 df', result_mapM row_features df0 = Ok df1 ∧ df self' = Some df' ∧
    Forall2 (grows table_columns) df1 df' ∧
    (∀ c, c ∈ categorical_cols →
       ∃ le, label_encoders self' !! c = Some le ∧ fitted le ∧
             Forall (encoded_with le c) df') ∧
    feature_columns self' = Some (available_features df') ∧
    ∃ xs ys, result_mapM (Frame.select (available_features df')) df' = Ok xs ∧
      column "price" df' = Ok ys ∧
      X self' = Some (filter (λ xy, mask xy) (zip xs ys)).*1 ∧
      y self' = Some (filter (λ xy, mask xy) (zip xs ys)).*2.
Proof.
  intros Hdf Hcols Hfe. unfold feature_engineering, the_df in Hfe.
  rewrite Hdf in Hfe. apply bind_Ok_inv in Hfe as (? & [= <-] & Hfe).
  apply bind_Ok_inv in Hfe as (df1 & H1 & Hfe).
  apply bind_Ok_inv in Hfe as (counts & _ & Hfe).
  apply bind_Ok_inv in Hfe as (df2 & H2%assign_rows_grows & Hfe).
  apply bind_Ok_inv in Hfe as (rstats & _ & Hfe).
  apply bind_Ok_inv in Hfe as (df3 & [_ H3%assign_rows_grows]%assign_str_Ok & Hfe).
  apply bind_Ok_inv in Hfe as (acounts & _ & Hfe).
  apply bind_Ok_inv in Hfe as (df4 & H4%assign_rows_grows & Hfe).
  apply bind_Ok_inv in Hfe as (astats & _ & Hfe).
  apply bind_Ok_inv in Hfe as ([df5 enc] & H5 & Hfe).
  apply bind_Ok_inv in Hfe as (xs & Hxs & Hfe).
  apply bind_Ok_inv in Hfe as (ys & Hys & [= <-]). simpl.
  pose proof (Forall2_grows_trans _ _ _ _ _ H2 H3) as H23.
  pose proof (Forall2_grows_trans _ _ _ _ _ H23 H4) as H24.
  assert (Forall (has_cols column_names) df1) as Hcols1.
  { eapply result_mapM_Forall; [exact H1|exact Hcols|].
    intros r r' Hr Hrr'%row_features_grows. by eapply grows_has_cols. }
  apply fit_encoders_Ok in H5 as (H5 & _ & Henc); [| |compute_done].
  2:{ assert (Forall (λ c, c = "airline" ∨ c ∈ column_names) categorical_cols) as Hcat
        by compute_done.
      eapply Forall_impl; [exact Hcat|]. intros c Hc. simpl in Hc.
      eapply in_columns_grows; [exact H24|].
      destruct Hc as [->|Hc]; [left; compute_done|right].
      apply in_columns_Forall. eapply Forall_impl; [exact Hcols1|].
      intros r Hr. by eapply Forall_forall in Hr. }
  exists df1, df5. split_and!; [done..| |done|done|by exists xs, ys].
  eapply Forall2_impl; [by eapply Forall2_grows_trans|].
  intros r r'. apply grows_equiv; compute_done.
Qed.

(** The statistics a successful run leaves for serving. *)
Lemma feature_engineering_stats self self' :
  feature_engineering self = Ok self' →
  number_at "mean" (route_popularity_stats self') = true ∧
  number_at "mean" (airline_popularity_stats self') = true ∧
  price_stats self' = price_stats self ∧ results self' = results self.
Proof.
  unfold feature_engineering. intros Hfe.
  apply bind_Ok_inv in Hfe as (df0 & _ & Hfe).
  apply bind_Ok_inv in Hfe as (df1 & _ & Hfe).
  apply bind_Ok_inv in Hfe as (counts & _ & Hfe).
  apply bind_Ok_inv in Hfe as (df2 & _ & Hfe).
  apply bind_Ok_inv in Hfe as (rstats & Hr%popularity_stats_mean & Hfe).
  apply bind_Ok_inv in Hfe as (df3 & _ & Hfe).
  apply bind_Ok_inv in Hfe as (acounts & _ & Hfe).
  apply bind_Ok_inv in Hfe as (df4 & _ & Hfe).
  apply bind_Ok_inv in Hfe as (astats & Ha%popularity_stats_mean & Hfe).
  apply bind_Ok_inv in Hfe as ([df5 enc] & _ & Hfe).
  apply bind_Ok_inv in Hfe as (xs & _ & Hfe).
  by apply bind_Ok_inv in Hfe as (ys & _ & [= <-]).
Qed.

(** The matrix and the encoders a successful run leaves for the trainer
    and for serving. *)
Lemma feature_engineering_serves self self' df0 :
  df self = Some df0 → Forall (has_cols column_names) df0 →
  feature_engineering self = Ok self' →
  ∃ columns Xs, feature_columns self' = Some columns ∧ X self' = Some Xs ∧
    columns ⊆ all_feature_columns ∧ Forall (λ x, length x = length columns) Xs ∧
    (∀ c, c ∈ categorical_cols → is_Some (label_encoders self' !! c)).
Proof.
  intros Hdf Hcols Hfe.
  destruct (feature_engineering_Ok _ _ _ Hdf Hcols Hfe)
    as (df1 & df' & _ & _ & _ & Henc & Hfc & xs & ys & Hxs & _ & HX & _).
  eexists _, _. split_and!; [exact Hfc|exact HX| | |].
  - intros c [_ Hc]%list_elem_of_filter. exact Hc.
  - apply Forall_fmap, Forall_forall.
    intros [x v] [_ Hin%elem_of_zip_l]%list_elem_of_filter.
    destruct (result_mapM_elem _ _ _ _ Hxs Hin) as (r & _ & Hr).
    by apply select_length in Hr.
  - intros c Hc. destruct (Henc c Hc) as (le & -> & _). by eexists.
Qed.
End feature_engineering_lemmas.

Lemma mask_true x v :
  mask (x, v) = true ↔ Forall (λ c, isnull c = false) x ∧ isnull v = false.
Proof.
  unfold mask. simpl.
  by rewrite negb_true_iff, orb_false_iff, existsb_false_Forall.
Qed.

Lemma available_features_all cs (df0 df : table) :
  Forall2 (grows cs) df0 df → Forall (λ c, c ∈ cs) all_feature_columns →
  available_features df = all_feature_columns.
Proof.
  intros Hg Hall. unfold available_features. apply filter_Forall_id.
  eapply Forall_impl; [exact Hall|]. intros c Hc. simpl in *.
  apply Is_true_true. eapply in_columns_grows; [done|by left].
Qed.


(** * Properties *)

(** C19: The booking category partitions the days in advance into the four
    documented buckets, without gap or overlap at 6/7, 29/30 and 89/90:
    the category of an integer number of days is 0 below 7, 1 from 7 to
    29, 2 from 30 to 89 and 3 from 90 on, and no other value. *)
Theorem booking_category_partition d c :
  categorize_advance_booking (VInt d) = Ok (VInt c) ↔
    (c = 0 ∧ d < 7) ∨ (c = 1 ∧ 7 ≤ d < 30) ∨ (c = 2 ∧ 30 ≤ d < 90) ∨
    (c = 3 ∧ 90 ≤ d).
Proof.
  rewrite categorize_advance_booking_VInt.
  Zcompare_cases; (split; [intros [= <-] | intros ?; do 2 f_equal]); lia.
Qed.

(** C33: The departure-time category of a number of minutes is 0 for the
    hours 6 to 11, 1 for 12 to 17, 2 for 18 to 21 and 3 otherwise (night,
    negative minutes and times from 22:00 on), and no other value. *)
Theorem time_of_day_partition m c :
  categorize_time_of_day (VInt m) = Ok (VInt c) ↔
    (c = 0 ∧ 360 ≤ m < 720) ∨ (c = 1 ∧ 720 ≤ m < 1080) ∨
    (c = 2 ∧ 1080 ≤ m < 1320) ∨ (c = 3 ∧ (m < 360 ∨ 1320 ≤ m)).
Proof.
  rewrite categorize_time_of_day_VInt.
  Zcompare_cases; (split; [intros [= <-] | intros ?; do 2 f_equal]); lia_div.
Qed.

(** C32: A well-formed clock text [HH:MM] is read as [HH * 60 + MM]
    minutes; the reading does not check that [HH] is an hour of the day. *)
Theorem time_to_minutes_clock h m :
  0 ≤ h < 100 → 0 ≤ m < 100 →
  time_to_minutes (VStr (clock_text h m)) = VInt (h * 60 + m).
Proof.
  intros Hh Hm. unfold time_to_minutes.
  by rewrite clock_minutes_clock_text.
Qed.

Lemma time_to_minutes_clock_witness :
  time_to_minutes (VStr "23:30") = VInt (23 * 60 + 30).
Proof. apply (time_to_minutes_clock 23 30); lia. Defined.

(** C10: After the midnight correction the flight duration of two times of
    day lies in [0, 1440): it is the difference of arrival and departure
    modulo one day. *)
Theorem flight_duration_range a d :
  0 ≤ a < 1440 → 0 ≤ d < 1440 →
  flight_duration (VInt a) (VInt d) = Ok (VInt ((a - d) mod 1440)) ∧
  0 ≤ (a - d) mod 1440 < 1440.
Proof.
  intros Ha Hd. rewrite flight_duration_VInt. split; [|lia_div].
  do 2 f_equal. Zcompare_cases; lia_div.
Qed.

Lemma flight_duration_range_witness :
  flight_duration (VInt 60) (VInt 1410) = Ok (VInt ((60 - 1410) mod 1440)) ∧
  0 ≤ (60 - 1410) mod 1440 < 1440.
Proof. apply flight_duration_range; lia. Defined.

(** C31: For clock texts of the day (hours below 24, minutes below 60) the
    duration derived from the two texts lies in [0, 1440). *)
Theorem clock_duration_range h1 m1 h2 m2 :
  0 ≤ h1 < 24 → 0 ≤ m1 < 60 → 0 ≤ h2 < 24 → 0 ≤ m2 < 60 →
  ∃ x, flight_duration (time_to_minutes (VStr (clock_text h2 m2)))
                       (time_to_minutes (VStr (clock_text h1 m1))) = Ok (VInt x) ∧
       0 ≤ x < 1440.
Proof.
  intros. unfold time_to_minutes. rewrite !clock_minutes_clock_text by lia.
  simpl. rewrite flight_duration_VInt. eexists; split; [done|].
  Zcompare_cases; lia.
Qed.

Lemma clock_duration_range_witness :
  ∃ x, flight_duration (time_to_minutes (VStr "10:15"))
                       (time_to_minutes (VStr "08:00")) = Ok (VInt x) ∧
       0 ≤ x < 1440.
Proof. apply (clock_duration_range 8 0 10 15); lia. Defined.

(** C30: The duration is confined to a day only when the two readings are
    less than a day apart.  [time_to_minutes] accepts any two digits as
    the hour and the correction adds one day at most: for clock texts
    [HH:MM] the duration lies in [0, 1440) exactly when arrival minus
    departure lies in [-1440, 1440); an arrival a day or more after the
    departure keeps the whole difference, and one more than a day before
    it gives a negative duration. *)
Theorem flight_duration_exceeds_day h1 m1 h2 m2 :
  0 ≤ h1 < 100 → 0 ≤ m1 < 100 → 0 ≤ h2 < 100 → 0 ≤ m2 < 100 →
  ∃ x, flight_duration (time_to_minutes (VStr (clock_text h2 m2)))
                       (time_to_minutes (VStr (clock_text h1 m1))) = Ok (VInt x) ∧
    (0 ≤ x < 1440 ↔ -1440 ≤ (h2 * 60 + m2) - (h1 * 60 + m1) < 1440) ∧
    (1440 ≤ (h2 * 60 + m2) - (h1 * 60 + m1) → x = (h2 * 60 + m2) - (h1 * 60 + m1)) ∧
    ((h2 * 60 + m2) - (h1 * 60 + m1) < -1440 → x < 0).
Proof.
  intros. unfold time_to_minutes. rewrite !clock_minutes_clock_text by lia.
  simpl. rewrite flight_duration_VInt. eexists; split; [done|].
  unfold duration. Zcompare_cases; lia.
Qed.

Lemma flight_duration_exceeds_day_witness :
  ∃ x, flight_duration (time_to_minutes (VStr "30:00"))
                       (time_to_minutes (VStr "00:00")) = Ok (VInt x) ∧
    (0 ≤ x < 1440 ↔ -1440 ≤ (30 * 60 + 0) - (0 * 60 + 0) < 1440) ∧
    (1440 ≤ (30 * 60 + 0) - (0 * 60 + 0) → x = (30 * 60 + 0) - (0 * 60 + 0)) ∧
    ((30 * 60 + 0) - (0 * 60 + 0) < -1440 → x < 0).
Proof. apply (flight_duration_exceeds_day 0 0 30 0); lia. Defined.

(** An arrival written ["30:00"] after a departure at ["00:00"] gives 1800
    minutes; a departure written ["99:00"] before an arrival at ["00:00"]
    gives a negative duration. *)
Example duration_of_thirty_hours :
  flight_duration (time_to_minutes (VStr "30:00")) (time_to_minutes (VStr "00:00"))
    = Ok (VInt 1800) ∧
  flight_duration (time_to_minutes (VStr "00:00")) (time_to_minutes (VStr "99:00"))
    = Ok (VInt (-4500)).
Proof. split; reflexivity. Qed.

(** The scenarios of the specification. *)
Example duration_same_day :
  flight_duration (time_to_minutes (VStr "10:15")) (time_to_minutes (VStr "08:00"))
    = Ok (VInt 135).
Proof. reflexivity. Qed.

Example duration_overnight :
  flight_duration (time_to_minutes (VStr "01:00")) (time_to_minutes (VStr "23:30"))
    = Ok (VInt 90).
Proof. reflexivity. Qed.

(** ** The feature matrix *)

Section matrix.
Context `{Regressor}.

(** C6: A successful run on a table with the ten columns of the file leaves
    the feature matrix well formed: the feature columns are the twenty of
    the code, in its order; [X] and [y] have the same number of rows; every
    row of [X] has twenty cells, none of them missing; no target is
    missing. *)
Theorem feature_matrix_wellformed self self' df0 :
  df self = Some df0 → Forall (has_cols column_names) df0 →
  feature_engineering self = Ok self' →
  feature_columns self' = Some all_feature_columns ∧
  ∃ Xs ys, X self' = Some Xs ∧ y self' = Some ys ∧ length Xs = length ys ∧
    Forall (λ x, length x = length all_feature_columns ∧
                 Forall (λ v, isnull v = false) x) Xs ∧
    Forall (λ v, isnull v = false) ys.
Proof.
  intros Hdf Hcols Hfe.
  destruct (feature_engineering_Ok _ _ _ Hdf Hcols Hfe)
    as (df1 & df' & H1 & _ & Hg & _ & Hfc & xs & ys & Hxs & _ & HX & Hy).
  assert (Forall2 (grows added_columns) df0 df') as Hg'.
  { eapply Forall2_grows_trans; [|exact Hg]. apply result_mapM_Forall2 in H1.
    eapply Forall2_impl; [exact H1|]. intros r r'. apply row_features_grows. }
  rewrite (available_features_all _ _ _ Hg') in * by compute_done.
  split; [done|]. eexists _, _. split_and!; [done..| | |].
  - by rewrite !length_fmap.
  - apply Forall_fmap, Forall_forall. intros [x v] [Hm Hin%elem_of_zip_l]%list_elem_of_filter.
    apply Is_true_true, mask_true in Hm as [Hx _]. split; [|done].
    destruct (result_mapM_elem _ _ _ _ Hxs Hin) as (r & _ & Hr).
    by apply select_length in Hr.
  - apply Forall_fmap, Forall_forall. intros [x v] [Hm _]%list_elem_of_filter.
    by apply Is_true_true, mask_true in Hm as [_ Hv].
Qed.

(** C2: The method implements the specification of the derived columns on
    whole tables: after a successful run, the row at each position holds,
    in every derived column, the value the specification gives for the
    itinerary of the row it was made from; the table-wide statements that
    follow do not disturb them. *)
Theorem feature_engineering_refines self self' df0 :
  df self = Some df0 → Forall (has_cols column_names) df0 →
  feature_engineering self = Ok self' →
  ∃ df', df self' = Some df' ∧
    Forall2 (λ r r', ∀ i, itinerary_of train_clock r = Some i →
               ∀ c v, (c, v) ∈ derived_columns i → r' !! c = Some v) df0 df'.
Proof.
  intros Hdf Hcols (df1 & df' & H1 & Hdf' & Hg & _)%(feature_engineering_Ok _ _ df0);
    [|done..].
  exists df'. split; [done|]. apply result_mapM_Forall2 in H1.
  clear Hdf Hcols Hdf'. revert df' Hg.
  induction H1 as [|r r1 df0 df1 Hr _ IH]; inversion 1; subst; constructor;
    [|by apply IH].
  intros i Hi c v Hc. rewrite (row_features_engineered _ _ Hi) in Hr.
  injection Hr as <-.
  match goal with Hgr : grows _ _ _ |- _ => destruct Hgr as [_ Hgr]; rewrite Hgr end.
  - by apply engineered_lookup.
  - apply (list_elem_of_fmap_2 fst) in Hc. rewrite derived_columns_names in Hc.
    revert Hc. generalize c. apply Forall_forall. compute_done.
Qed.

(** C21: After a successful run every categorical column has a fitted
    encoder, and every row of the table holds, in the encoded column, the
    code that encoder gives to the row's label. *)
Theorem feature_engineering_encodes self self' df0 c :
  df self = Some df0 → Forall (has_cols column_names) df0 →
  feature_engineering self = Ok self' → c ∈ categorical_cols →
  ∃ df' le, df self' = Some df' ∧ label_encoders self' !! c = Some le ∧
    fitted le ∧ Forall (encoded_with le c) df'.
Proof.
  intros Hdf Hcols
    (df1 & df' & _ & Hdf' & _ & Henc & _)%(feature_engineering_Ok _ _ df0) Hc;
    [|done..].
  destruct (Henc c Hc) as (le & ? & ? & ?). by exists df', le.
Qed.
End matrix.

(** * Concrete runs *)

(** The table the example of [Cleaner] leaves, and the object the method
    makes of it. *)
Definition cleaned_table : table := default [] (df cleaned_example).

Definition engineered_example : @FlightPricePredictor constant_regressor :=
  try_except (feature_engineering cleaned_example) cleaned_example.

Lemma feature_engineering_example :
  feature_engineering cleaned_example = Ok engineered_example.
Proof. vm_cast_no_check (eq_refl (Ok engineered_example)). Qed.

Lemma cleaned_table_columns : Forall (has_cols column_names) cleaned_table.
Proof. unfold has_cols. compute_done. Qed.

Lemma feature_matrix_wellformed_witness :
  feature_columns engineered_example = Some all_feature_columns ∧
  ∃ Xs ys, X engineered_example = Some Xs ∧ y engineered_example = Some ys ∧
    length Xs = length ys ∧
    Forall (λ x, length x = length all_feature_columns ∧
                 Forall (λ v, isnull v = false) x) Xs ∧
    Forall (λ v, isnull v = false) ys.
Proof.
  apply (feature_matrix_wellformed cleaned_example engineered_example cleaned_table);
    [reflexivity|apply cleaned_table_columns|apply feature_engineering_example].
Defined.

Lemma feature_engineering_refines_witness :
  ∃ df', df engineered_example = Some df' ∧
    Forall2 (λ r r', ∀ i, itinerary_of train_clock r = Some i →
               ∀ c v, (c, v) ∈ derived_columns i → r' !! c = Some v)
      cleaned_table df'.
Proof.
  apply (feature_engineering_refines cleaned_example engineered_example cleaned_table);
    [reflexivity|apply cleaned_table_columns|apply feature_engineering_example].
Defined.

Lemma feature_engineering_encodes_witness :
  ∃ df' le, df engineered_example = Some df' ∧
    label_encoders engineered_example !! "airline" = Some le ∧
    fitted le ∧ Forall (encoded_with le "airline") df'.
Proof.
  apply (feature_engineering_encodes cleaned_example engineered_example cleaned_table);
    [reflexivity|apply cleaned_table_columns|apply feature_engineering_example|
     compute_done].
Defined.

(** The feature matrix of the example: the rows the cleaning kept, with
    their price. *)
Example engineered_sizes :
  length <$> X engineered_example = Some (length cleaned_table) ∧
  length <$> y engineered_example = Some (length cleaned_table).
Proof. vm_compute. done. Qed.
