(* ===== verification/Sklearn.v ===== *)
(** * scikit-learn, as the trainer uses it

    What [train_and_evaluate_models] ([main_model.py:196-288]) calls:
    [train_test_split], [KFold], [cross_val_score], the estimators' [fit]
    and [predict], and the metrics.  The estimators are an interface: a
    candidate is the constructor call of the source with its
    hyperparameters ([estimator]), and fitting is the class [Learner].  The
    two shuffles are the class [Shuffler].  The sizes of the split and of
    the folds, the order of the rows in each part and the metrics are
    modelled from scikit-learn's documentation.  The size of the test part
    is the exact ceiling of a fifth; the floating-point product
    [0.2 * n] of the library rounds to the same integer for every table
    below two million rows. *)

From S2P Require Import Prelude Frame Stats State.
From Stdlib Require Import QArith Qabs Qpower Lqa.
From stdpp Require Import base tactics option list strings numbers gmap.

#[local] Open Scope string_scope.
#[local] Open Scope list_scope.
#[local] Open Scope Q_scope.

(** ** Estimators and shuffles *)

(** The constructor calls of lines 201-226. *)
Inductive estimator : Type :=
  | RandomForestRegressor (n_estimators max_depth min_samples_split
      min_samples_leaf : Z) (max_features : string) (random_state n_jobs : Z)
  | GradientBoostingRegressor (n_estimators : Z) (learning_rate : Q)
      (max_depth min_samples_split min_samples_leaf : Z) (subsample : Q)
      (random_state : Z)
  | DecisionTreeRegressor (max_depth min_samples_split min_samples_leaf
      random_state : Z).

(** [estimator.fit(X, y)] on numeric data.  A fitted model expects the
    number of features of the rows it was fitted on. *)
Class Learner `{Regressor} : Type := {
  fit_model : estimator → list (list Q) → list Q → result model;
  fit_model_features est X y m :
    fit_model est X y = Ok m → Forall (λ x, length x = n_features_in_ m) X
}.

(** [numpy.random.RandomState(seed).permutation(n)] *)
Class Shuffler : Type := {
  permutation : Z → nat → list nat;
  permutation_Permutation seed n : permutation seed n ≡ₚ seq 0 n
}.

(** ** Metrics *)

Definition inconsistent_error : error :=
  ValueError "Found input variables with inconsistent numbers of samples".

Definition no_sample_error : error :=
  ValueError "Found array with 0 sample(s) while a minimum of 1 is required".

(** The mean of [loss y p] over the pairs of a target and a prediction. *)
Definition mean_loss (loss : Q → Q → Q) (y_true y_pred : list Q) : result Q :=
  if decide (length y_true = length y_pred)
  then or_raise (mean (zip_with loss y_true y_pred)) no_sample_error
  else Raise inconsistent_error.

Definition absolute_error (y p : Q) : Q := Qabs (y - p).
Definition squared_error (y p : Q) : Q := (y - p) * (y - p).

Definition mean_absolute_error : list Q → list Q → result Q :=
  mean_loss absolute_error.

Definition mean_squared_error : list Q → list Q → result Q :=
  mean_loss squared_error.

(** [r2_score]: one minus the quotient of the residual and the total sum
    of squares; with a constant target it is 1 for exact predictions and 0
    otherwise; below two samples it is [nan]. *)
Definition r2_score (y_true y_pred : list Q) : result (option Q) :=
  if decide (length y_true = length y_pred) then
    y_mean ← or_raise (mean y_true) no_sample_error;
    let numerator := qsum (zip_with squared_error y_true y_pred) in
    let denominator := qsum (squared_error y_mean <$> y_true) in
    Ok (if decide (length y_true < 2)%nat then None
        else if Qeq_bool denominator 0
             then Some (if Qeq_bool numerator 0 then 1 else 0)
             else Some (Qred (1 - numerator / denominator)))
  else Raise inconsistent_error.

(** The population variance, the square of [numpy.ndarray.std()]. *)
Definition pvariance (xs : list Q) : option Q :=
  m ← mean xs;
  Some (Qred (qsum (squared_error m <$> xs) / qlen xs)).

(** ** Splitting *)

(** The rows at the given positions, in their order. *)
Definition take_rows {A} (indices : list nat) (rows : list A) : list A :=
  omap (λ i, rows !! i) indices.

(** The size of the test part: the ceiling of a fifth. *)
Definition n_test_of (n : nat) : nat := Z.to_nat (- (- Z.of_nat n / 5))%Z.

Definition empty_train_error : error :=
  ValueError "With test_size=0.2 the resulting train set will be empty".

Definition n_splits_error : error :=
  ValueError "Cannot have number of splits greater than the number of samples".

(** The sizes of the folds of [KFold]: the first [n mod k] folds have one
    more sample. *)
Definition fold_sizes (n_splits n : nat) : list nat :=
  (λ i, n / n_splits + (if decide (i < n mod n_splits) then 1 else 0))%nat
    <$> seq 0 n_splits.

(** Consecutive chunks of the given sizes. *)
Fixpoint chunks {A} (sizes : list nat) (l : list A) : list (list A) :=
  match sizes with
  | [] => []
  | s :: sizes => take s l :: chunks sizes (drop s l)
  end.

Section splitting.
Context `{Shuffler}.

(** [train_test_split(X, y, test_size=0.2, random_state=42)], line 197:
    the train parts, then the test parts. *)
Definition train_test_split {A B} (X : list A) (y : list B) :
    result ((list A * list A) * (list B * list B)) :=
  if decide (length X = length y) then
    let n_test := n_test_of (length X) in
    if decide (length X - n_test = 0)%nat then Raise empty_train_error else
    let p := permutation 42 (length X) in
    let test := take n_test p in
    let train := drop n_test p in
    Ok ((take_rows train X, take_rows test X), (take_rows train y, take_rows test y))
  else Raise inconsistent_error.

(** [KFold(n_splits, shuffle=True, random_state=42).split] on [n] samples:
    the train and the test positions of each fold, both increasing. *)
Definition kfold (n_splits n : nat) : result (list (list nat * list nat)) :=
  if decide (n < n_splits)%nat then Raise n_splits_error else
  Ok ((λ test, (filter (λ i, i ∉ test) (seq 0 n), filter (λ i, i ∈ test) (seq 0 n)))
        <$> chunks (fold_sizes n_splits n) (permutation 42 n)).

End splitting.

(** ** Fitting and scoring *)

Definition floats (cells : list val) : result (list Q) := result_mapM to_float cells.

Section scoring.
Context `{Learner} `{Shuffler}.

(** [model.fit(X, y)] on cells *)
Definition model_fit (est : estimator) (X : list (list val)) (y : list val) :
    result model :=
  X ← result_mapM floats X; y ← floats y; fit_model est X y.

(** [model.predict(X)] on cells *)
Definition predict_rows (m : model) (X : list (list val)) : result (list Q) :=
  X ← result_mapM floats X; result_mapM (predict m) X.

(** The score of one fold: the negated error on its test part of the
    estimator fitted on its train part. *)
Definition fold_score (est : estimator) (X : list (list val)) (y : list val)
    (fold : list nat * list nat) : result Q :=
  m ← model_fit est (take_rows fold.1 X) (take_rows fold.1 y);
  y_pred ← predict_rows m (take_rows fold.2 X);
  y_true ← floats (take_rows fold.2 y);
  mae ← mean_absolute_error y_true y_pred;
  Ok (- mae).

(** [cross_val_score(model, X, y, cv=kfold,
    scoring='neg_mean_absolute_error')], lines 233-234 *)
Definition cross_val_score (est : estimator) (X : list (list val)) (y : list val) :
    result (list Q) :=
  if decide (length X = length y) then
    folds ← kfold 5 (length X);
    result_mapM (fold_score est X y) folds
  else Raise inconsistent_error.

End scoring.

(** A table the estimators accept: as many targets as rows, [k] cells in
    every row, every cell a number. *)
Definition numeric_table (k : nat) (X : list (list val)) (y : list val) : Prop :=
  length X = length y ∧
  Forall (λ x, length x = k ∧ Forall (λ v, is_Ok (to_float v)) x) X ∧
  Forall (λ v, is_Ok (to_float v)) y.

(** * Lemmas *)

(** ** Rows at positions *)

Section take_rows_lemmas.
Context {A : Type}.
Implicit Types (rows : list A) (indices : list nat).

Lemma take_rows_app i1 i2 rows :
  take_rows (i1 ++ i2) rows = take_rows i1 rows ++ take_rows i2 rows.
Proof. apply omap_app. Qed.

Lemma take_rows_length indices rows :
  Forall (λ i, i < length rows)%nat indices →
  length (take_rows indices rows) = length indices.
Proof.
  induction 1 as [|i indices Hi _ IH]; [done|]. unfold take_rows in *. simpl.
  apply lookup_lt_is_Some_2 in Hi as [x ->]. simpl. f_equal. apply IH.
Qed.

Lemma take_rows_seq_app (l1 l2 : list A) :
  take_rows (seq (length l1) (length l2)) (l1 ++ l2) = l2.
Proof.
  revert l1. induction l2 as [|x l2 IH]; intros l1; [done|].
  unfold take_rows in *. simpl.
  rewrite lookup_app_r, Nat.sub_diag by done. simpl. f_equal.
  specialize (IH (l1 ++ [x])). rewrite length_app, Nat.add_1_r, <-app_assoc in IH.
  exact IH.
Qed.

Lemma take_rows_seq rows : take_rows (seq 0 (length rows)) rows = rows.
Proof. apply (take_rows_seq_app []). Qed.

Lemma take_rows_Permutation indices rows :
  indices ≡ₚ seq 0 (length rows) → take_rows indices rows ≡ₚ rows.
Proof.
  intros Hp. transitivity (take_rows (seq 0 (length rows)) rows);
    [unfold take_rows; by rewrite Hp | by rewrite take_rows_seq].
Qed.
End take_rows_lemmas.

Lemma take_rows_zip {A B} indices (X : list A) (y : list B) :
  length X = length y →
  take_rows indices (zip X y) = zip (take_rows indices X) (take_rows indices y).
Proof.
  intros Hlen. induction indices as [|i indices IH]; [done|]. unfold take_rows in *.
  csimpl. rewrite lookup_zip_with, IH.
  destruct (X !! i) as [x|] eqn:Hx; simpl.
  - apply lookup_lt_Some in Hx. rewrite Hlen in Hx.
    by apply lookup_lt_is_Some_2 in Hx as [y' ->].
  - apply lookup_ge_None in Hx. rewrite Hlen in Hx.
    by apply lookup_ge_None in Hx as ->.
Qed.

Lemma take_rows_elem {A} indices (rows : list A) x :
  x ∈ take_rows indices rows → x ∈ rows.
Proof.
  unfold take_rows. intros (i & _ & Hi)%list_elem_of_omap. by eapply list_elem_of_lookup_2.
Qed.

Lemma take_rows_Forall {A} (P : A → Prop) indices rows :
  Forall P rows → Forall P (take_rows indices rows).
Proof.
  intros HP. apply Forall_forall. intros x Hx%take_rows_elem.
  by eapply Forall_forall in HP.
Qed.

(** ** The split *)

Lemma n_test_of_spec n : (5 * n_test_of n - 4 ≤ n ≤ 5 * n_test_of n)%nat.
Proof. unfold n_test_of. lia_div. Qed.

Section splitting_lemmas.
Context `{Shuffler}.

Lemma permutation_lt seed n : Forall (λ i, i < n)%nat (permutation seed n).
Proof.
  rewrite (permutation_Permutation seed n). apply Forall_forall.
  intros i Hi%elem_of_seq. lia.
Qed.

Lemma permutation_length seed n : length (permutation seed n) = n.
Proof. by rewrite (permutation_Permutation seed n), length_seq. Qed.

Lemma permutation_NoDup seed n : NoDup (permutation seed n).
Proof. rewrite (permutation_Permutation seed n). apply NoDup_seq. Qed.

Lemma train_test_split_Ok {A B} (X : list A) (y : list B) X_train X_test y_train y_test :
  train_test_split X y = Ok ((X_train, X_test), (y_train, y_test)) →
  let n_test := n_test_of (length X) in
  let p := permutation 42 (length X) in
  length X = length y ∧ (n_test < length X)%nat ∧
  X_train = take_rows (drop n_test p) X ∧ X_test = take_rows (take n_test p) X ∧
  y_train = take_rows (drop n_test p) y ∧ y_test = take_rows (take n_test p) y.
Proof.
  unfold train_test_split. repeat case_decide; try done. intros [= <- <- <- <-].
  split_and!; try done. lia.
Qed.

Lemma train_test_split_lengths {A B} (X : list A) (y : list B)
    X_train X_test y_train y_test :
  train_test_split X y = Ok ((X_train, X_test), (y_train, y_test)) →
  length X_test = n_test_of (length X) ∧
  length X_train = (length X - n_test_of (length X))%nat ∧ (0 < length X_train)%nat ∧
  length y_train = length X_train ∧ length y_test = length X_test ∧
  Forall (λ x, x ∈ X) X_train ∧ Forall (λ x, x ∈ X) X_test.
Proof.
  intros (Hlen & Hn & -> & -> & -> & ->)%train_test_split_Ok.
  pose proof (permutation_lt 42 (length X)) as Hlt.
  pose proof (permutation_length 42 (length X)) as Hpl.
  rewrite !take_rows_length, length_take, length_drop, Hpl
    by (rewrite <-?Hlen; by (apply Forall_take || apply Forall_drop)).
  split_and!; try lia; apply Forall_forall; intros x; apply take_rows_elem.
Qed.

Lemma train_test_split_total {A B} (X : list A) (y : list B) :
  length X = length y → (2 ≤ length X)%nat → is_Ok (train_test_split X y).
Proof.
  intros Hlen Hn. unfold train_test_split. rewrite decide_True by done.
  pose proof (n_test_of_spec (length X)). rewrite decide_False by lia. by eexists.
Qed.
End splitting_lemmas.

(** ** The folds *)

Lemma sum_list_bonus a r k :
  sum_list ((λ i, a + (if decide (i < r) then 1 else 0))%nat <$> seq 0 k) = (k * a + min r k)%nat.
Proof.
  induction k as [|k IH]; [simpl; lia|].
  rewrite seq_S, fmap_app, sum_list_with_app, IH. simpl. case_decide; lia.
Qed.

Lemma fold_sizes_sum k n : (0 < k)%nat → sum_list (fold_sizes k n) = n.
Proof.
  intros Hk. unfold fold_sizes. rewrite sum_list_bonus.
  pose proof (Nat.mod_upper_bound n k). pose proof (Nat.div_mod_eq n k). lia.
Qed.

Lemma fold_sizes_length k n : length (fold_sizes k n) = k.
Proof. unfold fold_sizes. by rewrite length_fmap, length_seq. Qed.

Lemma fold_sizes_bounds k n : Forall (λ s, n / k ≤ s ≤ n / k + 1)%nat (fold_sizes k n).
Proof.
  unfold fold_sizes. apply Forall_fmap, Forall_forall. intros i _. simpl.
  case_decide; lia.
Qed.

Section chunks_lemmas.
Context {A : Type}.
Implicit Types (l : list A) (sizes : list nat).

Lemma chunks_length sizes l : length (chunks sizes l) = length sizes.
Proof. revert l. induction sizes; intros l; simpl; [done|by rewrite IHsizes]. Qed.

Lemma chunks_concat sizes l : sum_list sizes = length l → concat (chunks sizes l) = l.
Proof.
  revert l. induction sizes as [|s sizes IH]; intros l; simpl.
  { intros Hl. symmetry. by apply nil_length_inv. }
  intros Hl. rewrite IH, take_drop; [done|]. rewrite length_drop. lia.
Qed.

Lemma chunks_lengths sizes l :
  (sum_list sizes ≤ length l)%nat → length <$> chunks sizes l = sizes.
Proof.
  revert l. induction sizes as [|s sizes IH]; intros l; simpl; [done|].
  intros Hl. rewrite IH, length_take by (rewrite length_drop; lia). f_equal. lia.
Qed.

Lemma chunks_sublist sizes l : Forall (λ c, c `sublist_of` l) (chunks sizes l).
Proof.
  revert l. induction sizes as [|s sizes IH]; intros l; simpl; constructor.
  - apply sublist_take.
  - eapply Forall_impl; [apply IH|]. intros c Hc. simpl in Hc.
    etransitivity; [exact Hc|apply sublist_drop].
Qed.
End chunks_lemmas.

Lemma concat_Permutation {A} (ls ks : list (list A)) :
  Forall2 (≡ₚ) ls ks → concat ls ≡ₚ concat ks.
Proof. induction 1 as [|l k ls ks Hlk _ IH]; [done|]. simpl. by rewrite Hlk, IH. Qed.

Lemma filter_elem_Permutation (test : list nat) n :
  NoDup test → Forall (λ i, i < n)%nat test →
  filter (λ i, i ∈ test) (seq 0 n) ≡ₚ test.
Proof.
  intros Hnd Hlt. apply NoDup_Permutation; [apply NoDup_filter, NoDup_seq|done|].
  intros i. rewrite list_elem_of_filter, elem_of_seq. split; [by intros [? _]|].
  intros Hi. split; [done|]. eapply Forall_forall in Hlt; [|done]. simpl in Hlt. lia.
Qed.

Section kfold_lemmas.
Context `{Shuffler}.

Lemma kfold_Ok k n folds :
  kfold k n = Ok folds →
  (k ≤ n)%nat ∧ folds =
    (λ test, (filter (λ i, i ∉ test) (seq 0 n), filter (λ i, i ∈ test) (seq 0 n)))
      <$> chunks (fold_sizes k n) (permutation 42 n).
Proof. unfold kfold. case_decide; [done|]. intros [= <-]. split; [lia|done]. Qed.

Lemma kfold_chunks k n :
  Forall (λ c, NoDup c ∧ Forall (λ i, i < n)%nat c)
    (chunks (fold_sizes k n) (permutation 42 n)).
Proof.
  eapply Forall_impl; [apply chunks_sublist|]. intros c Hc. simpl in Hc. split.
  - eapply sublist_NoDup; [|exact Hc].
    rewrite (permutation_Permutation 42 n). apply NoDup_seq.
  - eapply Forall_sublist; [exact Hc|]. rewrite (permutation_Permutation 42 n).
    apply Forall_forall. intros i Hi%elem_of_seq. lia.
Qed.

Lemma kfold_folds k n folds :
  (0 < k)%nat → kfold k n = Ok folds →
  length folds = k ∧ concat (snd <$> folds) ≡ₚ seq 0 n ∧
  Forall (λ f, f.1 ++ f.2 ≡ₚ seq 0 n ∧ (n / k ≤ length f.2 ≤ n / k + 1)%nat) folds.
Proof.
  intros Hk [Hkn ->]%kfold_Ok. pose proof (kfold_chunks k n) as Hc.
  assert (sum_list (fold_sizes k n) = length (permutation 42 n)) as Hsum.
  { rewrite fold_sizes_sum by done.
    by rewrite (permutation_Permutation 42 n), length_seq. }
  split_and!.
  - by rewrite length_fmap, chunks_length, fold_sizes_length.
  - transitivity (concat (chunks (fold_sizes k n) (permutation 42 n)));
      [|rewrite chunks_concat by done; apply permutation_Permutation].
    apply concat_Permutation. rewrite <-list_fmap_compose.
    apply Forall2_fmap_l, Forall_Forall2_diag. eapply Forall_impl; [exact Hc|].
    intros c [Hnd Hlt]. by apply filter_elem_Permutation.
  - apply Forall_fmap, Forall_forall. intros c Hin. simpl. split.
    + rewrite (comm app). apply filter_app_complement.
    + eapply Forall_forall in Hc as [Hnd Hlt]; [|done].
      rewrite (filter_elem_Permutation c n) by done.
      pose proof (fold_sizes_bounds k n) as Hb.
      rewrite <-(chunks_lengths (fold_sizes k n) (permutation 42 n)) in Hb by lia.
      apply Forall_fmap in Hb. by eapply Forall_forall in Hb.
Qed.

(** The folds of a table of at least five rows: positions of the table,
    some to fit on and some to score on. *)
Lemma kfold_usable n folds :
  kfold 5 n = Ok folds → folds ≠ [] ∧
  Forall (λ f, Forall (λ i, i < n)%nat f.1 ∧ Forall (λ i, i < n)%nat f.2 ∧
               f.1 ≠ [] ∧ f.2 ≠ []) folds.
Proof.
  intros Hk. destruct (kfold_folds 5 n folds) as (Hlen & _ & Hf); [lia|done|].
  apply kfold_Ok in Hk as [Hn Heq]. split; [by destruct folds|].
  assert (1 ≤ n / 5 ∧ n / 5 + 1 < n)%nat as [? ?].
  { pose proof (Nat.div_mod_eq n 5). pose proof (Nat.mod_upper_bound n 5). lia. }
  rewrite Heq in Hf |- *. apply Forall_fmap in Hf. apply Forall_fmap.
  eapply Forall_impl; [exact Hf|]. intros c [Hp Hc]. simpl in *.
  pose proof (Permutation_length Hp) as Hl. rewrite length_app, length_seq in Hl.
  split_and!.
  - apply Forall_forall. intros i [_ Hi%elem_of_seq]%list_elem_of_filter. lia.
  - apply Forall_forall. intros i [_ Hi%elem_of_seq]%list_elem_of_filter. lia.
  - intros Hnil. rewrite Hnil in Hl. simpl in Hl. lia.
  - intros Hnil. rewrite Hnil in Hc. simpl in Hc. lia.
Qed.
End kfold_lemmas.

(** ** The metrics *)

Lemma qsum_nonneg xs : Forall (λ x, 0 <= x) xs → 0 <= qsum xs.
Proof. induction 1 as [|x xs Hx _ IH]; simpl; lra. Qed.

Lemma qsum_zero xs :
  Forall (λ x, 0 <= x) xs → qsum xs == 0 → Forall (λ x, x == 0) xs.
Proof.
  induction 1 as [|x xs Hx Hxs IH]; simpl; [done|]. intros Hs.
  pose proof (qsum_nonneg xs Hxs). constructor; [lra|]. apply IH. lra.
Qed.

Lemma qsum_all_zero xs : Forall (λ x, x == 0) xs → qsum xs == 0.
Proof. induction 1 as [|x xs Hx _ IH]; simpl; lra. Qed.

Lemma qsum_nonpos xs : Forall (λ x, x <= 0) xs → qsum xs <= 0.
Proof. induction 1 as [|x xs Hx _ IH]; simpl; lra. Qed.

Lemma mean_Some_inv xs m :
  mean xs = Some m → xs ≠ [] ∧ m == qsum xs / qlen xs ∧ 0 < qlen xs.
Proof.
  destruct xs as [|x xs]; [done|]. intros [= <-]. split; [done|].
  split; [apply Qred_correct|apply qlen_pos].
Qed.

Lemma mean_nonneg xs m : Forall (λ x, 0 <= x) xs → mean xs = Some m → 0 <= m.
Proof.
  intros Hxs (_ & -> & Hlen)%mean_Some_inv. apply Qle_shift_div_l; [done|].
  pose proof (qsum_nonneg xs Hxs). lra.
Qed.

Lemma mean_zero xs m :
  Forall (λ x, 0 <= x) xs → mean xs = Some m → m == 0 ↔ Forall (λ x, x == 0) xs.
Proof.
  intros Hxs (_ & -> & Hlen)%mean_Some_inv. split.
  - intros Hm. apply qsum_zero; [done|].
    rewrite <-(Qmult_div_r (qsum xs) (qlen xs)) by lra. rewrite Hm. lra.
  - intros ->%qsum_all_zero. field. lra.
Qed.

Lemma mean_nonpos xs m : Forall (λ x, x <= 0) xs → mean xs = Some m → m <= 0.
Proof.
  intros Hxs (_ & -> & Hlen)%mean_Some_inv. apply Qle_shift_div_r; [done|].
  pose proof (qsum_nonpos xs Hxs). lra.
Qed.

Lemma squared_error_nonneg y p : 0 <= squared_error y p.
Proof.
  unfold squared_error. pose proof (Qsqr_nonneg (y - p)) as Hs.
  assert ((y - p) ^ 2 == (y - p) * (y - p)) as Heq by (simpl; ring).
  by rewrite Heq in Hs.
Qed.

Lemma pvariance_nonneg xs v : pvariance xs = Some v → 0 <= v.
Proof.
  unfold pvariance. destruct (mean xs) as [m|] eqn:Hm; [|done]. intros [= <-].
  apply mean_Some_inv in Hm as (_ & _ & Hlen). rewrite Qred_correct.
  apply Qle_shift_div_l; [done|]. rewrite Qmult_0_l.
  apply qsum_nonneg, Forall_fmap, Forall_forall. intros x _. apply squared_error_nonneg.
Qed.

Section mean_loss_lemmas.
Context (loss : Q → Q → Q).

Lemma mean_loss_Ok ys ps m :
  mean_loss loss ys ps = Ok m ↔
    length ys = length ps ∧ mean (zip_with loss ys ps) = Some m.
Proof.
  unfold mean_loss. case_decide; [|naive_solver].
  rewrite or_raise_Ok. naive_solver.
Qed.

Lemma mean_loss_total ys ps :
  length ys = length ps → ys ≠ [] → is_Ok (mean_loss loss ys ps).
Proof.
  intros Hlen Hys. unfold mean_loss. rewrite decide_True by done.
  destruct ys as [|y ys], ps as [|p ps]; try done. by eexists.
Qed.

Lemma mean_loss_nonneg ys ps m :
  (∀ y p, 0 <= loss y p) → mean_loss loss ys ps = Ok m → 0 <= m.
Proof.
  intros Hloss [_ Hm]%mean_loss_Ok. eapply mean_nonneg; [|done].
  apply Forall_forall. intros x (y & p & -> & _)%elem_of_zip_with. apply Hloss.
Qed.
End mean_loss_lemmas.

Lemma absolute_error_nonneg y p : 0 <= absolute_error y p.
Proof. apply Qabs_nonneg. Qed.


Lemma absolute_error_zero y p : absolute_error y p == 0 ↔ y == p.
Proof.
  unfold absolute_error. split.
  - intros Ha. pose proof (Qabs_diff_Qle_condition y p 0) as [Hc _].
    destruct Hc; [rewrite Ha|]; lra.
  - intros ->. assert (p - p == 0) as -> by ring. done.
Qed.

Lemma zip_with_Forall {A B C} (f : A → B → C) (P : C → Prop) (R : A → B → Prop) l k :
  length l = length k →
  (∀ x y, P (f x y) ↔ R x y) → Forall P (zip_with f l k) ↔ Forall2 R l k.
Proof.
  intros Hlen HPR. revert k Hlen. induction l as [|x l IH]; intros [|y k] Hlen; simplify_eq/=.
  - split; constructor.
  - rewrite Forall_cons, Forall2_cons, HPR, IH by done. done.
Qed.

Lemma r2_score_bound y_true y_pred r2 :
  r2_score y_true y_pred = Ok (Some r2) → r2 <= 1.
Proof.
  unfold r2_score. case_decide; [|done].
  intros (y_mean & _ & Hr)%bind_Ok_inv. revert Hr.
  set (num := qsum (zip_with _ _ _)). set (den := qsum (_ <$> _)). case_decide; [done|].
  assert (0 <= num) as Hnum.
  { apply qsum_nonneg, Forall_forall. intros x (y & p & -> & _)%elem_of_zip_with.
    apply squared_error_nonneg. }
  assert (0 <= den) as Hden.
  { apply qsum_nonneg, Forall_fmap, Forall_forall. intros y _. apply squared_error_nonneg. }
  destruct (Qeq_bool den 0) eqn:Hd.
  - destruct (Qeq_bool num 0); intros [= <-]; lra.
  - apply Qeq_bool_neq in Hd. intros [= <-]. rewrite Qred_correct.
    assert (0 <= num / den) by (apply Qle_shift_div_l; lra). lra.
Qed.

Lemma r2_score_total y_true y_pred :
  length y_true = length y_pred → y_true ≠ [] → is_Ok (r2_score y_true y_pred).
Proof.
  intros Hlen Hne. unfold r2_score. rewrite decide_True by done.
  destruct (mean_is_Some y_true Hne) as [m ->]. by eexists.
Qed.

(** ** Fitting and scoring *)

Lemma floats_length cells qs : floats cells = Ok qs → length qs = length cells.
Proof. intros Hf%result_mapM_Forall2. symmetry. by eapply Forall2_length. Qed.

Lemma floats_total cells :
  Forall (λ v, is_Ok (to_float v)) cells →
  ∃ qs, floats cells = Ok qs ∧ length qs = length cells.
Proof.
  intros [qs Hqs]%result_mapM_total. exists qs. split; [done|].
  by eapply result_mapM_length.
Qed.

Lemma floats_rows_total k (X : list (list val)) :
  Forall (λ x, length x = k ∧ Forall (λ v, is_Ok (to_float v)) x) X →
  ∃ Xq, result_mapM floats X = Ok Xq ∧ length Xq = length X ∧
        Forall (λ x, length x = k) Xq.
Proof.
  intros HX. destruct (result_mapM_total floats X) as [Xq HXq].
  { eapply Forall_impl; [exact HX|]. intros x [_ [qs [Hqs _]]%floats_total]. by exists qs. }
  exists Xq. split_and!; [done|by eapply result_mapM_length|].
  eapply result_mapM_Forall; [exact HXq|exact HX|].
  intros x qs [<- _] Hqs. by eapply result_mapM_length.
Qed.

Lemma numeric_table_take_rows k X y indices :
  numeric_table k X y → Forall (λ i, i < length X)%nat indices →
  numeric_table k (take_rows indices X) (take_rows indices y) ∧
  length (take_rows indices X) = length indices.
Proof.
  intros (Hlen & HX & Hy) Hi. split; [|by apply take_rows_length].
  split_and!; [|by apply take_rows_Forall..].
  rewrite !take_rows_length; [done|by rewrite <-Hlen|done].
Qed.

Section scoring_lemmas.
Context `{Learner} `{Shuffler}.

Lemma fit_features est X y m k :
  model_fit est X y = Ok m → X ≠ [] → Forall (λ x, length x = k) X →
  n_features_in_ m = k.
Proof.
  intros (Xq & HX & (yq & _ & Hfit%fit_model_features)%bind_Ok_inv)%bind_Ok_inv Hne Hk.
  apply result_mapM_Forall2 in HX. destruct X as [|x X]; [done|].
  apply Forall2_cons_inv_l in HX as (xq & Xq' & Hx%floats_length & _ & ->).
  apply Forall_cons in Hk as [<- _]. by apply Forall_cons in Hfit as [<- _].
Qed.

Lemma fold_score_nonpos est X y fold score :
  fold_score est X y fold = Ok score → score <= 0.
Proof.
  intros Hs. unfold fold_score in Hs.
  apply bind_Ok_inv in Hs as (m & _ & Hs). apply bind_Ok_inv in Hs as (y_pred & _ & Hs).
  apply bind_Ok_inv in Hs as (y_true & _ & Hs).
  apply bind_Ok_inv in Hs as (mae & Hmae & [= <-]).
  apply mean_loss_nonneg in Hmae; [lra|apply absolute_error_nonneg].
Qed.

Lemma cross_val_score_nonpos est X y scores :
  cross_val_score est X y = Ok scores → Forall (λ s, s <= 0) scores.
Proof.
  unfold cross_val_score. case_decide; [|done].
  intros (folds & _ & Hs)%bind_Ok_inv. apply Forall_forall. intros s Hin.
  destruct (result_mapM_elem _ _ _ _ Hs Hin) as (fold & _ & Hfold).
  by eapply fold_score_nonpos.
Qed.
End scoring_lemmas.

Section totality.
Context `{Learner} `{Shuffler} (k : nat).
Hypothesis fit_model_total : ∀ est Xq yq,
  Xq ≠ [] → Forall (λ x, length x = k) Xq → length Xq = length yq →
  is_Ok (fit_model est Xq yq).

Lemma fit_total est X y :
  numeric_table k X y → X ≠ [] →
  ∃ m, model_fit est X y = Ok m ∧ n_features_in_ m = k.
Proof.
  intros (Hlen & HX & Hy) Hne.
  destruct (floats_rows_total k X HX) as (Xq & HXq & HlenX & Hk).
  destruct (floats_total y Hy) as (yq & Hyq & Hleny).
  destruct (fit_model_total est Xq yq) as [m Hm]; [|done|congruence|].
  { intros ->. destruct X; [done|discriminate]. }
  assert (model_fit est X y = Ok m) as Hfit
    by (unfold model_fit; by rewrite HXq, Hyq).
  exists m. split; [done|]. eapply fit_features; [done..|].
  eapply Forall_impl; [exact HX|]. by intros x [? _].
Qed.

Lemma predict_rows_total (m : model) X y :
  numeric_table k X y → n_features_in_ m = k →
  ∃ ps, predict_rows m X = Ok ps ∧ length ps = length X.
Proof.
  intros (_ & HX & _) Hm.
  destruct (floats_rows_total k X HX) as (Xq & HXq & HlenX & Hk).
  destruct (result_mapM_total (predict m) Xq) as [ps Hps].
  { eapply Forall_impl; [exact Hk|]. intros x Hx. simpl in Hx.
    eexists. apply predict_Ok. congruence. }
  exists ps. split; [unfold predict_rows; by rewrite HXq|].
  apply result_mapM_length in Hps. congruence.
Qed.

Lemma fold_score_total est X y fold :
  numeric_table k X y →
  Forall (λ i, i < length X)%nat fold.1 → Forall (λ i, i < length X)%nat fold.2 →
  fold.1 ≠ [] → fold.2 ≠ [] → is_Ok (fold_score est X y fold).
Proof.
  intros Hnum Hi1 Hi2 Hne1 Hne2.
  destruct (numeric_table_take_rows k X y _ Hnum Hi1) as [Htr Hl1].
  destruct (numeric_table_take_rows k X y _ Hnum Hi2) as [Hte Hl2].
  destruct (fit_total est _ _ Htr) as (m & Hm & Hk).
  { intros Hnil. rewrite Hnil in Hl1. by destruct fold.1. }
  destruct (predict_rows_total m _ _ Hte Hk) as (ps & Hps & Hlps).
  destruct Hte as (Hlen & _ & Hy).
  destruct (floats_total _ Hy) as (yq & Hyq & Hlyq).
  destruct (mean_loss_total absolute_error yq ps) as [mae Hmae]; [congruence| |].
  { intros ->. simpl in Hlyq. rewrite <-Hlen, Hl2 in Hlyq. by destruct fold.2. }
  unfold fold_score. rewrite Hm. simpl. rewrite Hps. simpl. rewrite Hyq. simpl.
  unfold mean_absolute_error. rewrite Hmae. by eexists.
Qed.

Lemma cross_val_score_total est X y :
  numeric_table k X y → (5 ≤ length X)%nat →
  ∃ scores, cross_val_score est X y = Ok scores ∧ scores ≠ [].
Proof.
  intros Hnum Hn. unfold cross_val_score. rewrite decide_True by apply Hnum.
  destruct (kfold 5 (length X)) as [folds|] eqn:Hk;
    [|unfold kfold in Hk; by rewrite decide_False in Hk by lia].
  apply kfold_usable in Hk as [Hne Hf]. simpl.
  destruct (result_mapM_total (fold_score est X y) folds) as [scores Hs].
  { eapply Forall_impl; [exact Hf|]. intros f (? & ? & ? & ?).
    by apply fold_score_total. }
  exists scores. split; [done|]. apply result_mapM_length in Hs.
  intros ->. by destruct folds.
Qed.
End totality.

(** * Properties *)

Section sklearn_properties.
Context `{Shuffler}.

(** C17: The split keeps every row with its target and loses or repeats
    none: the test part has the ceiling of a fifth of the rows, the train
    part the others and at least one, and the pairs of a row and its target
    of the two parts together are those of the table. *)
Theorem train_test_split_partition {A B} (X : list A) (y : list B)
    X_train X_test y_train y_test :
  train_test_split X y = Ok ((X_train, X_test), (y_train, y_test)) →
  length X_test = n_test_of (length X) ∧
  length X_train = (length X - n_test_of (length X))%nat ∧ (0 < length X_train)%nat ∧
  length y_train = length X_train ∧ length y_test = length X_test ∧
  zip X_test y_test ++ zip X_train y_train ≡ₚ zip X y.
Proof.
  intros (Hlen & Hn & -> & -> & -> & ->)%train_test_split_Ok.
  pose proof (permutation_lt 42 (length X)) as Hlt.
  pose proof (permutation_length 42 (length X)) as Hpl.
  assert (Forall (λ i, i < length X)%nat (take (n_test_of (length X)) (permutation 42 (length X))))
    as Ht by (by apply Forall_take).
  assert (Forall (λ i, i < length X)%nat (drop (n_test_of (length X)) (permutation 42 (length X))))
    as Hd by (by apply Forall_drop).
  rewrite !take_rows_length, length_take, length_drop, Hpl by (by rewrite <-?Hlen).
  split_and!; try lia.
  rewrite <-!take_rows_zip, <-take_rows_app, take_drop by done.
  apply take_rows_Permutation. rewrite length_zip_with, <-Hlen, Nat.min_id.
  apply permutation_Permutation.
Qed.

(** C18: The five folds of the cross-validation partition the rows: there
    are five, every row is scored in exactly one of them, in each fold the
    rows to fit on and the rows to score on are disjoint and together all
    the rows, and the sizes of the folds differ by at most one. *)
Theorem kfold_partition n folds :
  kfold 5 n = Ok folds →
  length folds = 5%nat ∧ concat (snd <$> folds) ≡ₚ seq 0 n ∧
  Forall (λ f, f.1 ++ f.2 ≡ₚ seq 0 n ∧ (∀ i, i ∈ f.1 → i ∉ f.2) ∧
               (n / 5 ≤ length f.2 ≤ n / 5 + 1)%nat) folds.
Proof.
  intros Hk. destruct (kfold_folds 5 n folds) as (Hlen & Hc & Hf); [lia|done|].
  split_and!; [done..|]. apply kfold_Ok in Hk as [_ ->].
  apply Forall_fmap in Hf. apply Forall_fmap.
  eapply Forall_impl; [exact Hf|]. intros c [Hp Hl]. simpl in *.
  split_and!; [done| |apply Hl..].
  by intros i [Hi _]%list_elem_of_filter [? _]%list_elem_of_filter.
Qed.
End sklearn_properties.

(** The mean absolute error is never negative, and it is zero exactly
    when every prediction equals its target. *)
Theorem mean_absolute_error_zero y_true y_pred mae :
  mean_absolute_error y_true y_pred = Ok mae →
  0 <= mae ∧ (mae == 0 ↔ Forall2 Qeq y_true y_pred).
Proof.
  intros Hm. split; [by eapply mean_loss_nonneg; [apply absolute_error_nonneg|]|].
  apply mean_loss_Ok in Hm as [Hlen Hm]. rewrite mean_zero; [| |done].
  - apply zip_with_Forall; [done|apply absolute_error_zero].
  - apply Forall_forall. intros x (y & p & -> & _)%elem_of_zip_with.
    apply absolute_error_nonneg.
Qed.

(** * Concrete runs *)

(** A shuffle for the worked examples: the positions from the last to the
    first. *)
Lemma reverse_seq_Permutation (seed : Z) (n : nat) : reverse (seq 0 n) ≡ₚ seq 0 n.
Proof. apply reverse_Permutation. Qed.

Definition reverse_shuffler : Shuffler :=
  {| permutation := λ _ n, reverse (seq 0 n);
     permutation_Permutation := reverse_seq_Permutation |}.

(** Estimators for the worked examples, on the constant regressor: the
    forest predicts the mean of the targets, the boosting their least and
    the tree their greatest value. *)
Definition row_width (X : list (list Q)) : option nat :=
  match X with
  | [] => None
  | x :: X' =>
      if decide (Forall (λ r, length r = length x) X') then Some (length x) else None
  end.

Definition ragged_error : error := ValueError "setting an array element with a sequence".

Definition toy_fit (est : estimator) (X : list (list Q)) (y : list Q) :
    result (@model constant_regressor) :=
  k ← or_raise (row_width X) ragged_error;
  p ← or_raise match est with
               | RandomForestRegressor _ _ _ _ _ _ _ => mean y
               | GradientBoostingRegressor _ _ _ _ _ _ _ => qmin_list y
               | DecisionTreeRegressor _ _ _ _ => qmax_list y
               end no_sample_error;
  Ok ((k, p) : @model constant_regressor).

Lemma row_width_Some X k : row_width X = Some k ↔ X ≠ [] ∧ Forall (λ x, length x = k) X.
Proof.
  destruct X as [|x X]; simpl; [naive_solver|]. case_decide as Hf.
  - split; [intros [= <-]; by split; [|constructor]|by intros [_ [-> _]%Forall_cons]].
  - split; [done|]. by intros [_ [<- HX]%Forall_cons].
Qed.

Lemma toy_fit_features est X y m :
  toy_fit est X y = Ok m →
  Forall (λ x, length x = @n_features_in_ constant_regressor m) X.
Proof.
  intros (k & [_ Hk]%or_raise_Ok%row_width_Some & (p & _ & [= <-])%bind_Ok_inv)%bind_Ok_inv.
  done.
Qed.

Definition toy_learner : @Learner constant_regressor :=
  @Build_Learner constant_regressor toy_fit toy_fit_features.

Lemma toy_fit_total k est Xq yq :
  Xq ≠ [] → Forall (λ x, length x = k) Xq → length Xq = length yq →
  is_Ok (toy_fit est Xq yq).
Proof.
  intros Hne Hk Hlen. unfold toy_fit.
  rewrite (proj2 (row_width_Some Xq k)) by done. simpl.
  destruct yq as [|y0 yq]; [by destruct Xq|]. destruct est; by eexists.
Qed.

Lemma train_test_split_partition_witness :
  ∃ X_train X_test y_train y_test,
    train_test_split (H := reverse_shuffler) [10; 11; 12; 13; 14; 15; 16]%Z
      ["a"; "b"; "c"; "d"; "e"; "f"; "g"]
      = Ok ((X_train, X_test), (y_train, y_test)) ∧
    length X_test = 2%nat ∧ length X_train = 5%nat ∧ (0 < length X_train)%nat ∧
    length y_train = length X_train ∧ length y_test = length X_test ∧
    zip X_test y_test ++ zip X_train y_train
      ≡ₚ zip [10; 11; 12; 13; 14; 15; 16]%Z ["a"; "b"; "c"; "d"; "e"; "f"; "g"].
Proof.
  eexists _, _, _, _. split; [reflexivity|].
  by apply (train_test_split_partition (H := reverse_shuffler)
              [10; 11; 12; 13; 14; 15; 16]%Z ["a"; "b"; "c"; "d"; "e"; "f"; "g"]).
Defined.

Example kfold_of_seven :
  kfold (H := reverse_shuffler) 5 7
    = Ok [([0; 1; 2; 3; 4], [5; 6]); ([0; 1; 2; 5; 6], [3; 4]);
          ([0; 1; 3; 4; 5; 6], [2]); ([0; 2; 3; 4; 5; 6], [1]);
          ([1; 2; 3; 4; 5; 6], [0])]%nat.
Proof. vm_compute. reflexivity. Qed.

Lemma kfold_partition_witness :
  ∃ folds, kfold (H := reverse_shuffler) 5 7 = Ok folds ∧
    length folds = 5%nat ∧ concat (snd <$> folds) ≡ₚ seq 0 7 ∧
    Forall (λ f, f.1 ++ f.2 ≡ₚ seq 0 7 ∧ (∀ i, i ∈ f.1 → i ∉ f.2) ∧
                 (7 / 5 ≤ length f.2 ≤ 7 / 5 + 1)%nat) folds.
Proof.
  eexists. split; [apply kfold_of_seven|].
  apply (kfold_partition (H := reverse_shuffler) 7). apply kfold_of_seven.
Defined.

Lemma mean_absolute_error_zero_witness :
  0 <= 10 ∧ (10 == 0 ↔ Forall2 Qeq [100; 200; 300] [110; 190; 310]).
Proof. by apply (mean_absolute_error_zero [100; 200; 300] [110; 190; 310] 10). Defined.
