(* ===== verification/Trainer.v ===== *)
(** * ModelTrainer

    [FlightPricePredictor.train_and_evaluate_models]
    ([main_model.py:196-288]): the 80/20 split, the three candidates, the
    cross-validation, fit and metrics of each ([evaluate]), the dictionary
    [results] in insertion order, and the selection of the candidate with
    the least mean cross-validated error.  Root mean squared errors and the
    standard deviation of the scores are kept as their squares.  The
    printing of the metrics and of the feature importances changes no
    state and is left out. *)

From S2P Require Import Prelude Frame Stats State Sklearn Cleaner Features.
From Stdlib Require Import QArith Qabs Qpower Lqa.
From stdpp Require Import base tactics option list strings numbers gmap.

#[local] Open Scope string_scope.
#[local] Open Scope list_scope.
#[local] Open Scope Q_scope.

(** ** The evaluation of a candidate *)

Section evaluation.
Context `{Learner} `{Shuffler}.

(** Line 248 *)
Definition overfitting_check (train_mae test_mae : Q) : ratio :=
  if Qlt_le_dec 0 test_mae then Ratio (train_mae / test_mae) else Inf.

(** The body of the loop, lines 230-261: the entry of [results] of one
    candidate. *)
Definition evaluate (est : estimator) (X_train X_test : list (list val))
    (y_train y_test : list val) : result evaluation :=
  cv_scores ← cross_val_score est X_train y_train;
  m ← model_fit est X_train y_train;
  y_pred_train ← predict_rows m X_train;
  y_pred_test ← predict_rows m X_test;
  y_train ← floats y_train;
  train_mae ← mean_absolute_error y_train y_pred_train;
  y_test ← floats y_test;
  test_mae ← mean_absolute_error y_test y_pred_test;
  train_mse ← mean_squared_error y_train y_pred_train;
  test_mse ← mean_squared_error y_test y_pred_test;
  train_r2 ← r2_score y_train y_pred_train;
  test_r2 ← r2_score y_test y_pred_test;
  cv_mean ← or_raise (mean cv_scores) no_sample_error;
  cv_var ← or_raise (pvariance cv_scores) no_sample_error;
  Ok {| ev_model := m;
        cv_mae_mean := - cv_mean;
        cv_mae_var := cv_var;
        train_mae := train_mae;
        test_mae := test_mae;
        train_mse := train_mse;
        test_mse := test_mse;
        train_r2 := train_r2;
        test_r2 := test_r2;
        overfitting_ratio := overfitting_check train_mae test_mae |}.

End evaluation.

(** ** The dictionary of results *)

(** [d[k] = v] on a dictionary in insertion order: an entry that exists is
    replaced where it is, a new one is appended. *)
Fixpoint dict_set {V} (k : string) (v : V) (d : list (string * V)) :
    list (string * V) :=
  match d with
  | [] => [(k, v)]
  | (k', v') :: d =>
      if decide (k' = k) then (k, v) :: d else (k', v') :: dict_set k v d
  end.

Fixpoint dict_lookup {V} (k : string) (d : list (string * V)) : option V :=
  match d with
  | [] => None
  | (k', v) :: d => if decide (k' = k) then Some v else dict_lookup k d
  end.

(** [d[k]] *)
Definition dict_get {V} (k : string) (d : list (string * V)) : result V :=
  or_raise (dict_lookup k d) (KeyError k).

(** [min(l, key=...)] after the first element: the first of the least. *)
Fixpoint min_by {A} (key : A → Q) (best : A) (l : list A) : A :=
  match l with
  | [] => best
  | x :: l => min_by key (if Qlt_le_dec (key x) (key best) then x else best) l
  end.

Definition empty_min_error : error := ValueError "min() arg is an empty sequence".

(** ** The method *)

(** The candidates, lines 200-226, in the order of the dictionary. *)
Definition models : list (string * estimator) :=
  [("Random Forest", RandomForestRegressor 200 20 5 2 "sqrt" 42 (-1));
   ("Gradient Boosting", GradientBoostingRegressor 200 (1 # 10) 8 5 2 (9 # 10) 42);
   ("Decision Tree", DecisionTreeRegressor 20 5 2 42)].

Definition not_array_error : error :=
  TypeError "Expected sequence or array-like, got <class 'NoneType'>".

Section trainer.
Context `{Learner} `{Shuffler}.

(** Lines 228-261: the loop over the candidates. *)
Fixpoint evaluate_models (candidates : list (string * estimator))
    (X_train X_test : list (list val)) (y_train y_test : list val)
    (results : list (string * evaluation)) : result (list (string * evaluation)) :=
  match candidates with
  | [] => Ok results
  | (name, est) :: candidates =>
      ev ← evaluate est X_train X_test y_train y_test;
      evaluate_models candidates X_train X_test y_train y_test
        (dict_set name ev results)
  end.

(** Lines 269-270 *)
Definition best_model_name (results : list (string * evaluation)) : result string :=
  match results with
  | [] => Raise empty_min_error
  | r :: rs => Ok (min_by (λ r, cv_mae_mean r.2) r rs).1
  end.

Definition train_and_evaluate_models (self : FlightPricePredictor) :
    result FlightPricePredictor :=
  (* lines 197-199 *)
  Xs ← or_raise (X self) not_array_error;
  ys ← or_raise (y self) not_array_error;
  '((X_train, X_test), (y_train, y_test)) ← train_test_split Xs ys;
  (* lines 200-267 *)
  results ← evaluate_models models X_train X_test y_train y_test (results self);
  (* lines 269-273 *)
  name ← best_model_name results;
  best ← dict_get name results;
  Ok {| csv_file := csv_file self;
        df := df self;
        object_columns := object_columns self;
        X := X self;
        y := y self;
        scaler := scaler self;
        label_encoders := label_encoders self;
        best_model := Some (ev_model best);
        model_type := Some name;
        feature_columns := feature_columns self;
        results := results;
        price_stats := price_stats self;
        route_popularity_stats := route_popularity_stats self;
        airline_popularity_stats := airline_popularity_stats self |}.

End trainer.

(** ** What the theorems speak of *)

(** An evaluation whose numbers are what the metrics allow, of a model that
    expects [k] features. *)
Definition sound `{Regressor} (k : nat) (ev : evaluation) : Prop :=
  n_features_in_ (ev_model ev) = k ∧
  0 <= cv_mae_mean ev ∧ 0 <= cv_mae_var ev ∧
  0 <= train_mae ev ∧ 0 <= test_mae ev ∧ 0 <= train_mse ev ∧ 0 <= test_mse ev ∧
  (∀ r, train_r2 ev = Some r → r <= 1) ∧ (∀ r, test_r2 ev = Some r → r <= 1) ∧
  (overfitting_ratio ev = Inf ↔ test_mae ev == 0).

(** * Lemmas *)

(** ** The dictionary of results *)

Section dict.
Context {V : Type}.
Implicit Types (d : list (string * V)) (k : string) (v : V).

Lemma dict_set_keys_elem k v d k' : k' ∈ (dict_set k v d).*1 ↔ k' = k ∨ k' ∈ d.*1.
Proof.
  induction d as [|[k0 v0] d IH]; simpl; [set_solver|].
  case_decide; subst; simpl; rewrite ?elem_of_cons, ?IH; naive_solver.
Qed.

Lemma dict_set_NoDup k v d : NoDup d.*1 → NoDup (dict_set k v d).*1.
Proof.
  induction d as [|[k0 v0] d IH]; simpl; [intros; apply NoDup_singleton|].
  intros [Hk0 Hd]%NoDup_cons. case_decide; subst; simpl; apply NoDup_cons.
  - done.
  - split; [|by apply IH]. rewrite dict_set_keys_elem. naive_solver.
Qed.

Lemma dict_set_elem k v d kv :
  NoDup d.*1 → kv ∈ dict_set k v d → kv = (k, v) ∨ (kv ∈ d ∧ kv.1 ≠ k).
Proof.
  induction d as [|[k0 v0] d IH]; simpl; [intros _ ->%list_elem_of_singleton; by left|].
  intros [Hk0 Hnd]%NoDup_cons. case_decide; subst.
  - intros [->|Hin]%elem_of_cons; [by left|right]. split; [by right|].
    intros <-. apply Hk0. by apply list_elem_of_fmap_2.
  - intros [->|Hin]%elem_of_cons; [right; split; [by left|done]|].
    destruct (IH Hnd Hin) as [->|[? ?]]; [by left|right]. split; [by right|done].
Qed.

Lemma dict_lookup_set k v d : dict_lookup k (dict_set k v d) = Some v.
Proof.
  induction d as [|[k0 v0] d IH]; simpl; [by rewrite decide_True|].
  case_decide; subst; simpl; [by rewrite decide_True|by rewrite decide_False].
Qed.

Lemma dict_lookup_set_ne k k' v d :
  k ≠ k' → dict_lookup k' (dict_set k v d) = dict_lookup k' d.
Proof.
  intros Hne. induction d as [|[k0 v0] d IH]; simpl; [by rewrite decide_False|].
  case_decide; subst; simpl; [by rewrite !decide_False|]. by rewrite IH.
Qed.

Lemma dict_lookup_elem k v d : NoDup d.*1 → (k, v) ∈ d → dict_lookup k d = Some v.
Proof.
  induction d as [|[k0 v0] d IH]; simpl; [by intros _ ?%elem_of_nil|].
  intros [Hk0 Hd]%NoDup_cons [[= <- <-]|Hin]%elem_of_cons; [by rewrite decide_True|].
  rewrite decide_False; [by apply IH|]. intros ->. apply Hk0.
  by apply (list_elem_of_fmap_2 fst) in Hin.
Qed.

Lemma dict_lookup_Some k v d : dict_lookup k d = Some v → (k, v) ∈ d.
Proof.
  induction d as [|[k0 v0] d IH]; simpl; [done|].
  case_decide; subst; [intros [= ->]; left|right; by apply IH].
Qed.

(** The keys of a dictionary that had none of the new keys: the old ones, then the new ones in the order of their first assignment. *)
Lemma dict_set_fresh k v d : k ∉ d.*1 → dict_set k v d = d ++ [(k, v)].
Proof.
  induction d as [|[k0 v0] d IH]; simpl; [done|].
  intros [Hne Hk]%not_elem_of_cons. rewrite decide_False by done. by rewrite IH.
Qed.

Lemma dict_get_total k d : k ∈ d.*1 → is_Ok (dict_get k d).
Proof.
  unfold dict_get. induction d as [|[k0 v0] d IH]; simpl; [by intros ?%elem_of_nil|].
  case_decide; [by eexists|]. intros [?|Hin]%elem_of_cons; [done|by apply IH].
Qed.
End dict.

(** ** The least element *)

Section min_by_lemmas.
Context {A : Type} (key : A → Q).

Lemma min_by_elem best l : min_by key best l ∈ best :: l.
Proof.
  revert best. induction l as [|x l IH]; intros best; simpl; [left|].
  specialize (IH (if Qlt_le_dec (key x) (key best) then x else best)).
  apply elem_of_cons in IH as [->|IH]; [|by do 2 right].
  destruct (Qlt_le_dec _ _); [right; left|left].
Qed.

Lemma min_by_le_best best l : key (min_by key best l) <= key best.
Proof.
  revert best. induction l as [|x l IH]; intros best; simpl; [lra|].
  destruct (Qlt_le_dec (key x) (key best)); [|done].
  specialize (IH x). lra.
Qed.

Lemma min_by_least best l x : x ∈ best :: l → key (min_by key best l) <= key x.
Proof.
  revert best. induction l as [|y l IH]; intros best.
  { intros ->%list_elem_of_singleton. simpl. lra. }
  intros Hx. simpl. set (b' := if Qlt_le_dec (key y) (key best) then y else best).
  assert (key b' <= key best ∧ key b' <= key y) as [? ?]
    by (unfold b'; destruct (Qlt_le_dec _ _); lra).
  pose proof (min_by_le_best b' l).
  apply elem_of_cons in Hx as [Hx|Hx]; [subst; lra|].
  apply elem_of_cons in Hx as [Hx|Hx]; [subst; lra|]. apply IH. by right.
Qed.

(** The first of the least: every element before the chosen one has a strictly greater key. *)
Lemma min_by_first best l :
  ∃ l1 l2, best :: l = l1 ++ min_by key best l :: l2 ∧
    Forall (λ x, key (min_by key best l) < key x) l1.
Proof.
  revert best. induction l as [|y l IH]; intros best; simpl.
  { by exists [], []. }
  destruct (Qlt_le_dec (key y) (key best)) as [Hlt|Hle].
  - destruct (IH y) as (l1 & l2 & Heq & Hl1). exists (best :: l1), l2. split.
    + by rewrite Heq.
    + constructor; [|done]. pose proof (min_by_le_best y l). lra.
  - destruct (IH best) as (l1 & l2 & Heq & Hl1).
    destruct l1 as [|b l1].
    + injection Heq as Hm Hl. exists [], (y :: l). split; [simpl; by rewrite <-Hm|done].
    + injection Heq as -> Hl. apply Forall_cons in Hl1 as [Hb Hl1].
      exists (b :: y :: l1), l2. split; [simpl; do 2 f_equal; exact Hl|].
      constructor; [done|]. constructor; [lra|done].
Qed.
End min_by_lemmas.

(** ** The loop and the selection *)

Lemma overfitting_check_Inf train_mae test_mae :
  overfitting_check train_mae test_mae = Inf ↔ test_mae <= 0.
Proof. unfold overfitting_check. destruct (Qlt_le_dec 0 test_mae); split; try done; lra. Qed.

Section trainer_lemmas.
Context `{Learner} `{Shuffler}.
Implicit Types (results : list (string * evaluation)).

Lemma evaluate_sound est X_train X_test y_train y_test ev k :
  evaluate est X_train X_test y_train y_test = Ok ev →
  X_train ≠ [] → Forall (λ x, length x = k) X_train → sound k ev.
Proof.
  intros Hev Hne Hk. unfold evaluate in Hev.
  apply bind_Ok_inv in Hev as (cv & Hcv%cross_val_score_nonpos & Hev).
  apply bind_Ok_inv in Hev as (m & Hm & Hev).
  apply bind_Ok_inv in Hev as (p_train & _ & Hev).
  apply bind_Ok_inv in Hev as (p_test & _ & Hev).
  apply bind_Ok_inv in Hev as (yq_train & _ & Hev).
  apply bind_Ok_inv in Hev as (mae1 & Hmae1 & Hev).
  apply bind_Ok_inv in Hev as (yq_test & _ & Hev).
  apply bind_Ok_inv in Hev as (mae2 & Hmae2 & Hev).
  apply bind_Ok_inv in Hev as (mse1 & Hmse1 & Hev).
  apply bind_Ok_inv in Hev as (mse2 & Hmse2 & Hev).
  apply bind_Ok_inv in Hev as (r1 & Hr1 & Hev).
  apply bind_Ok_inv in Hev as (r2 & Hr2 & Hev).
  apply bind_Ok_inv in Hev as (cv_mean & Hmean%or_raise_Ok & Hev).
  apply bind_Ok_inv in Hev as (cv_var & Hvar%or_raise_Ok & [= <-]).
  apply mean_loss_nonneg in Hmae1, Hmae2, Hmse1, Hmse2;
    try apply absolute_error_nonneg; try apply squared_error_nonneg.
  unfold sound. simpl. split_and!; try done.
  - by eapply fit_features.
  - apply (mean_nonpos cv) in Hmean; [lra|done].
  - by eapply pvariance_nonneg.
  - intros r ->. by eapply r2_score_bound.
  - intros r ->. by eapply r2_score_bound.
  - rewrite overfitting_check_Inf. split; [lra|intros ->; lra].
Qed.

Lemma evaluate_models_Ok candidates X_train X_test y_train y_test results results' :
  evaluate_models candidates X_train X_test y_train y_test results = Ok results' →
  ∃ evs, Forall2 (λ c ev, evaluate c.2 X_train X_test y_train y_test = Ok ev)
           candidates evs ∧
    results' = foldl (λ d ce, dict_set ce.1 ce.2 d) results (zip candidates.*1 evs).
Proof.
  revert results. induction candidates as [|[name est] cs IH]; intros results; simpl.
  { intros [= <-]. by exists []. }
  intros (ev & Hev & (evs & Hevs & ->)%IH)%bind_Ok_inv.
  exists (ev :: evs). split; [by constructor|done].
Qed.

Lemma evaluate_models_NoDup candidates X_train X_test y_train y_test results results' :
  evaluate_models candidates X_train X_test y_train y_test results = Ok results' →
  NoDup results.*1 → NoDup results'.*1.
Proof.
  revert results. induction candidates as [|[name est] cs IH]; intros results; simpl.
  { by intros [= <-]. }
  intros (ev & _ & Hr)%bind_Ok_inv Hnd. eapply IH; [exact Hr|]. by apply dict_set_NoDup.
Qed.

(** An entry of the dictionary after the loop is the evaluation of a
    candidate, or an entry it had under another name. *)
Lemma evaluate_models_entries (P : evaluation → Prop) candidates
    X_train X_test y_train y_test results results' :
  (∀ est ev, evaluate est X_train X_test y_train y_test = Ok ev → P ev) →
  evaluate_models candidates X_train X_test y_train y_test results = Ok results' →
  NoDup results.*1 →
  Forall (λ kv, P kv.2 ∨ (kv ∈ results ∧ kv.1 ∉ candidates.*1)) results'.
Proof.
  intros HP. revert results.
  induction candidates as [|[name est] cs IH]; intros results; simpl.
  { intros [= <-] _. apply Forall_forall. intros kv Hkv. right.
    split; [done|apply not_elem_of_nil]. }
  intros (ev & Hev%HP & Hr)%bind_Ok_inv Hnd.
  eapply Forall_impl; [by eapply IH, dict_set_NoDup|]. intros [k v]. simpl.
  intros [?|[[[= -> ->]|[Hin Hne]]%dict_set_elem Hk]]; [by left|by left|right|done].
  split; [done|]. by apply not_elem_of_cons.
Qed.

Lemma evaluate_models_keys candidates X_train X_test y_train y_test results results' k0 :
  evaluate_models candidates X_train X_test y_train y_test results = Ok results' →
  k0 ∈ results'.*1 ↔ k0 ∈ candidates.*1 ∨ k0 ∈ results.*1.
Proof.
  revert results. induction candidates as [|[name est] cs IH]; intros results; simpl.
  { intros [= <-]. split; [by right|]. by intros [?%elem_of_nil|?]. }
  intros (ev & _ & Hr%IH)%bind_Ok_inv. rewrite Hr, dict_set_keys_elem, elem_of_cons.
  naive_solver.
Qed.

Lemma best_model_name_Ok results name :
  best_model_name results = Ok name → NoDup results.*1 →
  ∃ best, (name, best) ∈ results ∧ dict_get name results = Ok best ∧
    (∀ kv, kv ∈ results → cv_mae_mean best <= cv_mae_mean kv.2) ∧
    ∃ l1 l2, results = l1 ++ (name, best) :: l2 ∧
      Forall (λ kv, cv_mae_mean best < cv_mae_mean kv.2) l1.
Proof.
  destruct results as [|r rs]; [done|]. unfold best_model_name. intros [= <-] Hnd.
  set (key := λ r : string * evaluation, cv_mae_mean r.2).
  pose proof (min_by_elem key r rs) as Hin.
  destruct (min_by key r rs) as [name best] eqn:Hmin. exists best. split_and!.
  - done.
  - unfold dict_get. by erewrite dict_lookup_elem.
  - intros kv Hkv. pose proof (min_by_least key r rs kv Hkv) as Hle.
    by rewrite Hmin in Hle.
  - destruct (min_by_first key r rs) as (l1 & l2 & Heq & Hl1). rewrite Hmin in Heq, Hl1.
    by exists l1, l2.
Qed.

Lemma best_model_name_total (results : list (string * evaluation)) :
  results ≠ [] → ∃ name, best_model_name results = Ok name ∧ name ∈ results.*1.
Proof.
  destruct results as [|r rs]; [done|]. intros _. eexists. split; [done|].
  apply list_elem_of_fmap_2, min_by_elem.
Qed.

Lemma train_Ok self self' :
  train_and_evaluate_models self = Ok self' →
  ∃ Xs ys X_train X_test y_train y_test name best,
    X self = Some Xs ∧ y self = Some ys ∧
    train_test_split Xs ys = Ok ((X_train, X_test), (y_train, y_test)) ∧
    evaluate_models models X_train X_test y_train y_test (results self)
      = Ok (results self') ∧
    best_model_name (results self') = Ok name ∧
    dict_get name (results self') = Ok best ∧
    model_type self' = Some name ∧ best_model self' = Some (ev_model best).
Proof.
  unfold train_and_evaluate_models. intros Ht.
  apply bind_Ok_inv in Ht as (Xs & HX%or_raise_Ok & Ht).
  apply bind_Ok_inv in Ht as (ys & Hy%or_raise_Ok & Ht).
  apply bind_Ok_inv in Ht as ([[X_train X_test] [y_train y_test]] & Hsplit & Ht).
  apply bind_Ok_inv in Ht as (results & Hres & Ht).
  apply bind_Ok_inv in Ht as (name & Hname & Ht).
  apply bind_Ok_inv in Ht as (best & Hbest & [= <-]).
  by exists Xs, ys, X_train, X_test, y_train, y_test, name, best.
Qed.

(** Training touches the results, the model and its name only. *)
Lemma train_frame self self' :
  train_and_evaluate_models self = Ok self' →
  feature_columns self' = feature_columns self ∧
  label_encoders self' = label_encoders self ∧
  price_stats self' = price_stats self ∧
  route_popularity_stats self' = route_popularity_stats self ∧
  airline_popularity_stats self' = airline_popularity_stats self.
Proof.
  unfold train_and_evaluate_models. intros Ht.
  apply bind_Ok_inv in Ht as (Xs & _ & Ht). apply bind_Ok_inv in Ht as (ys & _ & Ht).
  apply bind_Ok_inv in Ht as ([[X_train X_test] [y_train y_test]] & _ & Ht).
  apply bind_Ok_inv in Ht as (results & _ & Ht).
  apply bind_Ok_inv in Ht as (name & _ & Ht).
  by apply bind_Ok_inv in Ht as (best & _ & [= <-]).
Qed.

(** The entries of the results are sound after a training that started
    from entries it overwrites. *)
Lemma train_entries_sound self self' Xs k :
  train_and_evaluate_models self = Ok self' →
  X self = Some Xs → Forall (λ x, length x = k) Xs →
  NoDup (results self).*1 → Forall (λ name, name ∈ models.*1) (results self).*1 →
  Forall (λ kv, sound k kv.2) (results self').
Proof.
  intros (Xs' & ys & X_train & X_test & y_train & y_test & name & best & HX & _ &
    Hsplit%train_test_split_lengths & Hres & _)%train_Ok HXs Hk Hnd Hkeys.
  rewrite HX in HXs. injection HXs as ->.
  destruct Hsplit as (_ & _ & Hpos & _ & _ & Htrain & _).
  eapply Forall_impl; [eapply (evaluate_models_entries (sound k)); [|done..]|].
  - intros est ev Hev. eapply evaluate_sound; [done| |].
    + intros ->. simpl in Hpos. lia.
    + eapply Forall_impl; [exact Htrain|]. intros x Hx. simpl in Hx.
      by eapply Forall_forall in Hk.
  - intros [k' ev] [?|[Hin Hnot]]; [done|]. exfalso. apply Hnot.
    eapply Forall_forall in Hkeys; [done|]. by apply (list_elem_of_fmap_2 fst) in Hin.
Qed.

(** The selected model is the model of an entry of the results. *)
Lemma train_best_entry self self' :
  train_and_evaluate_models self = Ok self' →
  ∃ name best, (name, best) ∈ results self' ∧ model_type self' = Some name ∧
    best_model self' = Some (ev_model best).
Proof.
  intros (Xs' & ys & X_train & X_test & y_train & y_test & name & best & _ & _ & _ &
    _ & _ & Hbest%or_raise_Ok%dict_lookup_Some & Hmt & Hbm)%train_Ok.
  by exists name, best.
Qed.

(** The selected model expects the columns of the matrix. *)
Lemma train_model_features self self' Xs k :
  train_and_evaluate_models self = Ok self' →
  X self = Some Xs → Forall (λ x, length x = k) Xs →
  NoDup (results self).*1 → Forall (λ name, name ∈ models.*1) (results self).*1 →
  ∃ m, best_model self' = Some m ∧ n_features_in_ m = k.
Proof.
  intros Ht HX Hk Hnd Hkeys.
  pose proof (train_entries_sound _ _ _ _ Ht HX Hk Hnd Hkeys) as Hsound.
  destruct (train_best_entry _ _ Ht) as (name & best & Hin & _ & Hbm).
  exists (ev_model best). split; [done|].
  eapply Forall_forall in Hsound; [|done]. by destruct Hsound as [? _].
Qed.
End trainer_lemmas.

Section totality_lemmas.
Context `{Learner} `{Shuffler} (k : nat).
Hypothesis fit_model_total : ∀ est Xq yq,
  Xq ≠ [] → Forall (λ x, length x = k) Xq → length Xq = length yq →
  is_Ok (fit_model est Xq yq).

Lemma evaluate_total est X_train X_test y_train y_test :
  numeric_table k X_train y_train → numeric_table k X_test y_test →
  (5 ≤ length X_train)%nat → X_test ≠ [] →
  is_Ok (evaluate est X_train X_test y_train y_test).
Proof.
  intros Htr Hte Hn Hne.
  destruct (cross_val_score_total k fit_model_total est _ _ Htr Hn)
    as (cv & Hcv & Hcvne).
  destruct (fit_total k fit_model_total est _ _ Htr) as (m & Hm & Hk);
    [intros ->; simpl in Hn; lia|].
  destruct (predict_rows_total k m _ _ Htr Hk) as (p1 & Hp1 & Hl1).
  destruct (predict_rows_total k m _ _ Hte Hk) as (p2 & Hp2 & Hl2).
  destruct Htr as (Hlen1 & _ & Hy1). destruct Hte as (Hlen2 & _ & Hy2).
  destruct (floats_total _ Hy1) as (y1 & Hyq1 & Hly1).
  destruct (floats_total _ Hy2) as (y2 & Hyq2 & Hly2).
  assert (length y1 = length p1 ∧ y1 ≠ []) as [Hlp1 Hne1].
  { split; [congruence|]. intros ->. simpl in *. lia. }
  assert (length y2 = length p2 ∧ y2 ≠ []) as [Hlp2 Hne2].
  { split; [congruence|]. intros ->. simpl in *. destruct X_test; [done|simpl in *; lia]. }
  destruct (mean_loss_total absolute_error y1 p1) as [mae1 Hmae1]; [done..|].
  destruct (mean_loss_total absolute_error y2 p2) as [mae2 Hmae2]; [done..|].
  destruct (mean_loss_total squared_error y1 p1) as [mse1 Hmse1]; [done..|].
  destruct (mean_loss_total squared_error y2 p2) as [mse2 Hmse2]; [done..|].
  destruct (r2_score_total y1 p1) as [r1 Hr1]; [done..|].
  destruct (r2_score_total y2 p2) as [r2 Hr2]; [done..|].
  destruct (mean_is_Some cv Hcvne) as [cv_mean Hmean].
  unfold evaluate, mean_absolute_error, mean_squared_error, pvariance.
  rewrite Hcv. simpl. rewrite Hm. simpl. rewrite Hp1. simpl. rewrite Hp2. simpl.
  rewrite Hyq1. simpl. rewrite Hmae1. simpl. rewrite Hyq2. simpl. rewrite Hmae2. simpl.
  rewrite Hmse1. simpl. rewrite Hmse2. simpl. rewrite Hr1. simpl. rewrite Hr2. simpl.
  rewrite Hmean. simpl. by eexists.
Qed.

Lemma evaluate_models_total candidates X_train X_test y_train y_test results :
  numeric_table k X_train y_train → numeric_table k X_test y_test →
  (5 ≤ length X_train)%nat → X_test ≠ [] →
  is_Ok (evaluate_models candidates X_train X_test y_train y_test results).
Proof.
  intros Htr Hte Hn Hne. revert results.
  induction candidates as [|[name est] cs IH]; intros results; simpl; [by eexists|].
  destruct (evaluate_total est _ _ _ _ Htr Hte Hn Hne) as [ev ->]. simpl. apply IH.
Qed.
End totality_lemmas.

(** * Properties *)

Section trainer_properties.
Context `{Learner} `{Shuffler}.

(** C4: The selected model is the candidate with the least mean
    cross-validated error, and the first such in the order of the
    dictionary: the entries before it have a strictly greater error, those
    after it one that is not smaller.  The test error plays no part. *)
Theorem train_selects_least self self' :
  train_and_evaluate_models self = Ok self' → NoDup (results self).*1 →
  ∃ name best l1 l2, model_type self' = Some name ∧
    best_model self' = Some (ev_model best) ∧
    results self' = l1 ++ (name, best) :: l2 ∧
    Forall (λ kv, cv_mae_mean best < cv_mae_mean kv.2) l1 ∧
    Forall (λ kv, cv_mae_mean best <= cv_mae_mean kv.2) l2.
Proof.
  intros (Xs & ys & X_train & X_test & y_train & y_test & name & best & _ & _ & _ &
    Hres & Hname & Hbest & Hmt & Hbm)%train_Ok Hnd.
  eapply evaluate_models_NoDup in Hres; [|done].
  destruct (best_model_name_Ok _ _ Hname Hres)
    as (best' & _ & Hget & Hle & l1 & l2 & Heq & Hl1).
  rewrite Hbest in Hget. injection Hget as <-. exists name, best, l1, l2.
  split_and!; try done. apply Forall_forall. intros kv Hkv. apply Hle.
  rewrite Heq. apply elem_of_app. right. by right.
Qed.

(** C9: After training on a table of [k] columns every entry of [results]
    is sound: its errors and variance are not negative, its coefficients of
    determination are at most 1, its overfitting ratio is infinite exactly
    when the test error is 0, and its model expects [k] features; so does
    the selected model. *)
Theorem train_results_sound self self' Xs k :
  train_and_evaluate_models self = Ok self' →
  X self = Some Xs → Forall (λ x, length x = k) Xs →
  NoDup (results self).*1 → Forall (λ name, name ∈ models.*1) (results self).*1 →
  Forall (λ kv, sound k kv.2) (results self') ∧
  ∃ m, best_model self' = Some m ∧ n_features_in_ m = k.
Proof.
  intros Ht HX Hk Hnd Hkeys.
  split; [by eapply train_entries_sound | by eapply train_model_features].
Qed.

(** C25: Training on two to six rows raises the [ValueError] of [KFold]: the
    train part of the split has fewer than five rows, and the first
    cross-validation refuses to make five folds of them. *)
Theorem train_too_few_rows self Xs ys :
  X self = Some Xs → y self = Some ys → length Xs = length ys →
  (2 ≤ length Xs ≤ 6)%nat →
  train_and_evaluate_models self = Raise n_splits_error.
Proof.
  intros HX Hy Hlen Hn. unfold train_and_evaluate_models. rewrite HX, Hy. simpl.
  destruct (train_test_split_total Xs ys) as [[[X_train X_test] [y_train y_test]] Hs];
    [done|lia|].
  rewrite Hs. simpl.
  apply train_test_split_lengths in Hs as (_ & Htr & _ & Hytr & _).
  assert (∀ est, evaluate est X_train X_test y_train y_test = Raise n_splits_error)
    as Hev.
  2:{ unfold models. simpl. rewrite !Hev. reflexivity. }
  intros est. unfold evaluate, cross_val_score. rewrite decide_True by done.
  unfold kfold. rewrite decide_True; [done|].
  rewrite Htr. pose proof (n_test_of_spec (length Xs)). lia.
Qed.

(** Training before [feature_engineering] has set [X] raises. *)
Theorem train_without_features self :
  X self = None → train_and_evaluate_models self = Raise not_array_error.
Proof. intros HX. unfold train_and_evaluate_models. by rewrite HX. Qed.

(** C26: Of three candidates with mean cross-validated errors 500000, 480000
    and 510000 the second is selected, whatever their test errors. *)
Theorem selects_second_of_three (e1 e2 e3 : evaluation) :
  cv_mae_mean e1 == 500000 → cv_mae_mean e2 == 480000 → cv_mae_mean e3 == 510000 →
  best_model_name
    [("Random Forest", e1); ("Gradient Boosting", e2); ("Decision Tree", e3)]
    = Ok "Gradient Boosting".
Proof.
  intros He1 He2 He3. unfold best_model_name. simpl.
  destruct (Qlt_le_dec (cv_mae_mean e2) (cv_mae_mean e1)); [|lra]. simpl.
  destruct (Qlt_le_dec (cv_mae_mean e3) (cv_mae_mean e2)); [lra|done].
Qed.
End trainer_properties.

Section totality_of_training.
Context `{Learner} `{Shuffler} (k : nat).
Hypothesis fit_model_total : ∀ est Xq yq,
  Xq ≠ [] → Forall (λ x, length x = k) Xq → length Xq = length yq →
  is_Ok (fit_model est Xq yq).

(** C14: Training returns: on a table of at least seven rows whose cells
    are numbers, with as many targets as rows and [k] cells in every row,
    and with estimators that fit every such table, the method does not
    raise. *)
Theorem train_total self Xs ys :
  X self = Some Xs → y self = Some ys → numeric_table k Xs ys →
  (7 ≤ length Xs)%nat → is_Ok (train_and_evaluate_models self).
Proof.
  intros HX Hy Hnum Hn.
  destruct (train_test_split_total Xs ys) as [[[X_train X_test] [y_train y_test]] Hs];
    [apply Hnum|lia|].
  pose proof (n_test_of_spec (length Xs)) as Hnt.
  pose proof (permutation_lt 42 (length Xs)) as Hlt.
  pose proof Hs as (_ & _ & -> & -> & -> & ->)%train_test_split_Ok.
  destruct (numeric_table_take_rows k Xs ys
              (drop (n_test_of (length Xs)) (permutation 42 (length Xs))) Hnum)
    as [Htr Hltr]; [by apply Forall_drop|].
  destruct (numeric_table_take_rows k Xs ys
              (take (n_test_of (length Xs)) (permutation 42 (length Xs))) Hnum)
    as [Hte Hlte]; [by apply Forall_take|].
  rewrite length_drop, permutation_length in Hltr.
  rewrite length_take, permutation_length in Hlte.
  destruct (evaluate_models_total k fit_model_total models _ _ _ _ (results self) Htr Hte)
    as [results' Hres]; [lia|intros Hnil; rewrite Hnil in Hlte; simpl in Hlte; lia|].
  destruct (best_model_name_total results') as (name & Hbest & Hname).
  { intros ->. apply (evaluate_models_keys _ _ _ _ _ _ _ "Random Forest") in Hres.
    destruct Hres as [_ Hr]. apply elem_of_nil in Hr; [done|]. left. compute_done. }
  destruct (dict_get_total name results' Hname) as [best Hget].
  unfold train_and_evaluate_models. rewrite HX, Hy. cbn [or_raise mbind result_bind].
  rewrite Hs. cbn [mbind result_bind]. rewrite Hres. cbn [mbind result_bind].
  rewrite Hbest. cbn [mbind result_bind]. rewrite Hget. by eexists.
Qed.
End totality_of_training.

(** * Concrete runs *)

(** A feature matrix of ten rows and two columns with its targets. *)
Definition toy_state : @FlightPricePredictor constant_regressor := {|
  csv_file := None; df := None; object_columns := [];
  X := Some ((λ i, [VInt i; VInt (i * i)]) <$> [1; 2; 3; 4; 5; 6; 7; 8; 9; 10]%Z);
  y := Some (VInt <$> [1200; 1500; 1300; 1800; 3100; 1250; 1400; 1600; 1700; 2000]%Z);
  scaler := RobustScaler; label_encoders := ∅; best_model := None;
  model_type := None; feature_columns := None; results := [];
  price_stats := None; route_popularity_stats := ∅; airline_popularity_stats := ∅
|}.

Definition train_toy : result (@FlightPricePredictor constant_regressor) :=
  train_and_evaluate_models (H0 := toy_learner) (H1 := reverse_shuffler) toy_state.

Definition trained_toy : @FlightPricePredictor constant_regressor :=
  try_except train_toy toy_state.

Lemma train_toy_Ok : train_toy = Ok trained_toy.
Proof. vm_cast_no_check (eq_refl (Ok trained_toy)). Qed.

(** The forest, with the least cross-validated error, is selected. *)
Example train_toy_selection :
  model_type trained_toy = Some "Random Forest" ∧
  (λ kv, (kv.1, cv_mae_mean kv.2)) <$> results trained_toy =
    [("Random Forest", 7960 # 21); ("Gradient Boosting", 415); ("Decision Tree", 1485)].
Proof. vm_compute. done. Qed.

Lemma train_selects_least_witness :
  ∃ name best l1 l2, model_type trained_toy = Some name ∧
    best_model trained_toy = Some (ev_model best) ∧
    results trained_toy = l1 ++ (name, best) :: l2 ∧
    Forall (λ kv, cv_mae_mean best < cv_mae_mean kv.2) l1 ∧
    Forall (λ kv, cv_mae_mean best <= cv_mae_mean kv.2) l2.
Proof.
  apply (train_selects_least (H0 := toy_learner) (H1 := reverse_shuffler)
           toy_state trained_toy); [apply train_toy_Ok|constructor].
Defined.

Lemma train_results_sound_witness :
  Forall (λ kv, sound 2 kv.2) (results trained_toy) ∧
  ∃ m, best_model trained_toy = Some m ∧ @n_features_in_ constant_regressor m = 2%nat.
Proof.
  apply (train_results_sound (H0 := toy_learner) (H1 := reverse_shuffler)
           toy_state trained_toy
           ((λ i, [VInt i; VInt (i * i)]) <$> [1; 2; 3; 4; 5; 6; 7; 8; 9; 10]%Z));
    [apply train_toy_Ok|reflexivity|by repeat constructor|constructor|constructor].
Defined.

Lemma train_total_witness : is_Ok train_toy.
Proof.
  apply (train_total (H0 := toy_learner) (H1 := reverse_shuffler) 2 (toy_fit_total 2)
           toy_state _ _ eq_refl eq_refl); [|simpl; lia].
  split_and!; [done|..]; repeat constructor; by eexists.
Defined.

(** The table of the example of [Features] has four rows: too few to
    train on. *)
Lemma train_too_few_rows_witness :
  train_and_evaluate_models (H0 := toy_learner) (H1 := reverse_shuffler)
    engineered_example = Raise n_splits_error.
Proof.
  by apply (train_too_few_rows (H0 := toy_learner) (H1 := reverse_shuffler)
              engineered_example (default [] (X engineered_example))
              (default [] (y engineered_example))); vm_compute; try lia.
Defined.

(** An entry of [results] with a cross-validated and a test error. *)
Definition entry (cv test : Q) : @evaluation constant_regressor := {|
  ev_model := ((20%nat, 0) : @model constant_regressor); cv_mae_mean := cv; cv_mae_var := 0;
  train_mae := 0; test_mae := test; train_mse := 0; test_mse := 0;
  train_r2 := None; test_r2 := None; overfitting_ratio := Ratio 0
|}.

Lemma selects_second_of_three_witness :
  best_model_name
    [("Random Forest", entry 500000 100000); ("Gradient Boosting", entry 480000 900000);
     ("Decision Tree", entry 510000 200000)]
    = Ok "Gradient Boosting".
Proof. by apply selects_second_of_three. Defined.
