(* ===== verification/Artifact.v ===== *)
(** * ArtifactStore

    [FlightPricePredictor.save_model] and [load_model]
    ([main_model.py:321-351]).  The pickled object is the dictionary
    [model_data]; it is modelled as a record with one optional field per
    key, [None] standing for a key the dictionary lacks, so that an
    artifact written by an older version of the program, without the three
    statistics, is a value of the type.  The files are a finite map from
    file names to artifacts; [pickle] itself is not modelled. *)

From S2P Require Import Prelude Frame Encoder State.
From Stdlib Require Import QArith.
From stdpp Require Import base tactics option list strings numbers gmap.

#[local] Open Scope string_scope.

Section bundle.
Context `{Regressor}.

(** The dictionary [model_data], lines 322-331. *)
Record artifact : Type := {
  a_model : option (option model);
  a_model_type : option (option string);
  a_feature_columns : option (option (list string));
  a_label_encoders : option (gmap string LabelEncoder);
  a_scaler : option Scaler;
  a_price_stats : option (option (gmap string val));
  a_route_popularity_stats : option (gmap string val);
  a_airline_popularity_stats : option (gmap string val)
}.

(** The files written by [pickle.dump], by name. *)
#[local] Abbreviation store := (gmap string artifact).

(** Lines 322-331 *)
Definition model_data (self : FlightPricePredictor) : artifact := {|
  a_model := Some (best_model self);
  a_model_type := Some (model_type self);
  a_feature_columns := Some (feature_columns self);
  a_label_encoders := Some (label_encoders self);
  a_scaler := Some (scaler self);
  a_price_stats := Some (price_stats self);
  a_route_popularity_stats := Some (route_popularity_stats self);
  a_airline_popularity_stats := Some (airline_popularity_stats self)
|}.

(** The default of the parameter [filename] of both methods. *)
Definition default_filename : string := "flight_price_model.pkl".

(** [save_model(filename)], lines 321-336: the object is unchanged, the
    file is written or overwritten. *)
Definition save_model (self : FlightPricePredictor) (filename : string)
    (files : store) : store :=
  <[filename := model_data self]> files.

(** The defaults of lines 348-349.  The entry ["std"] holds the square of
    the standard deviation, as everywhere: the squares of 50 and of 25. *)
Definition default_route_popularity_stats : gmap string val :=
  <["mean" := VInt 100]> (<["std" := VInt (50 * 50)]> ∅).

Definition default_airline_popularity_stats : gmap string val :=
  <["mean" := VInt 50]> (<["std" := VInt (25 * 25)]> ∅).

(** [load_model(filename)], lines 338-351: the five subscripts raise
    [KeyError] on a key the dictionary lacks, the three [get] take their
    default. *)
Definition load_model (self : FlightPricePredictor) (filename : string)
    (files : store) : result FlightPricePredictor :=
  model_data ← or_raise (files !! filename) (FileNotFoundError filename);
  m ← or_raise (a_model model_data) (KeyError "model");
  mt ← or_raise (a_model_type model_data) (KeyError "model_type");
  cols ← or_raise (a_feature_columns model_data) (KeyError "feature_columns");
  encoders ← or_raise (a_label_encoders model_data) (KeyError "label_encoders");
  sc ← or_raise (a_scaler model_data) (KeyError "scaler");
  Ok {| csv_file := csv_file self;
        df := df self;
        object_columns := object_columns self;
        X := X self;
        y := y self;
        scaler := sc;
        label_encoders := encoders;
        best_model := m;
        model_type := mt;
        feature_columns := cols;
        results := results self;
        price_stats := default (Some ∅) (a_price_stats model_data);
        route_popularity_stats :=
          default default_route_popularity_stats
            (a_route_popularity_stats model_data);
        airline_popularity_stats :=
          default default_airline_popularity_stats
            (a_airline_popularity_stats model_data) |}.

(** ** What the theorems speak of *)

(** Two objects that serve the same predictions: they agree on the
    attributes [save_model] writes. *)
Definition same_bundle (s1 s2 : FlightPricePredictor) : Prop :=
  model_data s1 = model_data s2.

(** An artifact of a version of the program that did not write the
    statistics. *)
Definition without_stats (a : artifact) : artifact := {|
  a_model := a_model a;
  a_model_type := a_model_type a;
  a_feature_columns := a_feature_columns a;
  a_label_encoders := a_label_encoders a;
  a_scaler := a_scaler a;
  a_price_stats := None;
  a_route_popularity_stats := None;
  a_airline_popularity_stats := None
|}.

End bundle.

Arguments artifact {_}.

Abbreviation store := (gmap string artifact).

(** * Lemmas *)

Section artifact_lemmas.
Context `{Regressor}.
Implicit Types (self : FlightPricePredictor) (files : store) (a : artifact).

(** What a successful load found in the file and what it leaves. *)
Lemma load_model_Ok self filename files self' :
  load_model self filename files = Ok self' ↔
    ∃ a m mt cols encoders sc,
      files !! filename = Some a ∧ a_model a = Some m ∧ a_model_type a = Some mt ∧
      a_feature_columns a = Some cols ∧ a_label_encoders a = Some encoders ∧
      a_scaler a = Some sc ∧
      self' = {| csv_file := csv_file self; df := df self;
                 object_columns := object_columns self; X := X self; y := y self;
                 scaler := sc; label_encoders := encoders; best_model := m;
                 model_type := mt; feature_columns := cols; results := results self;
                 price_stats := default (Some ∅) (a_price_stats a);
                 route_popularity_stats :=
                   default default_route_popularity_stats (a_route_popularity_stats a);
                 airline_popularity_stats :=
                   default default_airline_popularity_stats
                     (a_airline_popularity_stats a) |}.
Proof.
  unfold load_model. split.
  - intros Hl.
    apply bind_Ok_inv in Hl as (a & Ha%or_raise_Ok & Hl).
    apply bind_Ok_inv in Hl as (m & Hm%or_raise_Ok & Hl).
    apply bind_Ok_inv in Hl as (mt & Hmt%or_raise_Ok & Hl).
    apply bind_Ok_inv in Hl as (cols & Hc%or_raise_Ok & Hl).
    apply bind_Ok_inv in Hl as (enc & He%or_raise_Ok & Hl).
    apply bind_Ok_inv in Hl as (sc & Hs%or_raise_Ok & [= <-]).
    by exists a, m, mt, cols, enc, sc.
  - intros (a & m & mt & cols & enc & sc & Ha & Hm & Hmt & Hc & He & Hs & ->).
    rewrite Ha. simpl. by rewrite Hm, Hmt, Hc, He, Hs.
Qed.

(** A file with the five keys the method subscripts loads. *)
Lemma load_model_total self filename files a :
  files !! filename = Some a →
  is_Some (a_model a) → is_Some (a_model_type a) → is_Some (a_feature_columns a) →
  is_Some (a_label_encoders a) → is_Some (a_scaler a) →
  is_Ok (load_model self filename files).
Proof.
  intros Ha [m Hm] [mt Hmt] [cols Hc] [enc He] [sc Hs]. eexists.
  apply load_model_Ok. by exists a, m, mt, cols, enc, sc.
Qed.

Lemma save_model_lookup self filename files :
  save_model self filename files !! filename = Some (model_data self).
Proof. apply lookup_insert_eq. Qed.

Lemma save_model_lookup_ne self filename filename' files :
  filename ≠ filename' →
  save_model self filename files !! filename' = files !! filename'.
Proof. apply lookup_insert_ne. Qed.

(** The last file written under a name is the one that is there. *)
Lemma save_model_twice self1 self2 filename files :
  save_model self2 filename (save_model self1 filename files)
    = save_model self2 filename files.
Proof. apply insert_insert_eq. Qed.

(** Writing a file does not change what another file loads. *)
Lemma load_model_other_file self self0 filename filename' files :
  filename ≠ filename' →
  load_model self0 filename' (save_model self filename files)
    = load_model self0 filename' files.
Proof. intros Hne. unfold load_model. by rewrite save_model_lookup_ne. Qed.

(** What was saved loads, whatever the object that loads it held. *)
Lemma load_save self self0 filename files :
  ∃ self', load_model self0 filename (save_model self filename files) = Ok self' ∧
    same_bundle self self'.
Proof.
  eexists. split; [apply load_model_Ok; eexists _, _, _, _, _, _;
    split_and!; [apply save_model_lookup|done..]|].
  reflexivity.
Qed.
End artifact_lemmas.

(** * Properties *)

Section artifact_properties.
Context `{Regressor}.
Implicit Types (self : FlightPricePredictor) (files : store) (a : artifact).

(** C13: Loading what was saved restores the bundle: the object that loads
    the file written by [save_model] holds the model, its kind, the feature
    columns, the encoders, the scaler and the three statistics of the
    object that wrote it, and keeps its own table and results. *)
Theorem load_save_roundtrip self self0 filename files :
  ∃ self', load_model self0 filename (save_model self filename files) = Ok self' ∧
    same_bundle self self' ∧
    csv_file self' = csv_file self0 ∧ df self' = df self0 ∧ X self' = X self0 ∧
    y self' = y self0 ∧ results self' = results self0.
Proof.
  eexists. split; [apply load_model_Ok; eexists _, _, _, _, _, _;
    split_and!; [apply save_model_lookup|done..]|].
  by split_and!.
Qed.

(** C27: An artifact without the three statistics loads with the defaults:
    [price_stats] is the empty dictionary, the route popularity has mean
    100 and the airline popularity mean 50. *)
Theorem load_old_artifact self filename files a self' :
  files !! filename = Some (without_stats a) →
  load_model self filename files = Ok self' →
  price_stats self' = Some ∅ ∧
  getitem "mean" (route_popularity_stats self') = Ok (VInt 100) ∧
  getitem "mean" (airline_popularity_stats self') = Ok (VInt 50).
Proof.
  intros Ha (a' & m & mt & cols & enc & sc & Ha' & _ & _ & _ & _ & _ & ->)%load_model_Ok.
  rewrite Ha in Ha'. by injection Ha' as <-.
Qed.

(** C38: An artifact without the key [model] does not load: the subscript
    raises [KeyError]. *)
Theorem load_missing_model self filename files a :
  files !! filename = Some a → a_model a = None →
  load_model self filename files = Raise (KeyError "model").
Proof. intros Ha Hm. unfold load_model. by rewrite Ha; simpl; rewrite Hm. Qed.

(** Loading a file that was never written raises
    [FileNotFoundError]. *)
Theorem load_missing_file self filename files :
  files !! filename = None →
  load_model self filename files = Raise (FileNotFoundError filename).
Proof. intros Hf. unfold load_model. by rewrite Hf. Qed.
End artifact_properties.

(** * Concrete runs *)

(** An artifact of an older version: a model that predicts 1500000 from
    twenty features, and no statistics. *)
Definition old_artifact : @artifact constant_regressor := {|
  a_model := Some (Some ((20%nat, 1500000%Q) : @model constant_regressor));
  a_model_type := Some (Some "Decision Tree");
  a_feature_columns := Some None;
  a_label_encoders := Some ∅;
  a_scaler := Some RobustScaler;
  a_price_stats := None;
  a_route_popularity_stats := None;
  a_airline_popularity_stats := None
|}.

Definition old_files : gmap string (@artifact constant_regressor) :=
  {[ default_filename := old_artifact ]}.

Definition loaded_old : @FlightPricePredictor constant_regressor :=
  try_except (load_model (init None) default_filename old_files) (init None).

Lemma load_old_artifact_witness :
  price_stats loaded_old = Some ∅ ∧
  getitem "mean" (route_popularity_stats loaded_old) = Ok (VInt 100) ∧
  getitem "mean" (airline_popularity_stats loaded_old) = Ok (VInt 50).
Proof.
  by apply (load_old_artifact (init None) default_filename old_files old_artifact).
Defined.

(** A dictionary that is not a bundle. *)
Definition no_model_artifact : @artifact constant_regressor := {|
  a_model := None;
  a_model_type := Some None;
  a_feature_columns := Some None;
  a_label_encoders := Some ∅;
  a_scaler := Some RobustScaler;
  a_price_stats := None;
  a_route_popularity_stats := None;
  a_airline_popularity_stats := None
|}.

Definition no_model_files : gmap string (@artifact constant_regressor) :=
  {[ default_filename := no_model_artifact ]}.

Lemma load_missing_model_witness :
  load_model (init None) default_filename no_model_files = Raise (KeyError "model").
Proof.
  by apply (load_missing_model (init None) default_filename no_model_files
              no_model_artifact).
Defined.

Lemma load_missing_file_witness :
  load_model (H := constant_regressor) (init None) default_filename ∅
    = Raise (FileNotFoundError default_filename).
Proof. by apply load_missing_file. Defined.
