(* ===== verification/Predictor.v ===== *)
(** * Predictor

    [FlightPricePredictor.predict_single_flight]
    ([main_model.py:353-449]).  The request [flight_data] is a dictionary
    from field names to texts; [df_input] is the one row built from it, to
    which the method adds the derived columns one assignment at a time.
    The method has its own copies of the nested helpers of
    [feature_engineering]; they are modelled as definitions of their own
    (suffix [_input]) so that the agreement of the two code paths is a
    theorem and not a convention. *)

From S2P Require Import Prelude PyText Calendar Frame Spec Encoder Stats State.
From S2P Require Import Cleaner Features.
From Stdlib Require Import QArith Qminmax Ascii String.
From stdpp Require Import base tactics option list strings numbers gmap.

#[local] Open Scope string_scope.
#[local] Open Scope Z_scope.

(** ** The nested helpers of the method *)

(** [categorize_advance_booking(days)], lines 372-380 *)
Definition categorize_advance_booking_input (days : val) : result val :=
  lt7 ← val_lt days 7;
  if lt7 : bool then Ok (VInt 0) else
  lt30 ← val_lt days 30;
  if lt30 : bool then Ok (VInt 1) else
  lt90 ← val_lt days 90;
  if lt90 : bool then Ok (VInt 2) else Ok (VInt 3).

(** [time_to_minutes(time_str)], lines 384-389: any exception gives 0. *)
Definition time_to_minutes_input (time_str : val) : val :=
  let body :=
    match time_str with
    | VStr s =>
        match PyText.split ":" s with
        | [h; m] => hour ← py_int h; minute ← py_int m; Ok (hour * 60 + minute)
        | _ => Raise (ValueError "not enough or too many values to unpack")
        end
    | _ => Raise (AttributeError "object has no attribute 'split'")
    end in
  try_except (VInt <$> body) (VInt 0).

(** Lines 393-396 *)
Definition flight_duration_input (arrival_minutes departure_minutes : val) : result val :=
  d ← val_sub arrival_minutes departure_minutes;
  negative ← val_lt d 0;
  if negative : bool then val_add d (VInt (24 * 60)) else Ok d.

(** [categorize_time_of_day(minutes)], lines 398-407 *)
Definition categorize_time_of_day_input (minutes : val) : result val :=
  hour ← val_floordiv minutes 60;
  ge6 ← val_ge hour 6; lt12 ← val_lt hour 12;
  if ge6 && lt12 then Ok (VInt 0) else
  ge12 ← val_ge hour 12; lt18 ← val_lt hour 18;
  if ge12 && lt18 then Ok (VInt 1) else
  ge18 ← val_ge hour 18; lt22 ← val_lt hour 22;
  if ge18 && lt22 then Ok (VInt 2) else Ok (VInt 3).

(** ** Steps of the method *)

Definition no_model_error : error := ValueError "? model đâu ??".

Section predictor.
Context `{Regressor} `{DatetimeParser}.

(** [pd.to_datetime] on a cell, with the default [errors='raise']. *)
Definition to_datetime_cell (v : val) : result val :=
  match v with
  | VStr s =>
      match to_datetime s with
      | Parsed t => Ok (VTime t)
      | ParsedNaT => Ok VNull
      | Unparsable => Raise (ValueError "Unknown datetime string format")
      end
  | VTime t => Ok (VTime t)
  | VNull => Ok VNull
  | VInt _ | VFloat _ =>
      Raise (TypeError "to_datetime of a number is not modelled")
  end.

(** Line 359: [pd.DataFrame([flight_data])] *)
Definition frame_of (flight_data : gmap string string) : row := VStr <$> flight_data.

(** Lines 360-370 *)
Definition calendar_features_input (df_input : row) : result row :=
  r ← assign "create_at" (on1 to_datetime_cell "create_at") df_input;
  r ← assign "flight_date" (on1 to_datetime_cell "flight_date") r;
  r ← assign "create_hour" (on1 dt_hour "create_at") r;
  r ← assign "create_day_of_week" (on1 dt_dayofweek "create_at") r;
  r ← assign "create_month" (on1 dt_month "create_at") r;
  r ← assign "flight_month" (on1 dt_month "flight_date") r;
  r ← assign "flight_day_of_week" (on1 dt_dayofweek "flight_date") r;
  r ← assign "days_in_advance" (on2 dt_days_between "flight_date" "create_at") r;
  r ← assign "is_weekend_booking" (on1 (λ v, ge_flag v 5) "create_day_of_week") r;
  assign "is_weekend_flight" (on1 (λ v, ge_flag v 5) "flight_day_of_week") r.

(** Lines 382-409 *)
Definition time_features_input (df_input : row) : result row :=
  r ← assign "booking_category"
        (on1 categorize_advance_booking_input "days_in_advance") df_input;
  r ← assign "departure_minutes"
        (on1 (λ v, Ok (time_to_minutes_input v)) "departure_time") r;
  r ← assign "arrival_minutes"
        (on1 (λ v, Ok (time_to_minutes_input v)) "arrival_time") r;
  r ← assign "flight_duration"
        (on2 flight_duration_input "arrival_minutes" "departure_minutes") r;
  assign "departure_time_category"
    (on1 categorize_time_of_day_input "departure_minutes") r.

(** Lines 410-412: the popularity columns take the training means. *)
Definition popularity_features_input (self : FlightPricePredictor) (df_input : row) :
    result row :=
  r ← assign "route_popularity"
        (λ _, getitem "mean" (route_popularity_stats self)) df_input;
  r ← assign "airline" (on1 (str_cell str_slice2) "flight_number") r;
  assign "airline_popularity"
    (λ _, getitem "mean" (airline_popularity_stats self)) r.

(** Lines 418-426: the code of the label, or 0 when [transform] raises
    [ValueError]. *)
Definition transform_or_default (le : LabelEncoder) (v : val) : result val :=
  label ← or_raise (astype_str v) astype_str_error;
  match Encoder.encode le label with
  | Ok code => Ok (VInt code)
  | Raise (ValueError _) => Ok (VInt 0)
  | Raise e => Raise e
  end.

(** One turn of the loop of lines 416-426. *)
Definition encode_column (encoders : gmap string LabelEncoder) (c : string)
    (df_input : row) : result row :=
  match encoders !! c with
  | Some le =>
      if has_col c df_input
      then assign (encoded_name c) (on1 (transform_or_default le) c) df_input
      else Ok df_input
  | None => Ok df_input
  end.

Fixpoint encode_columns (encoders : gmap string LabelEncoder) (cs : list string)
    (df_input : row) : result row :=
  match cs with
  | [] => Ok df_input
  | c :: cs => r ← encode_column encoders c df_input; encode_columns encoders cs r
  end.

(** Lines 429-435: [df_input[self.feature_columns].fillna(0)] *)
Definition not_iterable_error : error := TypeError "'NoneType' object is not iterable".

Definition input_vector (self : FlightPricePredictor) (df_input : row) :
    result (list val) :=
  columns ← or_raise (feature_columns self) not_iterable_error;
  cells ← Frame.select columns df_input;
  Ok (fillna0 <$> (cells : list val)).

(** Line 439: [self.best_model.predict(X_input)[0]] *)
Definition model_predict (m : model) (X_input : list val) : result Q :=
  xs ← result_mapM to_float X_input; predict m xs.

(** Lines 443-447: clip into [max(min, 100000), min(max, 50000000)] when
    [price_stats] is a dictionary with entries.  A bound that is [nan]
    makes the result [nan]. *)
Definition clip_prediction (stats : option (gmap string val)) (prediction : Q) :
    result val :=
  match stats with
  | None => Ok (VFloat prediction)
  | Some stats =>
      if decide (stats = ∅) then Ok (VFloat prediction) else
      lo ← getitem "min" stats; lo ← as_number lo;
      hi ← getitem "max" stats; hi ← as_number hi;
      Ok (match lo, hi with
          | Some lo, Some hi =>
              let min_price := Qmax lo 100000 in
              let max_price := Qmin hi 50000000 in
              VFloat (clip prediction min_price max_price)
          | _, _ => VNull
          end)
  end.

(** The feature row of a request: lines 359-426. *)
Definition input_features (self : FlightPricePredictor)
    (flight_data : gmap string string) : result row :=
  r ← calendar_features_input (frame_of flight_data);
  r ← time_features_input r;
  r ← popularity_features_input self r;
  encode_columns (label_encoders self) categorical_cols r.

(** ** The method *)

Definition predict_single_flight (self : FlightPricePredictor)
    (flight_data : gmap string string) : result val :=
  m ← or_raise (best_model self) no_model_error;
  df_input ← input_features self flight_data;
  X_input ← input_vector self df_input;
  prediction ← model_predict m X_input;
  clip_prediction (price_stats self) prediction.

End predictor.

(** The floor and the ceiling of a clipped prediction. *)
Definition min_price (lo : Q) : Q := Qmax lo 100000.
Definition max_price (hi : Q) : Q := Qmin hi 50000000.

(** ** The itinerary of a request *)

(** The minutes of a clock cell as the method reads it: unreadable is 0. *)
Definition serve_clock (v : val) : option Z := Some (default 0 (train_clock v)).

(** An itinerary as the method reads it. *)
Definition served (i : itinerary) : itinerary :=
  Itinerary (created i) (flies i) (Some (default 0 (departs i)))
    (Some (default 0 (arrives i))).

Section request.
Context `{DatetimeParser}.

(** The itinerary a request stands for, given the reading of its two clock
    fields: its two timestamps have to parse. *)
Definition request_itinerary (clock : val → option Z)
    (flight_data : gmap string string) : option itinerary :=
  s1 ← flight_data !! "create_at"; s2 ← flight_data !! "flight_date";
  dep ← flight_data !! "departure_time"; arr ← flight_data !! "arrival_time";
  match to_datetime s1, to_datetime s2 with
  | Parsed t1, Parsed t2 =>
      Some (Itinerary t1 t2 (clock (VStr dep)) (clock (VStr arr)))
  | _, _ => None
  end.

(** The row of a request once its two timestamps are parsed. *)
Definition parsed_request (flight_data : gmap string string) (i : itinerary) : row :=
  <["flight_date" := VTime (flies i)]>
    (<["create_at" := VTime (created i)]> (frame_of flight_data)).

End request.

(** ** Objects that can serve, requests that can be served *)

(** The text fields a request carries besides the four of its itinerary. *)
Definition request_fields : list string :=
  ["flight_number"; "departure_airport"; "arrival_airport"; "classes";
   "type_of_plane"].

(** Price statistics the clipping can read: none, the empty dictionary, or
    one whose bounds are numbers. *)
Definition clip_ready (stats : option (gmap string val)) : bool :=
  match stats with
  | None => true
  | Some stats =>
      bool_decide (stats = ∅) || (number_at "min" stats && number_at "max" stats)
  end.

Section ready.
Context `{Regressor} `{DatetimeParser}.

(** A request with its nine fields, whose two timestamps parse. *)
Definition complete (flight_data : gmap string string) : Prop :=
  is_Some (request_itinerary serve_clock flight_data) ∧
  Forall (λ c, is_Some (flight_data !! c)) request_fields.

(** An object as training or loading leaves it: a model that expects the
    feature columns, which are among the twenty of the code; an encoder for
    each encoded column among them; the two popularity means; price
    statistics the clipping can read. *)
Definition ready (self : FlightPricePredictor) : bool :=
  match best_model self, feature_columns self with
  | Some m, Some columns =>
      bool_decide (n_features_in_ m = length columns)
      && forallb (λ c, bool_decide (c ∈ all_feature_columns)) columns
      && forallb (λ c, bool_decide (encoded_name c ∈ columns →
                                    is_Some (label_encoders self !! c)))
           categorical_cols
      && number_at "mean" (route_popularity_stats self)
      && number_at "mean" (airline_popularity_stats self)
      && clip_ready (price_stats self)
  | _, _ => false
  end.

End ready.

(** * Lemmas *)

(** ** The helpers compute the specified functions *)

Lemma time_to_minutes_input_cell v : time_to_minutes_input v = cell (serve_clock v).
Proof.
  unfold time_to_minutes_input, serve_clock, train_clock.
  change (match v with VStr s => _ | _ => _ end) with (clock_minutes v).
  by destruct (clock_minutes v).
Qed.

Lemma flight_duration_input_VInt a d :
  flight_duration_input (VInt a) (VInt d) = Ok (VInt (duration a d)).
Proof. apply flight_duration_VInt. Qed.

Lemma categorize_time_of_day_input_VInt m :
  categorize_time_of_day_input (VInt m) = Ok (VInt (day_part m)).
Proof. apply categorize_time_of_day_VInt. Qed.

Lemma categorize_advance_booking_input_bucket d :
  categorize_advance_booking_input (VInt d) = Ok (VInt (booking_bucket d)).
Proof. apply categorize_advance_booking_bucket. Qed.

(** Where both clock fields are readable the two readings agree. *)
Lemma served_readable i : is_Some (departs i) → is_Some (arrives i) → served i = i.
Proof. destruct i as [t1 t2 d a]. by intros [? [= ->]] [? [= ->]]. Qed.

Section request_lemmas.
Context `{DatetimeParser}.

Lemma to_datetime_cell_Parsed s t :
  to_datetime s = Parsed t → to_datetime_cell (VStr s) = Ok (VTime t).
Proof. unfold to_datetime_cell. by intros ->. Qed.

Lemma frame_of_lookup (fd : gmap string string) c s :
  fd !! c = Some s → frame_of fd !! c = Some (VStr s).
Proof. unfold frame_of. rewrite lookup_fmap. by intros ->. Qed.

Lemma request_itinerary_Some clock fd i :
  request_itinerary clock fd = Some i ↔
    ∃ s1 s2 dep arr, fd !! "create_at" = Some s1 ∧ fd !! "flight_date" = Some s2 ∧
      fd !! "departure_time" = Some dep ∧ fd !! "arrival_time" = Some arr ∧
      to_datetime s1 = Parsed (created i) ∧ to_datetime s2 = Parsed (flies i) ∧
      departs i = clock (VStr dep) ∧ arrives i = clock (VStr arr).
Proof.
  unfold request_itinerary. split.
  - destruct (fd !! "create_at") as [s1|]; [|done].
    destruct (fd !! "flight_date") as [s2|]; [|done].
    destruct (fd !! "departure_time") as [dep|]; [|done].
    destruct (fd !! "arrival_time") as [arr|]; [|done]. simpl.
    destruct (to_datetime s1) eqn:E1; try done.
    destruct (to_datetime s2) eqn:E2; try done.
    intros [= <-]. by eexists _, _, _, _.
  - intros (s1 & s2 & dep & arr & -> & -> & -> & -> & Ht1 & Ht2 & Hd & Ha). simpl.
    rewrite Ht1, Ht2. destruct i; simpl in *. by subst.
Qed.

(** The itinerary the method reads from a request is the one training
    would read, with 0 for an unreadable clock field. *)
Lemma request_itinerary_served fd i :
  request_itinerary train_clock fd = Some i →
  request_itinerary serve_clock fd = Some (served i).
Proof.
  rewrite !request_itinerary_Some.
  intros (s1 & s2 & dep & arr & ? & ? & ? & ? & ? & ? & Hd & Ha).
  exists s1, s2, dep, arr. simpl. by rewrite Hd, Ha.
Qed.

(** The statements of lines 360-409 compute the derived columns of the
    request's itinerary. *)
Lemma request_features fd i :
  request_itinerary serve_clock fd = Some i →
  calendar_features_input (frame_of fd) ≫= time_features_input =
    Ok (engineered i (parsed_request fd i)).
Proof.
  intros (s1 & s2 & dep & arr & H1%frame_of_lookup & H2%frame_of_lookup &
    Hd%frame_of_lookup & Ha%frame_of_lookup & Ht1%to_datetime_cell_Parsed &
    Ht2%to_datetime_cell_Parsed & Hdi & Hai)%request_itinerary_Some.
  destruct i as [t1 t2 d a]. simpl in *. subst d a.
  unfold parsed_request. simpl. generalize dependent (frame_of fd).
  intros r0 H1 H2 Hd Ha. unfold calendar_features_input.
  erewrite assign_on1; [|exact H1|exact Ht1]. simpl.
  erewrite assign_on1; [|by simplify_map_eq|exact Ht2]. simpl.
  do 8 assign_step. unfold time_features_input.
  assign_with ltac:(apply categorize_advance_booking_input_bucket).
  do 2 assign_with ltac:(by rewrite time_to_minutes_input_cell).
  assign_with ltac:(apply flight_duration_input_VInt).
  assign_with ltac:(apply categorize_time_of_day_input_VInt). reflexivity.
Qed.

End request_lemmas.

Section predictor_lemmas.
Context `{Regressor} `{DatetimeParser}.
Implicit Types (self : FlightPricePredictor) (le : LabelEncoder).

(** ** The encoding fallback *)

Lemma transform_or_default_seen le s c :
  Encoder.encode le s = Ok c → transform_or_default le (VStr s) = Ok (VInt c).
Proof. unfold transform_or_default. simpl. by intros ->. Qed.

Lemma transform_or_default_unseen le s :
  s ∉ classes_ le → transform_or_default le (VStr s) = Ok (VInt 0).
Proof.
  intros Hs%encode_unseen. unfold transform_or_default. simpl. by rewrite Hs.
Qed.

(** ** Clipping *)

Lemma clip_prediction_numeric (stats : gmap string val) lo hi p :
  stats !! "min" = Some (VFloat lo) → stats !! "max" = Some (VFloat hi) →
  clip_prediction (Some stats) p = Ok (VFloat (clip p (min_price lo) (max_price hi))).
Proof.
  intros Hlo Hhi. unfold clip_prediction.
  destruct (decide (stats = ∅)) as [->|_]; [by rewrite lookup_empty in Hlo|].
  unfold getitem. by rewrite Hlo, Hhi.
Qed.

(** ** The input vector *)

Lemma input_vector_Ok self (r : row) columns vs :
  feature_columns self = Some columns →
  Forall2 (λ c v, r !! c = Some v) columns vs →
  input_vector self r = Ok (fillna0 <$> vs).
Proof.
  intros Hc Hvs. unfold input_vector. rewrite Hc. simpl.
  by rewrite (proj2 (select_Ok columns r vs) Hvs).
Qed.

Lemma model_predict_Ok (m : model) vs xs :
  Forall2 (λ v x, to_float v = Ok x) vs xs → length xs = n_features_in_ m →
  model_predict m vs = Ok (predict_one m xs).
Proof.
  intros Hvs Hn. unfold model_predict.
  rewrite (proj2 (result_mapM_Forall2 to_float vs xs) Hvs). simpl.
  by apply predict_Ok.
Qed.

End predictor_lemmas.

(** ** Serving a complete request *)

Section serving_lemmas.
Context `{Regressor} `{DatetimeParser}.
Implicit Types (self : FlightPricePredictor) (le : LabelEncoder).

Lemma transform_or_default_VStr le s :
  ∃ z, transform_or_default le (VStr s) = Ok (VInt z).
Proof.
  destruct (decide (s ∈ classes_ le)) as [[c Hc]%encode_seen|Hs].
  - exists c. by apply transform_or_default_seen.
  - exists 0. by apply transform_or_default_unseen.
Qed.

Lemma popularity_features_input_Ok self (r : row) fn vr va :
  r !! "flight_number" = Some (VStr fn) →
  route_popularity_stats self !! "mean" = Some vr →
  airline_popularity_stats self !! "mean" = Some va →
  popularity_features_input self r =
    Ok (<["airline_popularity" := va]> (<["airline" := VStr (str_take 2 fn)]>
          (<["route_popularity" := vr]> r))).
Proof.
  intros Hfn Hr Ha. unfold popularity_features_input, assign, getitem.
  rewrite Hr. simpl. unfold on1, col. rewrite lookup_insert_ne by done.
  rewrite Hfn. simpl. by rewrite Ha.
Qed.

(** One turn of the encoder loop: a text column with an encoder gains its
    code, and nothing else changes; without the column or without the
    encoder the row is left as it is. *)
Lemma encode_column_row encoders c (r : row) :
  r !! c = None ∨ (∃ s, r !! c = Some (VStr s)) →
  ∃ r', encode_column encoders c r = Ok r' ∧
    (∀ c', c' ≠ encoded_name c → r' !! c' = r !! c') ∧
    (is_Some (encoders !! c) → is_Some (r !! c) →
     ∃ z, r' !! encoded_name c = Some (VInt z)) ∧
    (encoders !! c = None ∨ r !! c = None → r' = r).
Proof.
  intros Hc. unfold encode_column. destruct (encoders !! c) as [le|].
  - destruct Hc as [Hc|[s Hc]].
    + assert (has_col c r = false) as ->
        by (unfold has_col; rewrite Hc; apply bool_decide_eq_false_2; by intros [? ?]).
      exists r. split_and!; [done..| |done]. rewrite Hc. by intros _ [? ?].
    + rewrite (proj2 (has_col_spec c r)) by (by eexists).
      destruct (transform_or_default_VStr le s) as [z Hz].
      exists (<[encoded_name c := VInt z]> r). unfold assign, on1, col. rewrite Hc. simpl.
      rewrite Hz. simpl. split_and!; [done| | |].
      * intros c' Hc'. by rewrite lookup_insert_ne.
      * intros _ _. exists z. apply lookup_insert_eq.
      * intros [?|?]; congruence.
  - exists r. split_and!; [done..| |done]. by intros [? ?].
Qed.

Lemma encode_columns_row encoders cs : ∀ (r : row),
  (∀ c, c ∈ cs → r !! c = None ∨ ∃ s, r !! c = Some (VStr s)) →
  NoDup (cs ++ (encoded_name <$> cs)) →
  ∃ r', encode_columns encoders cs r = Ok r' ∧
    (∀ c, c ∉ (encoded_name <$> cs) → r' !! c = r !! c) ∧
    (∀ c, c ∈ cs → is_Some (encoders !! c) → is_Some (r !! c) →
          ∃ z, r' !! encoded_name c = Some (VInt z)) ∧
    (∀ c, c ∈ cs → encoders !! c = None ∨ r !! c = None →
          r' !! encoded_name c = r !! encoded_name c).
Proof.
  induction cs as [|c cs IH]; intros r Htext Hnd.
  { exists r. split_and!; [done..| |]; by intros ? ?%elem_of_nil. }
  simpl in Hnd. apply NoDup_cons in Hnd as [Hc1 Hnd].
  apply not_elem_of_app in Hc1 as [Hc1 Hc2]. apply not_elem_of_cons in Hc2 as [Hc2 Hc3].
  apply NoDup_app in Hnd as (Hnd1 & Hdisj & Hnd2). apply NoDup_cons in Hnd2 as [Hc4 Hnd2].
  destruct (encode_column_row encoders c r) as (r1 & H1 & Hne1 & Henc1 & Hid1);
    [apply Htext; by left|].
  assert (∀ c', c' ∈ cs → r1 !! c' = r !! c') as Hcs.
  { intros c' Hc'. apply Hne1. intros ->. eapply Hdisj; [done|by left]. }
  assert (∀ c', c' ∈ cs → r1 !! encoded_name c' = r !! encoded_name c') as Hecs.
  { intros c' Hc'. apply Hne1. intros He. apply Hc4. rewrite <-He.
    by apply list_elem_of_fmap_2. }
  destruct (IH r1) as (r' & H2 & Hne2 & Henc2 & Hid2).
  { intros c' Hc'. rewrite Hcs by done. apply Htext. by right. }
  { apply NoDup_app. split_and!; [done| |done].
    intros x Hx Hx'. eapply Hdisj; [done|by right]. }
  exists r'. simpl. rewrite H1. simpl. split_and!; [done| | |].
  - intros c' [Hc' Hc'']%not_elem_of_cons. rewrite Hne2, Hne1; done.
  - intros c' [->|Hc']%elem_of_cons Hsome Hcol.
    + rewrite Hne2 by done. by apply Henc1.
    + apply Henc2; [done..|]. by rewrite Hcs.
  - intros c' [->|Hc']%elem_of_cons Hnone.
    + rewrite Hne2 by done. by rewrite (Hid1 Hnone).
    + rewrite Hid2, Hecs; [done..|]. by rewrite Hcs.
Qed.

(** A field of a request is a column of its feature row, as a text. *)
Lemma request_column fd i c :
  c ∉ derived_names → c ≠ "create_at" → c ≠ "flight_date" →
  engineered i (parsed_request fd i) !! c = VStr <$> fd !! c.
Proof.
  intros Hd H1 H2. rewrite engineered_lookup_ne by done. unfold parsed_request.
  rewrite !lookup_insert_ne by done. unfold frame_of. apply lookup_fmap.
Qed.

(** The feature row of a request whose timestamps parse and which names a
    flight.  A feature column that is not an encoded one holds a number;
    an encoded column holds a code when its field and its encoder exist,
    and is otherwise what the request holds under that name. *)
Lemma input_features_row self fd :
  is_Some (request_itinerary serve_clock fd) → is_Some (fd !! "flight_number") →
  number_at "mean" (route_popularity_stats self) = true →
  number_at "mean" (airline_popularity_stats self) = true →
  ∃ r, input_features self fd = Ok r ∧
    (∀ c, c ∈ all_feature_columns → c ∉ (encoded_name <$> categorical_cols) →
          ∃ v, r !! c = Some v ∧ is_number v = true) ∧
    (∀ c, c ∈ categorical_cols → is_Some (label_encoders self !! c) →
          c = "airline" ∨ is_Some (fd !! c) →
          ∃ z, r !! encoded_name c = Some (VInt z)) ∧
    (∀ c, c ∈ categorical_cols →
          label_encoders self !! c = None ∨ (c ≠ "airline" ∧ fd !! c = None) →
          r !! encoded_name c = VStr <$> fd !! encoded_name c).
Proof.
  intros [i Hi] [fn Hfn] (vr & Hr & Hvr)%number_at_Some (va & Ha & Hva)%number_at_Some.
  pose proof (request_features fd i Hi) as (r1 & Hcal & Htime)%bind_Ok_inv.
  set (r0 := engineered i (parsed_request fd i)) in *.
  assert (∀ c, c ∈ (request_fields ++ (encoded_name <$> categorical_cols))%list →
               r0 !! c = VStr <$> fd !! c ∧ c ≠ "route_popularity" ∧ c ≠ "airline" ∧
               c ≠ "airline_popularity") as Hfield.
  { intros c Hc.
    assert (Forall (λ c, (c ∉ derived_names) ∧ c ≠ "create_at" ∧ c ≠ "flight_date" ∧
                         c ≠ "route_popularity" ∧ c ≠ "airline" ∧
                         c ≠ "airline_popularity")
              (request_fields ++ (encoded_name <$> categorical_cols))%list) as Hn
      by compute_done.
    destruct (proj1 (Forall_forall _ _) Hn c Hc) as (? & ? & ? & ? & ? & ?).
    split_and!; [by apply request_column|done..]. }
  assert (r0 !! "flight_number" = Some (VStr fn)) as Hfn0.
  { destruct (Hfield "flight_number") as [-> _]; [compute_done|]. by rewrite Hfn. }
  pose proof (popularity_features_input_Ok self r0 fn vr va Hfn0 Hr Ha) as Hpop.
  set (r2 := <["airline_popularity" := va]> _) in Hpop.
  assert (∀ c, c ∈ (request_fields ++ (encoded_name <$> categorical_cols))%list →
               r2 !! c = VStr <$> fd !! c) as Hfield2.
  { intros c (<- & ? & ? & ?)%Hfield. subst r2. by rewrite !lookup_insert_ne. }
  assert (r2 !! "airline" = Some (VStr (str_take 2 fn))) as Hair.
  { subst r2. rewrite lookup_insert_ne by done. apply lookup_insert_eq. }
  assert (∀ c, c ∈ categorical_cols → c = "airline" ∨ c ≠ "airline" ∧ c ∈ request_fields)
    as Hcat by (apply Forall_forall; compute_done).
  destruct (encode_columns_row (label_encoders self) categorical_cols r2)
    as (r & Henc & Hne & Hcode & Hid); [|compute_done|].
  { intros c [->|[_ Hc]]%Hcat; [right; by eexists|].
    rewrite Hfield2 by (apply elem_of_app; by left).
    destruct (fd !! c) as [s|]; [right; by exists s|by left]. }
  exists r. split_and!.
  - unfold input_features. rewrite Hcal. simpl. rewrite Htime. simpl.
    rewrite Hpop. simpl. exact Henc.
  - intros c Hc Hn. rewrite (Hne c Hn).
    assert (Forall (λ c, c ∈ (encoded_name <$> categorical_cols) ∨
              c = "route_popularity" ∨ c = "airline_popularity" ∨
              c ∈ derived_names ∧ c ≠ "route_popularity" ∧ c ≠ "airline" ∧
              c ≠ "airline_popularity") all_feature_columns) as Hall by compute_done.
    destruct (proj1 (Forall_forall _ _) Hall c Hc) as [?|[->|[->|(Hd & ? & ? & ?)]]];
      [done| | |]; subst r2.
    + exists vr. split; [|done]. rewrite !lookup_insert_ne by done.
      apply lookup_insert_eq.
    + exists va. split; [apply lookup_insert_eq|done].
    + rewrite !lookup_insert_ne by done. by apply engineered_number.
  - intros c Hc Hle Hfd. apply Hcode; [done..|].
    destruct (Hcat c Hc) as [->|[Hna Hrf]]; [by rewrite Hair|].
    rewrite Hfield2 by (apply elem_of_app; by left).
    destruct Hfd as [?|[s ->]]; [done|by eexists].
  - intros c Hc Hnone. rewrite Hid; [|done|].
    + apply Hfield2, elem_of_app. right. by apply list_elem_of_fmap_2.
    + destruct Hnone as [?|[Hna Hfd]]; [by left|right].
      destruct (Hcat c Hc) as [?|[_ Hrf]]; [done|].
      rewrite Hfield2 by (apply elem_of_app; by left). by rewrite Hfd.
Qed.

(** The feature row of a complete request: every feature column holds a
    number, an encoded column provided its encoder exists. *)
Lemma input_features_Ok self fd :
  complete fd →
  number_at "mean" (route_popularity_stats self) = true →
  number_at "mean" (airline_popularity_stats self) = true →
  ∃ r, input_features self fd = Ok r ∧
    ∀ c, c ∈ all_feature_columns →
      (∀ c0, c0 ∈ categorical_cols → c = encoded_name c0 →
             is_Some (label_encoders self !! c0)) →
      ∃ v, r !! c = Some v ∧ is_number v = true.
Proof.
  intros [Hi Hfields] Hr Ha.
  destruct (input_features_row self fd Hi) as (r & Hrow & Hnum & Hcode & _);
    [by apply (proj1 (Forall_forall _ _) Hfields); compute_done|done..|].
  exists r. split; [done|]. intros c Hc Hle.
  destruct (decide (c ∈ encoded_name <$> categorical_cols))
    as [(c0 & -> & Hc0)%list_elem_of_fmap|Hn]; [|by apply Hnum].
  destruct (Hcode c0 Hc0 (Hle c0 Hc0 eq_refl)) as [z Hz]; [|by exists (VInt z)].
  assert (∀ c, c ∈ categorical_cols → c = "airline" ∨ c ∈ request_fields)
    as Hcat by (apply Forall_forall; compute_done).
  destruct (Hcat c0 Hc0) as [?|Hrf]; [by left|right].
  by apply (proj1 (Forall_forall _ _) Hfields).
Qed.

(** Clipping does not fail when the bounds are numbers. *)
Lemma clip_prediction_total stats p :
  clip_ready stats = true →
  ∃ v, clip_prediction stats p = Ok v ∧ is_number v = true.
Proof.
  unfold clip_ready, clip_prediction. destruct stats as [stats|]; [|by eexists].
  destruct (decide (stats = ∅)) as [->|Hne]; [by eexists|].
  rewrite bool_decide_eq_false_2 by done. simpl.
  intros [(lo & Hlo & Hnlo)%number_at_Some (hi & Hhi & Hnhi)%number_at_Some]%andb_true_iff.
  unfold getitem. rewrite Hlo, Hhi. simpl.
  apply is_number_as_number in Hnlo as [qlo ->], Hnhi as [qhi ->]. simpl.
  eexists. split; [done|]. by destruct qlo, qhi.
Qed.

(** What [ready] says. *)
Lemma ready_spec self :
  ready self = true ↔
  ∃ m columns, best_model self = Some m ∧ feature_columns self = Some columns ∧
    n_features_in_ m = length columns ∧ columns ⊆ all_feature_columns ∧
    (∀ c, c ∈ categorical_cols → encoded_name c ∈ columns →
          is_Some (label_encoders self !! c)) ∧
    number_at "mean" (route_popularity_stats self) = true ∧
    number_at "mean" (airline_popularity_stats self) = true ∧
    clip_ready (price_stats self) = true.
Proof.
  unfold ready. destruct (best_model self) as [m|]; [|naive_solver].
  destruct (feature_columns self) as [columns|]; [|naive_solver].
  rewrite !andb_true_iff, bool_decide_eq_true, !forallb_decide. split.
  - intros (((((? & ?) & ?) & ?) & ?) & ?). by exists m, columns.
  - by intros (? & ? & [= <-] & [= <-] & ? & ? & ? & ? & ? & ?).
Qed.

(** On a ready object a complete request reaches the model: the method
    returns the clipped output of the model on a vector of the width the
    model expects. *)
Lemma predict_ready self fd :
  ready self = true → complete fd →
  ∃ m xs, best_model self = Some m ∧ length xs = n_features_in_ m ∧
    predict_single_flight self fd = clip_prediction (price_stats self) (predict_one m xs).
Proof.
  intros (m & columns & Hm & Hcols & Hn & Hsub & Henc & Hr & Ha & _)%ready_spec Hfd.
  destruct (input_features_Ok self fd Hfd Hr Ha) as (r & Hrow & Hcells).
  assert (Forall (λ c, ∃ v, r !! c = Some v ∧ is_number v = true) columns) as Hnum.
  { apply Forall_forall. intros c Hc. apply Hcells; [by apply Hsub|].
    intros c0 Hc0 ->. by apply Henc. }
  destruct (select_total columns r) as [vs Hvs].
  { eapply Forall_impl; [exact Hnum|]. by intros c (v & -> & _). }
  destruct (result_mapM_total to_float (fillna0 <$> vs)) as [xs Hxs].
  { apply Forall_fmap. apply select_Ok in Hvs.
    apply Forall_forall. intros v Hv. apply list_elem_of_lookup in Hv as [k Hv].
    destruct (Forall2_lookup_r _ _ _ _ _ Hvs Hv) as (c & Hc & Hcv).
    eapply Forall_lookup_1 in Hnum as (v' & Hv' & Hnv); [|exact Hc].
    apply to_float_fillna0. congruence. }
  assert (length xs = n_features_in_ m) as Hlen.
  { apply result_mapM_length in Hxs. apply select_length in Hvs.
    rewrite length_fmap in Hxs. congruence. }
  exists m, xs. split_and!; [done..|]. unfold predict_single_flight. rewrite Hm. simpl.
  rewrite Hrow. simpl. unfold input_vector. rewrite Hcols. simpl. rewrite Hvs. simpl.
  unfold model_predict. rewrite Hxs. simpl. by rewrite predict_Ok.
Qed.

End serving_lemmas.

(** * Properties *)

Section predictor_properties.
Context `{Regressor} `{DatetimeParser}.
Implicit Types (self : FlightPricePredictor) (le : LabelEncoder).

(** C20: Predicting before a model is trained or loaded is refused: the
    method raises its [ValueError] whatever the request, and computes
    nothing. *)
Theorem predict_without_model self flight_data :
  best_model self = None →
  predict_single_flight self flight_data = Raise no_model_error.
Proof. intros Hm. unfold predict_single_flight. by rewrite Hm. Qed.

(** C8: A ready object answers every complete request.  With a model that
    expects the feature columns, an encoder for each encoded column among
    them, the two popularity means and price statistics the clipping can
    read, the method does not raise on a request that carries its nine
    fields with timestamps that parse, whatever the texts of the other
    fields (labels never seen in training and unreadable clock times
    included): it returns a number, or the missing value when a bound of
    the statistics is missing. *)
Theorem predict_total self flight_data :
  ready self = true → complete flight_data →
  ∃ v, predict_single_flight self flight_data = Ok v ∧ is_number v = true.
Proof.
  intros Hready Hfd.
  destruct (predict_ready self flight_data Hready Hfd) as (m & xs & _ & _ & ->).
  apply clip_prediction_total.
  by apply ready_spec in Hready as (? & ? & _ & _ & _ & _ & _ & _ & _ & ?).
Qed.

(** C16: The encoding at inference never fails on a text: a label of the
    training vocabulary gets its code, and a label outside it gets the
    fallback code 0. *)
Theorem transform_or_default_total le s :
  ∃ c, transform_or_default le (VStr s) = Ok (VInt c) ∧
       (s ∈ classes_ le → Encoder.encode le s = Ok c) ∧
       (s ∉ classes_ le → c = 0).
Proof.
  destruct (decide (s ∈ classes_ le)) as [Hin|Hnin].
  - destruct (proj1 (encode_seen le s) Hin) as [c Hc]. exists c.
    split_and!; [by apply transform_or_default_seen | done | done].
  - exists 0. split_and!; [by apply transform_or_default_unseen | done | done].
Qed.

(** C34: The fallback code is not reserved: on a fitted encoder with a
    vocabulary, a label never seen in training receives code 0, which is
    also the code of the least label of the vocabulary, so the model cannot
    tell the two apart. *)
Theorem fallback_collides le y0 ys s :
  fitted le → classes_ le = y0 :: ys → s ∉ classes_ le →
  s ≠ y0 ∧
  transform_or_default le (VStr s) = transform_or_default le (VStr y0).
Proof.
  intros Hle Hcl Hs. split; [rewrite Hcl in Hs; set_solver|].
  rewrite (transform_or_default_unseen le s Hs).
  symmetry. apply transform_or_default_seen.
  apply encode_Ok_NoDup; [by apply fitted_NoDup | by rewrite Hcl].
Qed.

Lemma fallback_collides_witness :
  "PQC" ≠ "DAD" ∧
  transform_or_default (fit ["HAN"; "SGN"; "DAD"]) (VStr "PQC")
    = transform_or_default (fit ["HAN"; "SGN"; "DAD"]) (VStr "DAD").
Proof.
  apply (fallback_collides _ "DAD" ["HAN"; "SGN"]);
    [apply fit_fitted | reflexivity | compute_done].
Defined.

(** C12: Clipping bounds: with training minimum [lo] and maximum [hi] such
    that the floor [max(lo, 100000)] does not exceed the ceiling
    [min(hi, 50000000)], the returned price lies between floor and ceiling;
    a raw output at or below the floor returns the floor, one at or above
    the ceiling returns the ceiling, and one in between passes unchanged. *)
Theorem clip_prediction_bounds (stats : gmap string val) lo hi p :
  stats !! "min" = Some (VFloat lo) → stats !! "max" = Some (VFloat hi) →
  (min_price lo <= max_price hi)%Q →
  ∃ x, clip_prediction (Some stats) p = Ok (VFloat x) ∧
       (min_price lo <= x <= max_price hi)%Q ∧
       ((p <= min_price lo)%Q → (x == min_price lo)%Q) ∧
       ((max_price hi <= p)%Q → (x == max_price hi)%Q) ∧
       ((min_price lo <= p <= max_price hi)%Q → (x == p)%Q).
Proof.
  intros Hlo Hhi Hle. eexists. split; [by apply clip_prediction_numeric|].
  split_and!; [by apply clip_between.. | by apply clip_below
              | by apply clip_above | by apply clip_inside].
Qed.

Lemma clip_prediction_bounds_witness :
  ∃ x, clip_prediction
         (Some (<["min" := VFloat 500000]> (<["max" := VFloat 9000000]> ∅))) 42
         = Ok (VFloat x) ∧
       (min_price 500000 <= x <= max_price 9000000)%Q ∧
       ((42 <= min_price 500000)%Q → (x == min_price 500000)%Q) ∧
       ((max_price 9000000 <= 42)%Q → (x == max_price 9000000)%Q) ∧
       ((min_price 500000 <= 42 <= max_price 9000000)%Q → (x == 42)%Q).
Proof.
  apply (clip_prediction_bounds _ 500000 9000000);
    [reflexivity | reflexivity | compute_done].
Defined.

(** C36: When the training prices are degenerate, so that the floor exceeds
    the ceiling (a training maximum below 100000, or a training minimum
    above 50000000), every prediction is the ceiling, also a raw output
    below the floor. *)
Theorem clip_prediction_crossed (stats : gmap string val) lo hi p :
  stats !! "min" = Some (VFloat lo) → stats !! "max" = Some (VFloat hi) →
  (max_price hi < min_price lo)%Q →
  ∃ x, clip_prediction (Some stats) p = Ok (VFloat x) ∧ (x == max_price hi)%Q.
Proof.
  intros Hlo Hhi Hlt. eexists. split; [by apply clip_prediction_numeric|].
  apply clip_crossed. by apply Qlt_le_weak.
Qed.

Lemma clip_prediction_crossed_witness :
  ∃ x, clip_prediction
         (Some (<["min" := VFloat 20000]> (<["max" := VFloat 90000]> ∅))) 1
         = Ok (VFloat x) ∧ (x == max_price 90000)%Q.
Proof.
  apply (clip_prediction_crossed _ 20000 90000);
    [reflexivity | reflexivity | compute_done].
Defined.

(** C37: Without price statistics (an attribute that is [None], or the empty
    dictionary an older artifact loads as) the raw output of the model is
    returned unclipped. *)
Theorem clip_prediction_no_stats p :
  clip_prediction None p = Ok (VFloat p) ∧
  clip_prediction (Some ∅) p = Ok (VFloat p).
Proof. done. Qed.

(** C35: A feature column that the request row lacks is not filled with 0.
    The selection of the feature columns either finds every column in the
    row, and then the vector is the cells of the row in the order of
    [feature_columns] with the missing values replaced by 0, or it raises
    [KeyError] naming a feature column that the row lacks. *)
Theorem input_vector_missing_column self (r : row) columns :
  feature_columns self = Some columns →
  (∃ vs, Forall2 (λ c v, r !! c = Some v) columns vs ∧
         input_vector self r = Ok (fillna0 <$> vs)) ∨
  (∃ c, c ∈ columns ∧ r !! c = None ∧ input_vector self r = Raise (KeyError c)).
Proof.
  intros Hc. unfold input_vector. rewrite Hc. simpl.
  destruct (Frame.select columns r) as [vs|e] eqn:E; simpl.
  - left. exists vs. by apply select_Ok in E.
  - right. apply select_KeyError in E as (c & -> & ? & ?). by exists c.
Qed.

(** C24: A request that omits a text field is not served with a 0 in its
    place.  On a ready object, for a request whose timestamps parse and
    which names a flight, when a field whose encoded column is a feature
    is absent (and the request holds nothing under the name of that
    column), the encoder loop skips the field, no encoded column is made,
    and the method raises [KeyError] naming the encoded column of an
    absent field. *)
Theorem predict_missing_field self flight_data columns c :
  ready self = true → feature_columns self = Some columns →
  is_Some (request_itinerary serve_clock flight_data) →
  is_Some (flight_data !! "flight_number") →
  c ∈ request_fields → encoded_name c ∈ columns →
  flight_data !! c = None → flight_data !! encoded_name c = None →
  ∃ c', c' ∈ request_fields ∧ encoded_name c' ∈ columns ∧ flight_data !! c' = None ∧
    predict_single_flight self flight_data = Raise (KeyError (encoded_name c')).
Proof.
  intros (m & cols & Hm & Hcols & _ & Hsub & Henc & Hr & Ha & _)%ready_spec Hc'
    Hi Hfn Hc Hin Hnone Hnone'.
  rewrite Hc' in Hcols. injection Hcols as <-.
  destruct (input_features_row self flight_data Hi Hfn Hr Ha)
    as (r & Hrow & Hnum & Hcode & Hid).
  assert (∀ c, c ∈ request_fields → c ∈ categorical_cols ∧ c ≠ "airline")
    as Hrf by (apply Forall_forall; compute_done).
  unfold predict_single_flight. rewrite Hm. simpl. rewrite Hrow. simpl.
  unfold input_vector. rewrite Hc'. simpl.
  destruct (Frame.select columns r) as [vs|e] eqn:Hsel; simpl.
  { apply select_Ok in Hsel. apply list_elem_of_lookup in Hin as [k Hk].
    destruct (Forall2_lookup_l _ _ _ _ _ Hsel Hk) as (v & _ & Hv).
    destruct (Hrf c Hc) as [Hcc Hna]. rewrite Hid, Hnone' in Hv; [done..|].
    right. by split. }
  apply select_KeyError in Hsel as (c1 & -> & Hc1 & Hr1).
  destruct (decide (c1 ∈ encoded_name <$> categorical_cols))
    as [(c0 & -> & Hc0)%list_elem_of_fmap|Hn].
  2:{ destruct (Hnum c1) as (v & Hv & _); [by apply Hsub|done|congruence]. }
  assert (c0 ≠ "airline" ∧ flight_data !! c0 = None) as [Hna Hfd].
  { destruct (decide (c0 = "airline")) as [->|Hna];
      [|destruct (flight_data !! c0) as [s|] eqn:Hs; [|done]];
      (destruct (Hcode _ Hc0) as [z Hz]; [by apply Henc| |congruence]);
      [by left|right; by rewrite Hs]. }
  exists c0. split_and!; [|done..].
  assert (∀ c, c ∈ categorical_cols → c = "airline" ∨ c ∈ request_fields)
    as Hcat by (apply Forall_forall; compute_done).
  by destruct (Hcat c0 Hc0).
Qed.

(** C1: Training and serving derive the same row-wise features.  A table
    row and a request that stand for the same itinerary, with readable
    clock times, get the same value in each of the thirteen derived
    columns, although the two methods run separate copies of the code. *)
Theorem train_predict_agree (r : row) flight_data i :
  itinerary_of train_clock r = Some i →
  request_itinerary train_clock flight_data = Some i →
  is_Some (departs i) → is_Some (arrives i) →
  ∃ r1 r2, row_features r = Ok r1 ∧
    calendar_features_input (frame_of flight_data) ≫= time_features_input = Ok r2 ∧
    ∀ c, c ∈ derived_names → r1 !! c = r2 !! c.
Proof.
  intros Hr Hfd Hd Ha.
  exists (engineered i r), (engineered i (parsed_request flight_data i)).
  split_and!; [by apply row_features_engineered| |
    intros c; apply engineered_lookup_derived].
  rewrite <-(served_readable i) at 1 2 by done.
  by apply request_features, request_itinerary_served.
Qed.

(** C29: An unreadable departure time is the one case where the two paths
    part: training leaves the minutes and the duration missing, so the row
    is masked out of the feature matrix, while a request gets 0 minutes and
    a duration counted from midnight. *)
Theorem unreadable_clock_differs (r : row) flight_data i :
  itinerary_of train_clock r = Some i →
  request_itinerary train_clock flight_data = Some i →
  departs i = None →
  ∃ r1 r2, row_features r = Ok r1 ∧
    calendar_features_input (frame_of flight_data) ≫= time_features_input = Ok r2 ∧
    r1 !! "departure_minutes" = Some VNull ∧
    r2 !! "departure_minutes" = Some (VInt 0) ∧
    r1 !! "flight_duration" = Some VNull ∧
    r2 !! "flight_duration" = Some (VInt (duration (default 0 (arrives i)) 0)).
Proof.
  intros Hr Hfd Hd.
  exists (engineered i r),
    (engineered (served i) (parsed_request flight_data (served i))).
  split_and!; [by apply row_features_engineered|
    by apply request_features, request_itinerary_served|..];
    apply engineered_lookup; destruct i as [t1 t2 d [a|]]; simpl in *; subst d;
    unfold derived_columns; simpl; repeat first [left; done | right].
Qed.

End predictor_properties.

(** * Concrete runs *)

(** A stand-in for a fitted regressor with twenty features: the sum of the
    feature vector. *)
Definition sum_regressor : Regressor :=
  {| model := unit; n_features_in_ := λ _, 20%nat; predict_one := λ _ xs, qsum xs |}.

(** [flight1], [flight2] and [flight3] of [demo_predictions], lines 454-488 *)
Definition flight1 : gmap string string :=
  list_to_map
    [("flight_number", "VJ1198"); ("departure_airport", "SGN");
     ("arrival_airport", "HAN"); ("departure_time", "08:00");
     ("arrival_time", "10:15"); ("classes", "Eco");
     ("type_of_plane", "Airbus A321"); ("create_at", "2024-01-15 10:30:00");
     ("flight_date", "2024-01-20T08:00:00")].

Definition flight2 : gmap string string :=
  list_to_map
    [("flight_number", "VJ124"); ("departure_airport", "SGN");
     ("arrival_airport", "HAN"); ("departure_time", "14:30");
     ("arrival_time", "16:45"); ("classes", "Eco");
     ("type_of_plane", "Airbus A320"); ("create_at", "2024-01-01 09:00:00");
     ("flight_date", "2024-02-15T14:30:00")].

Definition flight3 : gmap string string :=
  list_to_map
    [("flight_number", "VJ196"); ("departure_airport", "SGN");
     ("arrival_airport", "HAN"); ("departure_time", "19:00");
     ("arrival_time", "21:15"); ("classes", "Business");
     ("type_of_plane", "Airbus A320"); ("create_at", "2024-01-18 15:20:00");
     ("flight_date", "2024-01-25T19:00:00")].

(** A request for a route, a carrier and an aircraft that training never
    saw, with an arrival time the reading rejects. *)
Definition flight_late : gmap string string :=
  list_to_map
    [("flight_number", "QH202"); ("departure_airport", "PQC");
     ("arrival_airport", "VCA"); ("departure_time", "23:10");
     ("arrival_time", "00h05"); ("classes", "Premium");
     ("type_of_plane", "Embraer E190"); ("create_at", "2024-03-01 07:45:00");
     ("flight_date", "2024-03-02T23:10:00")].

(** A predictor as training on a small table would leave it. *)
Definition trained_example : @FlightPricePredictor sum_regressor := {|
  csv_file := None; df := None; object_columns := []; X := None; y := None;
  scaler := RobustScaler; results := [];
  label_encoders :=
    list_to_map
      [("flight_number", fit ["VJ1198"; "VJ124"; "VN213"]);
       ("departure_airport", fit ["SGN"; "HAN"]);
       ("arrival_airport", fit ["HAN"; "DAD"; "SGN"]);
       ("classes", fit ["Eco"; "Business"]);
       ("type_of_plane", fit ["Airbus A321"; "Airbus A320"]);
       ("airline", fit ["VJ"; "VN"])];
  best_model := Some (tt : @model sum_regressor);
  model_type := Some "Random Forest";
  feature_columns := Some all_feature_columns;
  price_stats := Some (list_to_map [("min", VFloat 500000); ("max", VFloat 9000000)]);
  route_popularity_stats := list_to_map [("mean", VFloat (7 # 2)); ("std", VFloat 1)];
  airline_popularity_stats := list_to_map [("mean", VFloat 12); ("std", VFloat 4)]
|}.

Lemma predict_without_model_witness :
  predict_single_flight (H := sum_regressor) (init None) flight1
    = Raise no_model_error.
Proof. by apply predict_without_model. Defined.

Lemma predict_total_witness :
  ∃ v, predict_single_flight (H0 := iso_parser) trained_example flight_late = Ok v ∧
       is_number v = true.
Proof.
  apply (predict_total (H0 := iso_parser) trained_example flight_late);
    [vm_compute; reflexivity|].
  split; [eexists; vm_compute; reflexivity|compute_done].
Defined.

Lemma input_vector_missing_column_witness :
  ∃ c, c ∈ all_feature_columns ∧ frame_of (delete "classes" flight1) !! c = None ∧
    input_vector trained_example (frame_of (delete "classes" flight1)) =
      Raise (KeyError c).
Proof.
  by destruct (input_vector_missing_column trained_example
                 (frame_of (delete "classes" flight1)) all_feature_columns eq_refl)
    as [(vs & _ & Hv)|H].
Defined.

(** The first listing of the cleaned example table is the flight of the
    second demonstration request; [itinerary2] is what both stand for. *)
Definition listing2 : row := default ∅ (head cleaned_table).

Definition itinerary2 : itinerary :=
  Itinerary (Timestamp 2024 1 1 9 0 0 0) (Timestamp 2024 2 15 14 30 0 0)
    (Some 870) (Some 1005).

Lemma train_predict_agree_witness :
  ∃ r1 r2, row_features listing2 = Ok r1 ∧
    calendar_features_input (H0 := iso_parser) (frame_of flight2)
      ≫= time_features_input = Ok r2 ∧
    ∀ c, c ∈ derived_names → r1 !! c = r2 !! c.
Proof.
  apply (train_predict_agree (H0 := iso_parser) listing2 flight2 itinerary2);
    [vm_compute; reflexivity..|by eexists|by eexists].
Defined.

(** The same flight with a departure time the reading rejects. *)
Definition flight_unreadable : gmap string string :=
  <["departure_time" := "14h30"]> flight2.

Definition itinerary_unreadable : itinerary :=
  Itinerary (Timestamp 2024 1 1 9 0 0 0) (Timestamp 2024 2 15 14 30 0 0)
    None (Some 1005).

Lemma unreadable_clock_differs_witness :
  ∃ r1 r2, row_features (<["departure_time" := VStr "14h30"]> listing2) = Ok r1 ∧
    calendar_features_input (H0 := iso_parser) (frame_of flight_unreadable)
      ≫= time_features_input = Ok r2 ∧
    r1 !! "departure_minutes" = Some VNull ∧
    r2 !! "departure_minutes" = Some (VInt 0) ∧
    r1 !! "flight_duration" = Some VNull ∧
    r2 !! "flight_duration" = Some (VInt 1005).
Proof.
  apply (unreadable_clock_differs (H0 := iso_parser) _ flight_unreadable
           itinerary_unreadable); vm_compute; reflexivity.
Defined.

(** The feature vector of the second demonstration request, in the order
    of the feature columns: the codes of its six categorical fields, the
    calendar and clock features (45 days in advance, a 135-minute flight
    leaving at 14:30) and the two training means. *)
Example flight2_vector :
  (r ← input_features trained_example flight2; input_vector trained_example r)
  = Ok [VInt 1; VInt 1; VInt 1; VInt 1; VInt 0; VInt 0;
        VInt 9; VInt 0; VInt 1; VInt 2; VInt 3;
        VInt 45; VInt 870; VInt 135; VInt 0; VInt 0;
        VInt 2; VInt 1; VFloat (7 # 2); VFloat 12].
Proof. vm_compute. reflexivity. Qed.

Lemma predict_missing_field_witness :
  ∃ c', c' ∈ request_fields ∧ encoded_name c' ∈ all_feature_columns ∧
    delete "classes" flight2 !! c' = None ∧
    predict_single_flight (H0 := iso_parser) trained_example (delete "classes" flight2)
      = Raise (KeyError (encoded_name c')).
Proof.
  apply (predict_missing_field (H0 := iso_parser) trained_example
           (delete "classes" flight2) all_feature_columns "classes");
    [vm_compute; reflexivity | reflexivity | eexists; vm_compute; reflexivity
    | by eexists | compute_done | compute_done | reflexivity | reflexivity].
Defined.

(** The request of the second demonstration without its class: the
    [KeyError] names [classes_encoded]. *)
Example predict_without_classes :
  predict_single_flight trained_example (delete "classes" flight2)
    = Raise (KeyError "classes_encoded").
Proof. vm_compute. reflexivity. Qed.

(** The second demonstration request is booked 45 days ahead (category 2)
    and is clipped to the floor, the stand-in model's output being small. *)
Example predict_flight2 :
  predict_single_flight trained_example flight2 = Ok (VFloat 500000).
Proof. vm_compute. reflexivity. Qed.
