(* ===== verification/Pipeline.v ===== *)
(** * Pipeline driver

    [run_complete_pipeline], [analyze_data_distribution],
    [demo_predictions], the function [test_saved_model] and the script at
    the end of the file ([main_model.py:451-578]).  The stages run in the
    order of the code, each on the object the one before it left; an
    exception of a stage ends the run, and nothing is saved.  The pickle
    files are threaded through as a finite map ([Artifact.store]); the
    reports the functions print are returned as values. *)

From S2P Require Import Prelude PyText Calendar Frame Spec Encoder Stats State.
From S2P Require Import Cleaner Features Sklearn Trainer Artifact Predictor.
From Stdlib Require Import QArith Ascii String.
From stdpp Require Import base tactics option list strings numbers gmap.

#[local] Open Scope string_scope.
#[local] Open Scope list_scope.

(** The numbers [analyze_data_distribution] prints, lines 514-517. *)
Record distribution : Type := {
  total_records : nat;
  price_min : val;
  price_max : val;
  price_mean : val;
  price_median : val
}.

(** [test_flight], lines 553-563 *)
Definition test_flight : gmap string string :=
  list_to_map
    [("flight_number", "VJ1126"); ("departure_airport", "SGN");
     ("arrival_airport", "HAN"); ("departure_time", "08:10");
     ("arrival_time", "10:20"); ("classes", "Eco");
     ("type_of_plane", "Airbus A320"); ("create_at", "2025-06-23 22:13:00");
     ("flight_date", "2025-08-15T17:00:00.000")].

(** [demo_flights], lines 490-494 *)
Definition demo_flights : list (string * gmap string string) :=
  [("Economy SGN-HAN", flight1); ("book vé sớm", flight2);
   ("Business class", flight3)].

(** The path of the script, line 576. *)
Definition history_path : string :=
  "flightfare-predictiveScraping-model/result/flight_price_history.csv".

Section pipeline.
Context `{Learner} `{Shuffler} `{DatetimeParser} `{CsvReader}.

(** [analyze_data_distribution], lines 509-517: without a table it prints
    a question and returns. *)
Definition analyze_data_distribution (self : FlightPricePredictor) :
    result (option distribution) :=
  match df self with
  | None => Ok None
  | Some df =>
      cells ← column "price" df;
      xs ← numbers cells;
      Ok (Some {| total_records := length df;
                  price_min := stat_cell (qmin_list xs);
                  price_max := stat_cell (qmax_list xs);
                  price_mean := stat_cell (mean xs);
                  price_median := stat_cell (quantile (1 # 2) xs) |})
  end.

(** Lines 498-499: the days between the two timestamps of a request. *)
Definition advance_days (flight : gmap string string) : result val :=
  flight_date ← getitem "flight_date" flight;
  create_at ← getitem "create_at" flight;
  flight_date ← to_datetime_cell (VStr flight_date);
  create_at ← to_datetime_cell (VStr create_at);
  dt_days_between flight_date create_at.

(** [demo_predictions], lines 451-506: the price and the days in advance
    of each demonstration request; the first exception ends the loop. *)
Definition demo_predictions (self : FlightPricePredictor) :
    result (list (string * val * val)) :=
  result_mapM (λ nf : string * gmap string string,
    price ← predict_single_flight self nf.2;
    days ← advance_days nf.2;
    Ok (nf.1, price, days)) demo_flights.

(** [run_complete_pipeline], lines 531-545: the value it returns, the
    object and the files it leaves. *)
Definition run_complete_pipeline (self : FlightPricePredictor) (files : store) :
    result ((option model * list (string * evaluation)) *
            FlightPricePredictor * store) :=
  self ← load_and_preprocess_data self;
  _ ← analyze_data_distribution self;
  self ← feature_engineering self;
  self ← train_and_evaluate_models self;
  let files := save_model self default_filename files in
  Ok ((best_model self, results self), self, files).

(** [test_saved_model], lines 547-573: a failure to load is raised, a
    failure to predict is caught and printed. *)
Definition test_saved_model (files : store) : result (result val) :=
  predictor ← load_model (init None) default_filename files;
  Ok (predict_single_flight predictor test_flight).

(** The script, lines 575-578. *)
Definition main (files : store) : result (result val * store) :=
  '(_, _, files) ← run_complete_pipeline (init (Some history_path)) files;
  tested ← test_saved_model files;
  Ok (tested, files).

End pipeline.

(** * Lemmas *)

Section pipeline_lemmas.
Context `{Learner} `{Shuffler} `{DatetimeParser} `{CsvReader}.
Implicit Types (self : FlightPricePredictor) (files : store).

(** A prediction depends on the object through the bundle only. *)
Lemma predict_same_bundle s1 s2 flight_data :
  same_bundle s1 s2 →
  predict_single_flight s1 flight_data = predict_single_flight s2 flight_data.
Proof.
  unfold same_bundle, model_data. intros [= Hm _ Hc He _ Hp Hr Ha].
  unfold predict_single_flight, input_features, popularity_features_input, input_vector.
  by rewrite Hm, Hc, He, Hp, Hr, Ha.
Qed.

(** The stages of a run that returned. *)
Lemma run_complete_pipeline_Ok self files ret self' files' :
  run_complete_pipeline self files = Ok (ret, self', files') →
  ∃ s1 s2, load_and_preprocess_data self = Ok s1 ∧
    is_Ok (analyze_data_distribution s1) ∧
    feature_engineering s1 = Ok s2 ∧ train_and_evaluate_models s2 = Ok self' ∧
    ret = (best_model self', results self') ∧
    files' = save_model self' default_filename files.
Proof.
  unfold run_complete_pipeline. intros Hr.
  apply bind_Ok_inv in Hr as (s1 & Hs1 & Hr). apply bind_Ok_inv in Hr as (d & Hd & Hr).
  apply bind_Ok_inv in Hr as (s2 & Hs2 & Hr).
  apply bind_Ok_inv in Hr as (s3 & Hs3 & [= <- <- <-]).
  exists s1, s2. split_and!; try done. by exists d.
Qed.

Lemma test_saved_model_Ok self files :
  test_saved_model (save_model self default_filename files)
    = Ok (predict_single_flight self test_flight).
Proof.
  unfold test_saved_model.
  destruct (load_save self (init None) default_filename files) as (self' & -> & Hb).
  simpl. f_equal. symmetry. by apply predict_same_bundle.
Qed.

(** A run that returned leaves an object that can serve: each stage
    establishes its part of [ready] and the later stages keep it. *)
Lemma pipeline_ready self files ret self' files' :
  run_complete_pipeline self files = Ok (ret, self', files') →
  NoDup (results self).*1 → Forall (λ name, name ∈ models.*1) (results self).*1 →
  ready self' = true.
Proof.
  intros (s1 & s2 & Hload & _ & Hfe & Htrain & _)%run_complete_pipeline_Ok Hnd Hkeys.
  destruct (load_Ok _ _ Hload) as (df1 & stats & Hdf & Hcols & Hps & Hmin & Hmax & Hres1).
  destruct (feature_engineering_serves _ _ _ Hdf Hcols Hfe)
    as (columns & Xs & Hfc & HX & Hsub & Hlen & Henc).
  destruct (feature_engineering_stats _ _ Hfe) as (Hr & Ha & Hps2 & Hres2).
  destruct (train_frame _ _ Htrain) as (Hfc3 & Henc3 & Hps3 & Hr3 & Ha3).
  destruct (train_model_features s2 self' Xs (length columns) Htrain HX Hlen)
    as (m & Hm & Hn); [by rewrite Hres2, Hres1..|].
  apply ready_spec. exists m, columns.
  rewrite Hfc3, Henc3, Hps3, Hr3, Ha3, Hps2, Hps. split_and!; try done.
  - intros c Hc _. by apply Henc.
  - simpl. by rewrite Hmin, Hmax, orb_true_r.
Qed.
End pipeline_lemmas.

(** * Properties *)

Section pipeline_properties.
Context `{Learner} `{Shuffler} `{DatetimeParser} `{CsvReader}.
Implicit Types (self : FlightPricePredictor) (files : store).

(** C3: The model that is served is the model that was trained: after a
    run of the pipeline, a fresh object that loads the file the run wrote
    predicts, for every request, what the object of the run predicts; so
    does [test_saved_model] for its request. *)
Theorem saved_model_serves self files ret self' files' flight_data :
  run_complete_pipeline self files = Ok (ret, self', files') →
  test_saved_model files' = Ok (predict_single_flight self' test_flight) ∧
  ∃ predictor, load_model (init None) default_filename files' = Ok predictor ∧
    predict_single_flight predictor flight_data
      = predict_single_flight self' flight_data.
Proof.
  intros (s1 & s2 & _ & _ & _ & _ & _ & ->)%run_complete_pipeline_Ok.
  split; [by apply test_saved_model_Ok|].
  destruct (load_save self' (init None) default_filename files) as (p & Hp & Hb).
  exists p. split; [done|]. symmetry. by apply predict_same_bundle.
Qed.

(** C5: The pipeline leaves a predictor that answers.  When a run on a
    fresh object returns, the object it leaves, and every object that
    loads the file it wrote, serve each complete request without raising,
    with the same number (or the missing value); whatever stage could make
    serving fail has failed the run before. *)
Theorem pipeline_serves self files ret self' files' flight_data :
  run_complete_pipeline self files = Ok (ret, self', files') →
  results self = [] → complete flight_data →
  ∃ predictor v, load_model (init None) default_filename files' = Ok predictor ∧
    predict_single_flight predictor flight_data = Ok v ∧
    predict_single_flight self' flight_data = Ok v ∧ is_number v = true.
Proof.
  intros Hrun Hres Hfd.
  assert (ready self' = true) as Hready
    by (eapply pipeline_ready; [done|rewrite Hres; constructor..]).
  destruct (predict_ready self' flight_data Hready Hfd) as (m & xs & _ & _ & Hp).
  apply ready_spec in Hready as (_ & _ & _ & _ & _ & _ & _ & _ & _ & Hclip).
  destruct (clip_prediction_total _ (predict_one m xs) Hclip) as (v & Hv & Hn).
  apply run_complete_pipeline_Ok in Hrun as (_ & _ & _ & _ & _ & _ & _ & ->).
  destruct (load_save self' (init None) default_filename files) as (p & Hload & Hb).
  exists p, v. rewrite (predict_same_bundle p self') by done.
  by rewrite Hp.
Qed.
End pipeline_properties.

(** * Concrete runs *)

(** The table of a season: the nine listings of [Cleaner.history] and
    eight more. *)
Definition season : table :=
  history ++
  [listing "2024-01-02 08:15:00" "VJ1126" "Airbus A320" "SGN" "HAN"
           "2024-02-20T08:10:00" "08:10" "10:20" "Eco" 1350000;
   listing "2024-01-03 19:40:00" "VN213" "Airbus A321" "HAN" "SGN"
           "2024-01-09T06:00:00" "06:00" "08:10" "Eco" 1900000;
   listing "2024-01-04 11:05:00" "VN215" "Airbus A321" "HAN" "DAD"
           "2024-04-30T23:30:00" "23:30" "01:00" "Business" 2900000;
   listing "2024-01-06 21:30:00" "VJ124" "Airbus A320" "SGN" "HAN"
           "2024-01-12T14:30:00" "14:30" "16:45" "Eco" 1650000;
   listing "2024-01-07 06:50:00" "VJ196" "Airbus A320" "SGN" "HAN"
           "2024-03-15T19:00:00" "19:00" "21:15" "Eco" 1450000;
   listing "2024-01-08 13:20:00" "QH202" "Embraer 190" "SGN" "DAD"
           "2024-01-28T12:00:00" "12:00" "13:25" "Eco" 1100000;
   listing "2024-01-09 16:45:00" "QH204" "Embraer 190" "DAD" "SGN"
           "2024-02-09T20:10:00" "20:10" "21:35" "Eco" 1150000;
   listing "2024-01-13 09:10:00" "VJ1198" "Airbus A321" "SGN" "HAN"
           "2024-01-14T08:00:00" "08:00" "10:15" "Business" 3300000].

Definition season_files : gmap string table := {[ history_path := season ]}.

(** The run of the pipeline on the season, with the estimators and the
    shuffle of the worked examples, and what it leaves. *)
Definition season_pipeline :
    result ((option (@model constant_regressor) * list (string * evaluation)) *
            FlightPricePredictor * store) :=
  run_complete_pipeline (H0 := toy_learner) (H1 := reverse_shuffler)
    (H2 := iso_parser) (H3 := memory_reader season_files)
    (init (Some history_path)) ∅.

Definition season_predictor : @FlightPricePredictor constant_regressor :=
  try_except ((λ r, r.1.2) <$> season_pipeline) (init None).

Definition season_store : gmap string (@artifact constant_regressor) :=
  try_except (snd <$> season_pipeline) ∅.

Lemma season_pipeline_Ok :
  season_pipeline
    = Ok ((best_model season_predictor, results season_predictor),
          season_predictor, season_store).
Proof.
  assert (returns season_pipeline = true) as [[[ret self'] files'] Hrun]%returns_is_Ok
    by (vm_compute; reflexivity).
  assert (season_predictor = self') as -> by (unfold season_predictor; by rewrite Hrun).
  assert (season_store = files') as -> by (unfold season_store; by rewrite Hrun).
  unfold season_pipeline in Hrun |- *.
  by destruct (run_complete_pipeline_Ok _ _ _ _ _ Hrun) as (_ & _ & _ & _ & _ & _ & -> & _).
Qed.

Lemma saved_model_serves_witness :
  test_saved_model (H2 := iso_parser) season_store
    = Ok (predict_single_flight (H0 := iso_parser) season_predictor test_flight) ∧
  ∃ predictor, load_model (init None) default_filename season_store = Ok predictor ∧
    predict_single_flight (H0 := iso_parser) predictor flight3
      = predict_single_flight (H0 := iso_parser) season_predictor flight3.
Proof.
  apply (saved_model_serves (H0 := toy_learner) (H1 := reverse_shuffler)
           (H2 := iso_parser) (H3 := memory_reader season_files)
           (init (Some history_path)) ∅
           (best_model season_predictor, results season_predictor)
           season_predictor season_store flight3).
  apply season_pipeline_Ok.
Defined.

Lemma pipeline_serves_witness :
  ∃ predictor v, load_model (init None) default_filename season_store = Ok predictor ∧
    predict_single_flight (H0 := iso_parser) predictor test_flight = Ok v ∧
    predict_single_flight (H0 := iso_parser) season_predictor test_flight = Ok v ∧
    is_number v = true.
Proof.
  apply (pipeline_serves (H0 := toy_learner) (H1 := reverse_shuffler)
           (H2 := iso_parser) (H3 := memory_reader season_files)
           (init (Some history_path)) ∅
           (best_model season_predictor, results season_predictor)
           season_predictor season_store test_flight);
    [apply season_pipeline_Ok|reflexivity|].
  split; [eexists; vm_compute; reflexivity|compute_done].
Defined.

(** Twelve of the seventeen listings reach the feature matrix.  The forest
    has the least cross-validated error and is selected, although the
    boosting has the smaller error on the test part. *)
Example season_selection :
  length <$> X season_predictor = Some 12%nat ∧
  model_type season_predictor = Some "Random Forest" ∧
  (λ kv, (kv.1, cv_mae_mean kv.2, test_mae kv.2)) <$> results season_predictor =
    [("Random Forest", 3965000 # 7, 26300000 # 27);
     ("Gradient Boosting", 630000, 750000);
     ("Decision Tree", 1270000, 4150000 # 3)]%Q.
Proof. vm_compute. done. Qed.

(** The script: the pipeline, then the request of [test_saved_model]
    served from the file. *)
Example season_main :
  fst <$> main (H0 := toy_learner) (H1 := reverse_shuffler) (H2 := iso_parser)
            (H3 := memory_reader season_files) ∅
    = Ok (Ok (VFloat (16850000 # 9))).
Proof. vm_compute. reflexivity. Qed.

(** The demonstration requests, with their days in advance. *)
Example season_demo :
  demo_predictions (H2 := iso_parser) season_predictor
    = Ok [("Economy SGN-HAN", VFloat (16850000 # 9), VInt 4);
          ("book vé sớm", VFloat (16850000 # 9), VInt 45);
          ("Business class", VFloat (16850000 # 9), VInt 7)].
Proof. vm_compute. reflexivity. Qed.
